(** * The tool handlers of the MCP server, and the properties of its
      specification

    The repository holds two editions of [createServer]:

    - [src/src/index.ts] registers its tools with [server.tool]; a handler
      reports a failure by returning a result whose [isError] flag is set;
    - [src/unnamed/part_000] registers them with [server.registerTool]; a
      handler reports a failure by throwing, and mirrors its text in
      [structuredContent].

    Both are embedded below, the first in [Module Index], the second in
    [Module Registered].  Everything outside the repository that the
    handlers call (the JavaScript runtime's conversions, the network, the
    clock, the inference client) is either written out (when it is a few
    lines of the ECMAScript specification) or taken as a field of [Host]
    (the runtime) and [World] (what the outside answers to one invocation). *)

From Stdlib Require Import String Ascii List ZArith Bool Lia.
From Stdlib Require Import Floats DecimalString Decimal DecimalPos DecimalZ.
Import ListNotations.
Open Scope string_scope.
Set Warnings "-register-all".

(** ** JavaScript values *)

(** A value as [JSON.parse] or the argument bag delivers it, plus
    [undefined], which property reads produce.  A number is an IEEE 754
    binary64, as in JavaScript; a string is the UTF-8 text of the
    JavaScript string; [VObj] lists the own properties of an object. *)
Inductive value : Type :=
| VUndefined
| VNull
| VBool (b : bool)
| VNum (n : float)
| VStr (s : string)
| VArr (items : list value)
| VObj (fields : list (string * value)).

(** What a [throw] carries: an [Error] object with its message, or anything
    else ([error instanceof Error] tells them apart). *)
Inductive thrown : Type :=
| ErrorObject (message : string)
| NonError (v : value).

(** The outcome of evaluating JavaScript code: a value, or a throw. *)
Inductive Completion (A : Type) : Type :=
| Normal (a : A)
| Abrupt (e : thrown).
Arguments Normal {A} a.
Arguments Abrupt {A} e.

(** The double quote, for the template literals that contain one. *)
Definition dquote : string := String (ascii_of_nat 34) EmptyString.

(** The line feed written [\n] in the source. *)
Definition nl : string := String (ascii_of_nat 10) EmptyString.

(** The decimal numeral of an integer: what [Number::toString] yields for an
    integer-valued number below 10^21 in magnitude. *)
Definition decimal (z : Z) : string := NilZero.string_of_int (Z.to_int z).

(** The number that holds a (safe) integer. *)
Definition Number_of_Z (z : Z) : float :=
  match z with
  | Z0 => 0%float
  | Zpos _ => PrimFloat.of_uint63 (Uint63.of_Z z)
  | Zneg _ => PrimFloat.opp (PrimFloat.of_uint63 (Uint63.of_Z (Z.opp z)))
  end.

(** The integer a number holds, when it holds one ([Number.isInteger]). *)
Definition Number_to_Z (n : float) : option Z :=
  match Prim2SF n with
  | S754_zero _ => Some 0%Z
  | S754_finite s m e =>
      let sign := if s then (-1)%Z else 1%Z in
      if (0 <=? e)%Z then Some (sign * (Zpos m * 2 ^ e))%Z
      else if (Zpos m mod 2 ^ (- e) =? 0)%Z
           then Some (sign * (Zpos m / 2 ^ (- e)))%Z
           else None
  | S754_infinity _ | S754_nan => None
  end.

Definition is_NaN (n : float) : bool := negb (PrimFloat.eqb n n).

(** The facilities of the JavaScript runtime that the handlers call and that
    are not written out here. *)
Record Host : Type := {
  (** [Number::toString], as template literals and [toString()] apply it. *)
  Number_toString : float -> string;
  (** [StringToNumber], the conversion behind [ToNumber] of a string. *)
  StringToNumber : string -> float;
  (** The global [parseFloat], on the string of its argument. *)
  parseFloat : string -> float;
  (** [Number.prototype.toFixed] with the given number of digits. *)
  toFixed : float -> nat -> string;
  toUpperCase : string -> string;
  toLowerCase : string -> string;
  (** The length of a string in UTF-16 code units, and the code unit at an
      index (as a string), if there is one. *)
  String_length : string -> nat;
  String_at : string -> nat -> option string;
  (** [new Date(v).toLocaleDateString('ko-KR', {month: 'long', day:
      'numeric', weekday: 'short'})], for a value that can be converted
      to a primitive. *)
  Date_toLocaleDateString : value -> string;
  (** [new Date(v).toLocaleString('ko-KR', {month: 'short', day: 'numeric',
      hour: '2-digit', minute: '2-digit'})], likewise. *)
  Date_toLocaleString : value -> string;
  (** The message of the [TypeError] raised by reading a property of
      [undefined] or [null]. *)
  cannot_read : value -> string -> string;
  (** The message of the [TypeError] raised by calling a property that is
      not a function. *)
  not_a_function : string -> string;
  (** The string of the member of [Object.prototype] of the given name. *)
  Object_prototype_text : string -> string
}.

(** No object inside the value has a property named [toString].  After
    [JSON.parse] such a property is never a function, so an object that
    has one cannot be converted to a string, a number or a property key:
    the runtime throws a [TypeError].  The conversions below are those of
    the values that can be converted; every property that formats values
    of an upstream body is stated for [printable] bodies. *)
Fixpoint printable (v : value) : bool :=
  match v with
  | VArr items => forallb printable items
  | VObj fields =>
      forallb (fun '(name, x) => negb (String.eqb name "toString") && printable x) fields
  | _ => true
  end.

Section Conversions.

Variable h : Host.

(** [ToBoolean]. *)
Definition truthy (v : value) : bool :=
  match v with
  | VUndefined | VNull => false
  | VBool b => b
  | VNum n => negb (PrimFloat.eqb n 0 || is_NaN n)
  | VStr s => negb (String.eqb s EmptyString)
  | VArr _ | VObj _ => true
  end.

(** [ToString], as a template literal applies it to an interpolated
    [printable] value.  An array joins its elements with commas,
    [undefined] and [null] elements as the empty string. *)
Fixpoint ToString (v : value) : string :=
  match v with
  | VUndefined => "undefined"
  | VNull => "null"
  | VBool true => "true"
  | VBool false => "false"
  | VNum n => Number_toString h n
  | VStr s => s
  | VArr items =>
      String.concat ","
        (map (fun e => match e with
                       | VUndefined | VNull => EmptyString
                       | _ => ToString e
                       end) items)
  | VObj _ => "[object Object]"
  end.

(** [ToNumber] of a [printable] value. *)
Definition ToNumber (v : value) : float :=
  match v with
  | VUndefined => nan
  | VNull => 0%float
  | VBool true => 1%float
  | VBool false => 0%float
  | VNum n => n
  | VStr s => StringToNumber h s
  | VArr _ | VObj _ => StringToNumber h (ToString v)
  end.

(** The own property [p] of an object, [undefined] when it has none. *)
Fixpoint own_property (fields : list (string * value)) (p : string) : value :=
  match fields with
  | [] => VUndefined
  | (k, v) :: rest => if String.eqb k p then v else own_property rest p
  end.

(** [v.p] for the property names the handlers read: reading a property of
    [undefined] or [null] throws a [TypeError]; an array and a string have
    a [length]; other primitives have none of the names.  (None of the
    names is a member of [Object.prototype], [Array.prototype] or
    [String.prototype].) *)
Definition get (v : value) (p : string) : Completion value :=
  match v with
  | VUndefined | VNull => Abrupt (ErrorObject (cannot_read h v p))
  | VObj fields => Normal (own_property fields p)
  | VArr items =>
      Normal (if String.eqb p "length"
              then VNum (Number_of_Z (Z.of_nat (length items)))
              else VUndefined)
  | VStr s =>
      Normal (if String.eqb p "length"
              then VNum (Number_of_Z (Z.of_nat (String_length h s)))
              else VUndefined)
  | VBool _ | VNum _ => Normal VUndefined
  end.

(** [v?.p]: [undefined] instead of a throw. *)
Definition get_opt (v : value) (p : string) : value :=
  match get v p with
  | Normal x => x
  | Abrupt _ => VUndefined
  end.

(** [v?.[i]] for a loop index [i]. *)
Definition index_opt (v : value) (i : nat) : value :=
  match v with
  | VArr items => nth i items VUndefined
  | VStr s => match String_at h s i with Some c => VStr c | None => VUndefined end
  | VObj fields => own_property fields (decimal (Z.of_nat i))
  | VUndefined | VNull | VBool _ | VNum _ => VUndefined
  end.

(** [v[i]]. *)
Definition index (v : value) (i : nat) : Completion value :=
  match v with
  | VUndefined | VNull =>
      Abrupt (ErrorObject (cannot_read h v (decimal (Z.of_nat i))))
  | _ => Normal (index_opt v i)
  end.

(** [a || b] on values. *)
Definition or_else (a b : value) : value := if truthy a then a else b.

(** [Array.isArray]. *)
Definition isArray (v : value) : bool :=
  match v with VArr _ => true | _ => false end.

(** [v !== undefined]. *)
Definition defined (v : value) : bool :=
  match v with VUndefined => false | _ => true end.

(** [Math.min] of two numbers, up to the sign of a zero result (which a
    comparison cannot observe). *)
Definition Math_min (x y : float) : float :=
  if is_NaN x || is_NaN y then nan
  else if PrimFloat.ltb x y then x else y.

(** What [.length] of a value is: a count the runtime keeps itself (an
    array's, a string's), or whatever the property named [length] holds. *)
Inductive Length : Type :=
| Counted (n : nat)
| Held (v : value).

Definition length_of (v : value) : Completion Length :=
  match v with
  | VUndefined | VNull => Abrupt (ErrorObject (cannot_read h v "length"))
  | VArr items => Normal (Counted (length items))
  | VStr s => Normal (Counted (String_length h s))
  | VObj fields => Normal (Held (own_property fields "length"))
  | VBool _ | VNum _ => Normal (Held VUndefined)
  end.

(** How many [i = 0, 1, ...] in a row satisfy [i < b], among the first
    [bound]. *)
Fixpoint count_below (b : float) (i bound : nat) : nat :=
  match bound with
  | O => O
  | S bound' =>
      if PrimFloat.ltb (Number_of_Z (Z.of_nat i)) b
      then S (count_below b (S i) bound')
      else O
  end.

(** The number of rounds of [for (let i = 0; i < Math.min(len, k); i++)]
    for an integer [k].  A counted length is compared as the integer it
    is; otherwise the bound is at most [k] (or [NaN]), so at most [k]
    rounds run. *)
Definition loop_rounds (len : Length) (k : Z) : nat :=
  match len with
  | Counted n => Z.to_nat (Z.min (Z.of_nat n) k)
  | Held v =>
      count_below (Math_min (ToNumber v) (Number_of_Z k)) 0 (Z.to_nat k)
  end.

End Conversions.

(** ** Results, the outside world, and effects *)

(** One unit of a result: text, or a base64-carried image. *)
Inductive ContentBlock : Type :=
| TextContent (text : string)
| ImageContent (data : string) (mimeType : string).

(** What a handler returns.  [structuredContent] is the optional mirror
    [{content: [...]}]; an absent [isError] is [false]. *)
Record InvocationResult : Type := {
  content : list ContentBlock;
  structuredContent : option (list ContentBlock);
  isError : bool
}.

(** [{content: [{type: 'text', text}]}]. *)
Definition text_result (text : string) : InvocationResult :=
  {| content := [TextContent text]; structuredContent := None; isError := false |}.

(** [{content: [{type: 'text', text}], isError: true}]. *)
Definition error_result (text : string) : InvocationResult :=
  {| content := [TextContent text]; structuredContent := None; isError := true |}.

(** [{content: [{type: 'text', text}], structuredContent: {content:
    [{type: 'text', text}]}}]. *)
Definition mirrored_result (text : string) : InvocationResult :=
  {| content := [TextContent text];
     structuredContent := Some [TextContent text];
     isError := false |}.

(** [{content: [{type: 'image', data, mimeType: 'image/png'}]}]. *)
Definition image_result (data : string) : InvocationResult :=
  {| content := [ImageContent data "image/png"];
     structuredContent := None;
     isError := false |}.

(** The texts of the text blocks of a result, in order. *)
Definition texts (r : InvocationResult) : list string :=
  flat_map (fun b => match b with TextContent t => [t] | ImageContent _ _ => [] end)
           (content r).

(** The texts of what a run returned: none when it threw. *)
Definition texts_of {E : Type} (outcome : Completion InvocationResult * E) : list string :=
  match fst outcome with
  | Normal r => texts r
  | Abrupt _ => []
  end.

(** An outbound HTTP GET: the endpoint, the [URLSearchParams] entries in
    order, and the request headers. *)
Record Request : Type := {
  endpoint : string;
  params : list (string * string);
  headers : list (string * string)
}.

(** What [fetch] resolves to: [response.ok], [response.status],
    [response.statusText], and what [response.json()] gives. *)
Record Response : Type := {
  ok : bool;
  status : Z;
  statusText : string;
  json : Completion value
}.

(** A call of [InferenceClient.textToImage]: the token the client was built
    with ([None] for [undefined]) and the fields of the call. *)
Record ImageRequest : Type := {
  accessToken : option string;
  provider : string;
  model : string;
  inputs : string;
  num_inference_steps : Z
}.

(** What the outside answers during one invocation. *)
Record World : Type := {
  (** [fetch(url, {headers})]: a response, or a rejection. *)
  fetch : Request -> Completion Response;
  (** [textToImage] followed by [arrayBuffer()]: the image bytes, or a
      rejection. *)
  textToImage : ImageRequest -> Completion (list Byte.byte);
  (** [new Intl.DateTimeFormat('ko-KR', {timeZone, ...}).format(new Date())]:
      the formatted instant, or the [RangeError] of an unknown zone. *)
  DateTimeFormat_now : string -> Completion string;
  (** [process.env.HF_TOKEN]. *)
  HF_TOKEN : option string
}.

(** The outbound calls of an invocation. *)
Inductive Event : Type :=
| Fetched (req : Request)
| Inferred (req : ImageRequest).

(** A computation that may throw and that logs its outbound calls. *)
Definition Eff (A : Type) : Type := list Event -> Completion A * list Event.

Definition ret {A : Type} (a : A) : Eff A := fun log => (Normal a, log).

(** [throw e]. *)
Definition throw {A : Type} (e : thrown) : Eff A := fun log => (Abrupt e, log).

Definition bind {A B : Type} (m : Eff A) (k : A -> Eff B) : Eff B :=
  fun log =>
    match m log with
    | (Normal a, log') => k a log'
    | (Abrupt e, log') => (Abrupt e, log')
    end.

(** [try { body } catch (error) { handler }]. *)
Definition try_catch {A : Type} (body : Eff A) (handler : thrown -> Eff A) : Eff A :=
  fun log =>
    match body log with
    | (Normal a, log') => (Normal a, log')
    | (Abrupt e, log') => handler e log'
    end.

(** A pure evaluation that may throw. *)
Definition lift {A : Type} (c : Completion A) : Eff A := fun log => (c, log).

Declare Scope eff_scope.
Delimit Scope eff_scope with eff.
Notation "x <- m ;; k" := (bind m (fun x => k))
  (at level 61, m at next level, right associativity) : eff_scope.
Open Scope eff_scope.

(** [await fetch(...)]. *)
Definition do_fetch (w : World) (req : Request) : Eff Response :=
  fun log => (fetch w req, (log ++ [Fetched req])%list).

(** [await client.textToImage(...)] and [await blob.arrayBuffer()]. *)
Definition do_textToImage (w : World) (req : ImageRequest) : Eff (list Byte.byte) :=
  fun log => (textToImage w req, (log ++ [Inferred req])%list).

(** [error instanceof Error ? error.message : fallback]. *)
Definition message_or (e : thrown) (fallback : string) : string :=
  match e with
  | ErrorObject message => message
  | NonError _ => fallback
  end.

(** Running a handler from an empty log. *)
Definition run {A : Type} (m : Eff A) : Completion A * list Event := m [].

(** [for (let i = start; i < start + rounds; i++) { body }], where the body
    updates [resultText] and may throw. *)
Fixpoint for_loop (body : nat -> string -> Completion string)
    (i rounds : nat) (resultText : string) : Completion string :=
  match rounds with
  | O => Normal resultText
  | S rounds' =>
      match body i resultText with
      | Normal resultText' => for_loop body (S i) rounds' resultText'
      | Abrupt e => Abrupt e
      end
  end.

(** [items.map((result, index) => f(result, index))], from [index] on: the
    callback runs on the elements in order, and its first throw ends the
    map. *)
Fixpoint map_indexed {A : Type} (f : value -> nat -> Completion A)
    (items : list value) (index : nat) : Completion (list A) :=
  match items with
  | [] => Normal []
  | result :: rest =>
      match f result index with
      | Abrupt e => Abrupt e
      | Normal a =>
          match map_indexed f rest (S index) with
          | Abrupt e => Abrupt e
          | Normal l => Normal (a :: l)
          end
      end
  end.

(** ** Base64

    [Buffer.from(arrayBuffer).toString('base64')]: three bytes make four
    digits; a last group of one or two bytes is padded with [=]. *)

Definition base64_digits : string :=
  "ABCDEFGHIJKLMNOPQRSTUVWXYZabcdefghijklmnopqrstuvwxyz0123456789+/".

(** The digit of a six-bit number. *)
Definition base64_digit (n : N) : string :=
  match String.get (N.to_nat (n mod 64)) base64_digits with
  | Some c => String c EmptyString
  | None => EmptyString
  end.

Fixpoint base64 (bytes : list Byte.byte) : string :=
  match bytes with
  | [] => EmptyString
  | [a] =>
      let n := (Byte.to_N a * 65536)%N in
      base64_digit (n / 262144) ++ base64_digit (n / 4096) ++ "=="
  | [a; b] =>
      let n := (Byte.to_N a * 65536 + Byte.to_N b * 256)%N in
      base64_digit (n / 262144) ++ base64_digit (n / 4096)
      ++ base64_digit (n / 64) ++ "="
  | a :: b :: c :: rest =>
      let n := (Byte.to_N a * 65536 + Byte.to_N b * 256 + Byte.to_N c)%N in
      base64_digit (n / 262144) ++ base64_digit (n / 4096)
      ++ base64_digit (n / 64) ++ base64_digit n ++ base64 rest
  end.

(** ** Input schemas

    The schemas are declared with zod; the combinators below follow zod's
    documented behaviour for the declarations the two editions use. *)

Module Zod.

(** A schema parses a raw value into a typed one, or rejects it. *)
Definition Schema (A : Type) : Type := value -> option A.

(** [z.string()]. *)
Definition string_ : Schema string :=
  fun v => match v with VStr s => Some s | _ => None end.

(** [z.number()]: a number other than [NaN]. *)
Definition number : Schema float :=
  fun v => match v with
           | VNum n => if is_NaN n then None else Some n
           | _ => None
           end.

(** [z.number().int().min(lo).max(hi)]. *)
Definition int_between (lo hi : Z) : Schema Z :=
  fun v => match number v with
           | Some n =>
               match Number_to_Z n with
               | Some z => if ((lo <=? z) && (z <=? hi))%Z then Some z else None
               | None => None
               end
           | None => None
           end.

(** [z.number().min(lo).max(hi)], for integer bounds. *)
Definition number_between (lo hi : Z) : Schema float :=
  fun v => match number v with
           | Some n =>
               if PrimFloat.leb (Number_of_Z lo) n && PrimFloat.leb n (Number_of_Z hi)
               then Some n else None
           | None => None
           end.

(** [z.enum([...])]. *)
Definition enum (options : list string) : Schema string :=
  fun v => match v with
           | VStr s => if existsb (String.eqb s) options then Some s else None
           | _ => None
           end.

(** [schema.optional()]. *)
Definition optional {A : Type} (schema : Schema A) : Schema (option A) :=
  fun v => match v with
           | VUndefined => Some None
           | _ => option_map Some (schema v)
           end.

(** [schema.optional().default(d)]: an absent input is parsed as [d]. *)
Definition optional_default {A : Type} (schema : Schema A) (d : value) : Schema A :=
  fun v => match optional schema (match v with VUndefined => d | _ => v end) with
           | Some (Some a) => Some a
           | _ => None
           end.

(** The outcome of validating an argument bag: the typed arguments, or the
    name of the offending field (the empty name for the bag itself). *)
Inductive Validation (A : Type) : Type :=
| Valid (a : A)
| Invalid (field : string).
Arguments Valid {A} a.
Arguments Invalid {A} field.

(** The field [name] of the bag [raw], parsed by [schema]. *)
Definition field {A : Type} (raw : value) (name : string) (schema : Schema A)
  : Validation A :=
  match raw with
  | VObj fields =>
      match schema (own_property fields name) with
      | Some a => Valid a
      | None => Invalid name
      end
  | _ => Invalid EmptyString
  end.

Definition and_then {A B : Type} (v : Validation A) (k : A -> Validation B)
  : Validation B :=
  match v with
  | Valid a => k a
  | Invalid f => Invalid f
  end.

End Zod.

Notation "x <-- v ;;; k" := (Zod.and_then v (fun x => k))
  (at level 61, v at next level, right associativity) : eff_scope.

(** A registered tool: its name, its description, the type of its validated
    arguments, its input schema, and its handler. *)
Record ToolDefinition : Type := {
  tool_name : string;
  description : string;
  Args : Type;
  inputSchema : value -> Zod.Validation Args;
  handler : Host -> World -> Args -> Eff InvocationResult
}.

(** Sequencing of pure evaluations that may throw. *)
Definition and_next {A B : Type} (c : Completion A) (k : A -> Completion B)
  : Completion B :=
  match c with
  | Normal a => k a
  | Abrupt e => Abrupt e
  end.

Notation "x <~ c ;; k" := (and_next c (fun x => k))
  (at level 61, c at next level, right associativity) : eff_scope.

(** A destructuring default, [{ x = d }]. *)
Definition or_default {A : Type} (x : option A) (d : A) : A :=
  match x with
  | Some a => a
  | None => d
  end.

(** [if (s)] on an optional string argument: present and not empty. *)
Definition given (s : option string) : bool :=
  match s with
  | Some x => negb (String.eqb x EmptyString)
  | None => false
  end.

(** ** The input schemas of the tools

    Both editions declare the same schemas, except that [get-weather] of
    [part_000] takes one more field. *)

Module Schemas.

(** [{name: z.string(), language: z.enum(['ko', 'en']).optional().default('en')}]. *)
Definition greet (raw : value) : Zod.Validation (string * string) :=
  name <-- Zod.field raw "name" Zod.string_ ;;;
  language <-- Zod.field raw "language"
                 (Zod.optional_default (Zod.enum ["ko"; "en"]) (VStr "en")) ;;;
  Zod.Valid (name, language).

(** [{num1: z.number(), num2: z.number(), operator: z.enum(['+', '-', '*', '/'])}]. *)
Definition calculator (raw : value) : Zod.Validation (float * float * string) :=
  num1 <-- Zod.field raw "num1" Zod.number ;;;
  num2 <-- Zod.field raw "num2" Zod.number ;;;
  operator <-- Zod.field raw "operator" (Zod.enum ["+"; "-"; "*"; "/"]) ;;;
  Zod.Valid (num1, num2, operator).

(** [{timezone: z.string()}]. *)
Definition getTime (raw : value) : Zod.Validation string :=
  Zod.field raw "timezone" Zod.string_.

(** [{address: z.string(),
      limit: z.number().int().min(1).max(10).optional().default(1),
      country: z.string().optional()}]. *)
Definition geocode (raw : value) : Zod.Validation (string * Z * option string) :=
  address <-- Zod.field raw "address" Zod.string_ ;;;
  limit <-- Zod.field raw "limit"
              (Zod.optional_default (Zod.int_between 1 10) (VNum 1)) ;;;
  country <-- Zod.field raw "country" (Zod.optional Zod.string_) ;;;
  Zod.Valid (address, limit, country).

(** [{latitude: z.number().min(-90).max(90),
      longitude: z.number().min(-180).max(180),
      forecast_days: z.number().int().min(1).max(16).optional().default(7)}]. *)
Definition get_weather (raw : value) : Zod.Validation (float * float * Z) :=
  latitude <-- Zod.field raw "latitude" (Zod.number_between (-90) 90) ;;;
  longitude <-- Zod.field raw "longitude" (Zod.number_between (-180) 180) ;;;
  forecast_days <-- Zod.field raw "forecast_days"
                      (Zod.optional_default (Zod.int_between 1 16) (VNum 7)) ;;;
  Zod.Valid (latitude, longitude, forecast_days).

(** The same with [timezone: z.string().optional()]. *)
Definition get_weather_timezone (raw : value)
  : Zod.Validation (float * float * Z * option string) :=
  args <-- get_weather raw ;;;
  timezone <-- Zod.field raw "timezone" (Zod.optional Zod.string_) ;;;
  Zod.Valid (args, timezone).

(** [{prompt: z.string()}]. *)
Definition generate_image (raw : value) : Zod.Validation string :=
  Zod.field raw "prompt" Zod.string_.

End Schemas.

(** ** The edition of [src/src/index.ts] *)

Module Index.

(** The handler of [greet]. *)
Definition greet (name language : string) : Eff InvocationResult :=
  let greeting :=
    if String.eqb language "ko"
    then "안녕하세요, " ++ name ++ "님!"
    else "Hey there, " ++ name ++ "! 👋 Nice to meet you!" in
  ret (text_result greeting).

(** The [switch] of [calculator]: an early return, or the [result]. *)
Definition calculator_switch (num1 num2 : float) (operator : string)
  : InvocationResult + float :=
  if String.eqb operator "+" then inr (num1 + num2)%float
  else if String.eqb operator "-" then inr (num1 - num2)%float
  else if String.eqb operator "*" then inr (num1 * num2)%float
  else if String.eqb operator "/" then
    if PrimFloat.eqb num2 0
    then inl (error_result "오류: 0으로 나눌 수 없습니다.")
    else inr (num1 / num2)%float
  else inl (error_result "오류: 지원하지 않는 연산자입니다.").

(** The handler of [calculator]. *)
Definition calculator (h : Host) (num1 num2 : float) (operator : string)
  : Eff InvocationResult :=
  match calculator_switch num1 num2 operator with
  | inl early => ret early
  | inr result =>
      ret (text_result
             (Number_toString h num1 ++ " " ++ operator ++ " "
              ++ Number_toString h num2 ++ " = " ++ Number_toString h result))
  end.

(** The handler of [getTime]. *)
Definition getTime (w : World) (timezone : string) : Eff InvocationResult :=
  try_catch
    (formattedTime <- lift (DateTimeFormat_now w timezone) ;;
     ret (text_result
            ("Timezone: " ++ timezone ++ nl ++ "현재 시간: " ++ formattedTime)))
    (fun error =>
       ret (error_result ("유효하지 않은 timezone입니다: " ++ timezone))).

(** The request of [geocode]. *)
Definition geocode_request (h : Host) (address : string) (limit : Z)
    (country : option string) : Request :=
  {| endpoint := "https://nominatim.openstreetmap.org/search";
     params :=
       ([("q", address); ("format", "json"); ("limit", decimal limit);
         ("addressdetails", "1")]
        ++ match country with
           | Some c => if given country then [("countrycodes", toLowerCase h c)] else []
           | None => []
           end)%list;
     headers := [("User-Agent", "MCP-Geocode-Tool/1.0"); ("Accept", "application/json")] |}.

(** The callback of [data.map] in [geocode]. *)
Definition geocode_block (h : Host) (result : value) (index : nat) : Completion string :=
  display_name <~ get h result "display_name" ;;
  lat <~ get h result "lat" ;;
  lon <~ get h result "lon" ;;
  Normal ("결과 " ++ decimal (Z.of_nat index + 1) ++ ":" ++ nl
          ++ "주소: " ++ ToString h display_name ++ nl
          ++ "위도: " ++ ToString h lat ++ nl
          ++ "경도: " ++ ToString h lon).

(** The handler of [geocode]. *)
Definition geocode (h : Host) (w : World) (address : string) (limit : option Z)
    (country : option string) : Eff InvocationResult :=
  let limit := or_default limit 1%Z in
  try_catch
    (response <- do_fetch w (geocode_request h address limit country) ;;
     if negb (ok response)
     then ret (error_result ("API 요청 실패: " ++ decimal (status response)))
     else
       data <- lift (json response) ;;
       match data with
       | VArr ((_ :: _) as items) =>
           blocks <- lift (map_indexed (geocode_block h) items 0) ;;
           let results := String.concat (nl ++ nl) blocks in
           ret (text_result
                  ("검색어: " ++ dquote ++ address ++ dquote ++ nl ++ nl ++ results))
       | _ =>
           ret (text_result
                  ("주소 " ++ dquote ++ address ++ dquote
                   ++ "에 대한 검색 결과가 없습니다."))
       end)
    (fun error =>
       let errorMessage := message_or error "알 수 없는 오류" in
       ret (error_result ("Geocoding 오류: " ++ errorMessage))).

(** The request of [get-weather]. *)
Definition weather_request (h : Host) (latitude longitude : float) (forecast_days : Z)
  : Request :=
  {| endpoint := "https://api.open-meteo.com/v1/forecast";
     params :=
       [("latitude", Number_toString h latitude);
        ("longitude", Number_toString h longitude);
        ("forecast_days", decimal forecast_days);
        ("current_weather", "true");
        ("daily", "temperature_2m_max,temperature_2m_min,precipitation_sum,weather_code")];
     headers := [] |}.

(** The current-weather block of [get-weather]. *)
Definition current_block (h : Host) (data : value) (resultText : string)
  : Completion string :=
  current <~ get h data "current_weather" ;;
  if truthy current then
    temperature <~ get h current "temperature" ;;
    wind_speed <~ get h current "wind_speed" ;;
    Normal (resultText
            ++ "🌤️ 현재 날씨" ++ nl
            ++ "온도: " ++ ToString h temperature ++ "°C" ++ nl
            ++ "풍속: " ++ ToString h wind_speed ++ " km/h" ++ nl ++ nl)
  else Normal resultText.

(** One round of the daily loop of [get-weather]. *)
Definition daily_round (h : Host) (daily : value) (i : nat) (resultText : string)
  : Completion string :=
  time <~ get h daily "time" ;;
  date <~ index h time i ;;
  temperature_2m_max <~ get h daily "temperature_2m_max" ;;
  let maxTemp := index_opt h temperature_2m_max i in
  temperature_2m_min <~ get h daily "temperature_2m_min" ;;
  let minTemp := index_opt h temperature_2m_min i in
  Normal (resultText ++ ToString h date ++ ": " ++ ToString h minTemp ++ "°C ~ "
          ++ ToString h maxTemp ++ "°C" ++ nl).

(** The daily-forecast block of [get-weather]:
    [if (data.daily && data.daily.time) { ... }]. *)
Definition daily_block (h : Host) (forecast_days : Z) (data : value)
    (resultText : string) : Completion string :=
  daily <~ get h data "daily" ;;
  if truthy daily then
    time <~ get h daily "time" ;;
    if truthy time then
      len <~ length_of h time ;;
      for_loop (daily_round h daily) 0 (loop_rounds h len forecast_days)
        (resultText ++ "📅 " ++ decimal forecast_days ++ "일 예보" ++ nl)
    else Normal resultText
  else Normal resultText.

(** The handler of [get-weather]. *)
Definition get_weather (h : Host) (w : World) (latitude longitude : float)
    (forecast_days : option Z) : Eff InvocationResult :=
  let forecast_days := or_default forecast_days 7%Z in
  try_catch
    (response <- do_fetch w (weather_request h latitude longitude forecast_days) ;;
     if negb (ok response)
     then ret (error_result ("API 요청 실패: " ++ decimal (status response)))
     else
       data <- lift (json response) ;;
       let resultText :=
         "📍 위치: 위도 " ++ Number_toString h latitude ++ ", 경도 "
         ++ Number_toString h longitude ++ nl ++ nl in
       resultText <- lift (current_block h data resultText) ;;
       resultText <- lift (daily_block h forecast_days data resultText) ;;
       ret (text_result resultText))
    (fun error =>
       let errorMessage := message_or error "알 수 없는 오류" in
       ret (error_result ("날씨 조회 오류: " ++ errorMessage))).

(** The handler of [generate-image]. *)
Definition generate_image (h : Host) (w : World) (prompt : string)
  : Eff InvocationResult :=
  try_catch
    (let hfToken := HF_TOKEN w in
     if negb (given hfToken)
     then ret (error_result "HF_TOKEN 환경 변수가 설정되지 않았습니다.")
     else
       bytes <- do_textToImage w
                  {| accessToken := hfToken;
                     provider := "hf-inference";
                     model := "black-forest-labs/FLUX.1-schnell";
                     inputs := prompt;
                     num_inference_steps := 5 |} ;;
       let base64Data := base64 bytes in
       ret (image_result base64Data))
    (fun error =>
       let errorMessage := message_or error "알 수 없는 오류" in
       ret (error_result ("이미지 생성 오류: " ++ errorMessage))).

(** The registration of [greet]. *)
Definition greet_tool : ToolDefinition :=
  {| tool_name := "greet";
     description := "이름과 언어를 입력하면 인사말을 반환합니다.";
     inputSchema := Schemas.greet;
     handler := fun _ _ '(name, language) => greet name language |}.

(** The registration of [calculator]. *)
Definition calculator_tool : ToolDefinition :=
  {| tool_name := "calculator";
     description := "두 개의 숫자와 연산자를 입력받아 사칙연산 결과를 반환합니다.";
     inputSchema := Schemas.calculator;
     handler := fun h _ '(num1, num2, operator) => calculator h num1 num2 operator |}.

(** The registration of [getTime]. *)
Definition getTime_tool : ToolDefinition :=
  {| tool_name := "getTime";
     description := "Timezone을 입력받아 해당 시간대의 현재 시간을 반환합니다.";
     inputSchema := Schemas.getTime;
     handler := fun _ w timezone => getTime w timezone |}.

(** The registration of [geocode]. *)
Definition geocode_tool : ToolDefinition :=
  {| tool_name := "geocode";
     description := "도시 이름이나 주소를 입력받아 위도와 경도 좌표를 반환합니다.";
     inputSchema := Schemas.geocode;
     handler := fun h w '(address, limit, country) =>
                  geocode h w address (Some limit) country |}.

(** The registration of [get-weather]. *)
Definition get_weather_tool : ToolDefinition :=
  {| tool_name := "get-weather";
     description := "위도와 경도 좌표를 입력받아 현재 날씨와 예보 정보를 제공합니다.";
     inputSchema := Schemas.get_weather;
     handler := fun h w '(latitude, longitude, forecast_days) =>
                  get_weather h w latitude longitude (Some forecast_days) |}.

(** The registration of [generate-image]. *)
Definition generate_image_tool : ToolDefinition :=
  {| tool_name := "generate-image";
     description := "텍스트 프롬프트를 입력받아 AI 이미지를 생성합니다. (HF_TOKEN 환경변수 필요)";
     inputSchema := Schemas.generate_image;
     handler := fun h w prompt => generate_image h w prompt |}.

(** The tools that [createServer] registers, in order. *)
Definition createServer : list ToolDefinition :=
  [ greet_tool;
    calculator_tool;
    getTime_tool;
    geocode_tool;
    get_weather_tool;
    generate_image_tool ].

End Index.

(** ** The edition of [src/unnamed/part_000] *)

Module Registered.

(** The smithery configuration: [{hfToken?: string}]. *)
Record Config : Type := { hfToken : option string }.

(** The static table of [getWeatherDescription], as its object literal
    lists it: WMO code, description. *)
Definition weatherCodes : list (Z * string) :=
  [ (0, "☀️ 맑음");
    (1, "🌤️ 대체로 맑음");
    (2, "⛅ 부분적으로 흐림");
    (3, "☁️ 흐림");
    (45, "🌫️ 안개");
    (48, "🌫️ 서리 안개");
    (51, "🌦️ 약한 이슬비");
    (53, "🌦️ 보통 이슬비");
    (55, "🌦️ 강한 이슬비");
    (56, "🌨️ 약한 진눈깨비");
    (57, "🌨️ 강한 진눈깨비");
    (61, "🌧️ 약한 비");
    (63, "🌧️ 보통 비");
    (65, "🌧️ 강한 비");
    (66, "🌨️ 약한 진눈깨비");
    (67, "🌨️ 강한 진눈깨비");
    (71, "❄️ 약한 눈");
    (73, "❄️ 보통 눈");
    (75, "❄️ 강한 눈");
    (77, "❄️ 눈알갱이");
    (80, "🌦️ 약한 소나기");
    (81, "🌦️ 보통 소나기");
    (82, "🌦️ 강한 소나기");
    (85, "🌨️ 약한 눈 소나기");
    (86, "🌨️ 강한 눈 소나기");
    (95, "⛈️ 천둥번개");
    (96, "⛈️ 우박과 함께 천둥번개");
    (99, "⛈️ 강한 우박과 함께 천둥번개") ]%Z.

(** The names that every object literal inherits from [Object.prototype];
    each names a function or an object, which is truthy. *)
Definition Object_prototype_names : list string :=
  [ "constructor"; "hasOwnProperty"; "isPrototypeOf"; "propertyIsEnumerable";
    "toLocaleString"; "toString"; "valueOf"; "__proto__";
    "__defineGetter__"; "__defineSetter__"; "__lookupGetter__"; "__lookupSetter__" ].

(** The own entry of [weatherCodes] under a property key: the numeric keys
    of the literal are the keys of their decimal numerals. *)
Definition weatherCodes_own (key : string) : option string :=
  match find (fun entry => String.eqb (decimal (fst entry)) key) weatherCodes with
  | Some (_, description) => Some description
  | None => None
  end.

(** [getWeatherDescription(code)], as the string a template literal makes of
    what it returns: [weatherCodes[code] || `날씨 코드: ${code}`].  The
    property key of a code that can be converted is its string. *)
Definition getWeatherDescription (h : Host) (code : value) : string :=
  let key := ToString h code in
  let fallback := "날씨 코드: " ++ ToString h code in
  match weatherCodes_own key with
  | Some description => if truthy (VStr description) then description else fallback
  | None =>
      if existsb (String.eqb key) Object_prototype_names
      then Object_prototype_text h key
      else fallback
  end.

(** The handler of [greet]. *)
Definition greet (name language : string) : Eff InvocationResult :=
  let greeting :=
    if String.eqb language "ko"
    then "안녕하세요, " ++ name ++ "님!"
    else "Hey there, " ++ name ++ "! 👋 Nice to meet you!" in
  ret (mirrored_result greeting).

(** The [switch] of [calculator]: a throw, or the [result]. *)
Definition calculator_switch (num1 num2 : float) (operator : string)
  : Completion float :=
  if String.eqb operator "+" then Normal (num1 + num2)%float
  else if String.eqb operator "-" then Normal (num1 - num2)%float
  else if String.eqb operator "*" then Normal (num1 * num2)%float
  else if String.eqb operator "/" then
    if PrimFloat.eqb num2 0
    then Abrupt (ErrorObject "0으로 나눌 수 없습니다.")
    else Normal (num1 / num2)%float
  else Abrupt (ErrorObject "지원하지 않는 연산자입니다.").

(** The handler of [calculator]. *)
Definition calculator (h : Host) (num1 num2 : float) (operator : string)
  : Eff InvocationResult :=
  result <- lift (calculator_switch num1 num2 operator) ;;
  let resultText :=
    Number_toString h num1 ++ " " ++ operator ++ " "
    ++ Number_toString h num2 ++ " = " ++ Number_toString h result in
  ret (mirrored_result resultText).

(** The handler of [getTime]. *)
Definition getTime (w : World) (timezone : string) : Eff InvocationResult :=
  try_catch
    (formattedTime <- lift (DateTimeFormat_now w timezone) ;;
     let timeText := "Timezone: " ++ timezone ++ nl ++ "현재 시간: " ++ formattedTime in
     ret (mirrored_result timeText))
    (fun error =>
       throw (ErrorObject
                ("유효하지 않은 timezone입니다: " ++ timezone
                 ++ ". IANA Timezone 형식을 사용해주세요 (예: Asia/Seoul, America/New_York)."))).

(** The request of [geocode]. *)
Definition geocode_request (h : Host) (address : string) (limit : Z)
    (country : option string) : Request :=
  {| endpoint := "https://nominatim.openstreetmap.org/search";
     params :=
       ([("q", address); ("format", "json"); ("limit", decimal limit);
         ("addressdetails", "1")]
        ++ match country with
           | Some c => if given country then [("countrycodes", toLowerCase h c)] else []
           | None => []
           end)%list;
     headers := [("User-Agent", "MCP-Geocode-Tool/1.0"); ("Accept", "application/json")] |}.

(** [result.address?.country_code?.toUpperCase()]: [undefined] when the
    chain stops short, the upper-cased string of a string, and a
    [TypeError] for any other value, which has no such method. *)
Definition country_code_upper (h : Host) (address : value) : Completion value :=
  match get_opt h address "country_code" with
  | VUndefined | VNull => Normal VUndefined
  | VStr s => Normal (VStr (toUpperCase h s))
  | _ => Abrupt (ErrorObject
                   (not_a_function h "result.address?.country_code?.toUpperCase"))
  end.

(** The detail lines pushed for [result.address]. *)
Definition address_details (h : Host) (addr : value) : Completion (list string) :=
  city <~ get h addr "city" ;;
  town <~ get h addr "town" ;;
  village <~ get h addr "village" ;;
  state <~ get h addr "state" ;;
  postcode <~ get h addr "postcode" ;;
  let place := or_else (or_else city town) village in
  let city_line := if truthy place then ["도시: " ++ ToString h place] else [] in
  let state_line := if truthy state then ["주/도: " ++ ToString h state] else [] in
  let postcode_line :=
    if truthy postcode then ["우편번호: " ++ ToString h postcode] else [] in
  Normal (city_line ++ state_line ++ postcode_line)%list.

(** The callback of [data.map] in [geocode]. *)
Definition geocode_block (h : Host) (address : string) (result : value) (index : nat)
  : Completion string :=
  result_lat <~ get h result "lat" ;;
  let lat := parseFloat h (ToString h result_lat) in
  result_lon <~ get h result "lon" ;;
  let lon := parseFloat h (ToString h result_lon) in
  display_name <~ get h result "display_name" ;;
  let displayName := or_else display_name (VStr address) in
  result_importance <~ get h result "importance" ;;
  let importance :=
    if truthy result_importance
    then toFixed h (parseFloat h (ToString h result_importance)) 4
    else "N/A" in
  result_address <~ get h result "address" ;;
  upper <~ country_code_upper h result_address ;;
  let countryCode := or_else upper (VStr "N/A") in
  let resultText :=
    "결과 " ++ decimal (Z.of_nat index + 1) ++ ":" ++ nl
    ++ "주소: " ++ ToString h displayName ++ nl
    ++ "위도: " ++ Number_toString h lat ++ nl
    ++ "경도: " ++ Number_toString h lon ++ nl
    ++ "국가 코드: " ++ ToString h countryCode ++ nl
    ++ "중요도: " ++ importance in
  if truthy result_address then
    details <~ address_details h result_address ;;
    match details with
    | [] => Normal resultText
    | _ :: _ => Normal (resultText ++ nl ++ String.concat ", " details)
    end
  else Normal resultText.

(** [country ? ` (국가: ${country})` : ''], of the no-results message. *)
Definition countryMsg (country : option string) : string :=
  match country with
  | Some c => if given country then " (국가: " ++ c ++ ")" else EmptyString
  | None => EmptyString
  end.

(** [country ? ` (국가 필터: ${country})` : ''], of the header. *)
Definition countryInfo (country : option string) : string :=
  match country with
  | Some c => if given country then " (국가 필터: " ++ c ++ ")" else EmptyString
  | None => EmptyString
  end.

(** The handler of [geocode]. *)
Definition geocode (h : Host) (w : World) (address : string) (limit : option Z)
    (country : option string) : Eff InvocationResult :=
  let limit := or_default limit 1%Z in
  try_catch
    (response <- do_fetch w (geocode_request h address limit country) ;;
     if negb (ok response)
     then throw (ErrorObject ("API 요청 실패: " ++ decimal (status response)
                              ++ " " ++ statusText response))
     else
       data <- lift (json response) ;;
       match data with
       | VArr ((_ :: _) as items) =>
           blocks <- lift (map_indexed (geocode_block h address) items 0) ;;
           let results := String.concat (nl ++ nl) blocks in
           let resultText :=
             "검색어: " ++ dquote ++ address ++ dquote ++ countryInfo country
             ++ nl ++ nl ++ results in
           ret (mirrored_result resultText)
       | _ =>
           ret (mirrored_result
                  ("주소 " ++ dquote ++ address ++ dquote ++ countryMsg country
                   ++ "에 대한 검색 결과를 찾을 수 없습니다."))
       end)
    (fun error =>
       let errorMessage := message_or error "알 수 없는 오류가 발생했습니다." in
       throw (ErrorObject ("Geocoding 오류: " ++ errorMessage))).

(** The request of [get-weather]. *)
Definition weather_request (h : Host) (latitude longitude : float) (forecast_days : Z)
    (timezone : option string) : Request :=
  {| endpoint := "https://api.open-meteo.com/v1/forecast";
     params :=
       ([("latitude", Number_toString h latitude);
         ("longitude", Number_toString h longitude);
         ("forecast_days", decimal forecast_days);
         ("current_weather", "true");
         ("hourly", "temperature_2m,relative_humidity_2m,precipitation,wind_speed_10m,wind_direction_10m,weather_code");
         ("daily", "temperature_2m_max,temperature_2m_min,precipitation_sum,weather_code,wind_speed_10m_max")]
        ++ match timezone with
           | Some tz => if given timezone then [("timezone", tz)] else []
           | None => []
           end)%list;
     headers := [("Accept", "application/json")] |}.

(** The rule drawn under a section title. *)
Definition rule : string := "━━━━━━━━━━━━━━━━━━━━━━━━━━━━━━━━━━━━━━━━".

(** The header of the report: position, time zone, elevation. *)
Definition header_block (h : Host) (latitude longitude : float) (data : value)
  : Completion string :=
  let resultText :=
    "📍 위치: 위도 " ++ Number_toString h latitude ++ ", 경도 "
    ++ Number_toString h longitude ++ nl in
  timezone <~ get h data "timezone" ;;
  let resultText :=
    if truthy timezone
    then resultText ++ "🌍 시간대: " ++ ToString h timezone ++ nl
    else resultText in
  elevation <~ get h data "elevation" ;;
  let resultText :=
    if defined elevation
    then resultText ++ "⛰️  고도: " ++ ToString h elevation ++ "m" ++ nl
    else resultText in
  Normal (resultText ++ nl).

(** The current-weather block. *)
Definition current_block (h : Host) (data : value) (resultText : string)
  : Completion string :=
  current <~ get h data "current_weather" ;;
  if truthy current then
    weather_code <~ get h current "weather_code" ;;
    let weatherDesc := getWeatherDescription h weather_code in
    temperature <~ get h current "temperature" ;;
    wind_speed <~ get h current "wind_speed" ;;
    wind_direction <~ get h current "wind_direction" ;;
    time <~ get h current "time" ;;
    Normal (resultText
            ++ "🌤️  현재 날씨" ++ nl
            ++ rule ++ nl
            ++ "온도: " ++ ToString h temperature ++ "°C" ++ nl
            ++ "날씨: " ++ weatherDesc ++ " (코드: " ++ ToString h weather_code ++ ")" ++ nl
            ++ "풍속: " ++ ToString h wind_speed ++ " km/h" ++ nl
            ++ "풍향: " ++ ToString h wind_direction ++ "°" ++ nl
            ++ "시간: " ++ ToString h time ++ nl
            ++ nl)
  else Normal resultText.

(** What one round of the daily loop appends for the day read at index
    [i]: the date line, the lines of the fields that are defined, and a
    blank line. *)
Definition daily_entry (h : Host) (date maxTemp minTemp precip weatherCode windSpeed : value)
  : string :=
  let dateStr := Date_toLocaleDateString h date in
  let weatherDesc :=
    if defined weatherCode then getWeatherDescription h weatherCode else "N/A" in
  dateStr ++ nl
  ++ (if defined maxTemp && defined minTemp
      then "  🌡️  기온: " ++ ToString h minTemp ++ "°C ~ " ++ ToString h maxTemp
           ++ "°C" ++ nl
      else EmptyString)
  ++ (if defined weatherCode then "  ☁️  날씨: " ++ weatherDesc ++ nl else EmptyString)
  ++ (if defined precip then "  🌧️  강수량: " ++ ToString h precip ++ "mm" ++ nl
      else EmptyString)
  ++ (if defined windSpeed
      then "  💨 최대 풍속: " ++ ToString h windSpeed ++ " km/h" ++ nl
      else EmptyString)
  ++ nl.

(** One round of the daily loop. *)
Definition daily_round (h : Host) (daily : value) (i : nat) (resultText : string)
  : Completion string :=
  time <~ get h daily "time" ;;
  date <~ index h time i ;;
  temperature_2m_max <~ get h daily "temperature_2m_max" ;;
  let maxTemp := index_opt h temperature_2m_max i in
  temperature_2m_min <~ get h daily "temperature_2m_min" ;;
  let minTemp := index_opt h temperature_2m_min i in
  precipitation_sum <~ get h daily "precipitation_sum" ;;
  let precip := index_opt h precipitation_sum i in
  weather_code <~ get h daily "weather_code" ;;
  let weatherCode := index_opt h weather_code i in
  wind_speed_10m_max <~ get h daily "wind_speed_10m_max" ;;
  let windSpeed := index_opt h wind_speed_10m_max i in
  Normal (resultText ++ daily_entry h date maxTemp minTemp precip weatherCode windSpeed).

(** The daily-forecast block:
    [if (data.daily && data.daily.time) { ... }]. *)
Definition daily_block (h : Host) (forecast_days : Z) (data : value)
    (resultText : string) : Completion string :=
  daily <~ get h data "daily" ;;
  if truthy daily then
    time <~ get h daily "time" ;;
    if truthy time then
      days <~ length_of h time ;;
      for_loop (daily_round h daily) 0 (loop_rounds h days forecast_days)
        (resultText ++ "📅 " ++ decimal forecast_days ++ "일 일별 예보" ++ nl
         ++ rule ++ nl)
    else Normal resultText
  else Normal resultText.

(** What one round of the hourly loop appends. *)
Definition hourly_entry (h : Host) (time temp humidity precip windSpeed windDir weatherCode : value)
  : string :=
  let timeStr := Date_toLocaleString h time in
  timeStr ++ nl
  ++ (if defined temp then "  🌡️  " ++ ToString h temp ++ "°C" else EmptyString)
  ++ (if defined humidity then " | 💧 습도: " ++ ToString h humidity ++ "%"
      else EmptyString)
  ++ (if defined precip && PrimFloat.ltb 0 (ToNumber h precip)
      then " | 🌧️  강수: " ++ ToString h precip ++ "mm" else EmptyString)
  ++ (if defined windSpeed then " | 💨 풍속: " ++ ToString h windSpeed ++ " km/h"
      else EmptyString)
  ++ (if defined windDir then " (" ++ ToString h windDir ++ "°)" else EmptyString)
  ++ (if defined weatherCode then " | " ++ getWeatherDescription h weatherCode
      else EmptyString)
  ++ nl.

(** One round of the hourly loop. *)
Definition hourly_round (h : Host) (hourly : value) (i : nat) (resultText : string)
  : Completion string :=
  hourly_time <~ get h hourly "time" ;;
  time <~ index h hourly_time i ;;
  temperature_2m <~ get h hourly "temperature_2m" ;;
  let temp := index_opt h temperature_2m i in
  relative_humidity_2m <~ get h hourly "relative_humidity_2m" ;;
  let humidity := index_opt h relative_humidity_2m i in
  precipitation <~ get h hourly "precipitation" ;;
  let precip := index_opt h precipitation i in
  wind_speed_10m <~ get h hourly "wind_speed_10m" ;;
  let windSpeed := index_opt h wind_speed_10m i in
  wind_direction_10m <~ get h hourly "wind_direction_10m" ;;
  let windDir := index_opt h wind_direction_10m i in
  weather_code <~ get h hourly "weather_code" ;;
  let weatherCode := index_opt h weather_code i in
  Normal (resultText
          ++ hourly_entry h time temp humidity precip windSpeed windDir weatherCode).

(** The hourly block, for at most the next 24 hours. *)
Definition hourly_block (h : Host) (data : value) (resultText : string)
  : Completion string :=
  hourly <~ get h data "hourly" ;;
  if truthy hourly then
    time <~ get h hourly "time" ;;
    if truthy time then
      len <~ length_of h time ;;
      let hourlyCount := loop_rounds h len 24 in
      for_loop (hourly_round h hourly) 0 hourlyCount
        (resultText ++ "⏰ 다음 24시간 시간별 예보" ++ nl ++ rule ++ nl)
    else Normal resultText
  else Normal resultText.

(** The handler of [get-weather]. *)
Definition get_weather (h : Host) (w : World) (latitude longitude : float)
    (forecast_days : option Z) (timezone : option string) : Eff InvocationResult :=
  let forecast_days := or_default forecast_days 7%Z in
  try_catch
    (response <- do_fetch w (weather_request h latitude longitude forecast_days timezone) ;;
     if negb (ok response)
     then throw (ErrorObject ("API 요청 실패: " ++ decimal (status response)
                              ++ " " ++ statusText response))
     else
       data <- lift (json response) ;;
       error <- lift (get h data "error") ;;
       if truthy error
       then
         reason <- lift (get h data "reason") ;;
         throw (ErrorObject
                  ("API 오류: " ++ ToString h (or_else reason (VStr "알 수 없는 오류"))))
       else
         resultText <- lift (header_block h latitude longitude data) ;;
         resultText <- lift (current_block h data resultText) ;;
         resultText <- lift (daily_block h forecast_days data resultText) ;;
         resultText <- lift (hourly_block h data resultText) ;;
         ret (mirrored_result resultText))
    (fun error =>
       let errorMessage := message_or error "알 수 없는 오류가 발생했습니다." in
       throw (ErrorObject ("날씨 정보 조회 오류: " ++ errorMessage))).

(** [new InferenceClient(config?.hfToken || process.env.HF_TOKEN)]: the
    token the client is built with when the server is created. *)
Definition hfClient (config : option Config) (env_HF_TOKEN : option string)
  : option string :=
  match config with
  | Some c => if given (hfToken c) then hfToken c else env_HF_TOKEN
  | None => env_HF_TOKEN
  end.

(** The handler of [generate-image], for the client of the server. *)
Definition generate_image (h : Host) (w : World) (client : option string)
    (prompt : string) : Eff InvocationResult :=
  try_catch
    (bytes <- do_textToImage w
                {| accessToken := client;
                   provider := "auto";
                   model := "black-forest-labs/FLUX.1-schnell";
                   inputs := prompt;
                   num_inference_steps := 5 |} ;;
     let base64Data := base64 bytes in
     ret (image_result base64Data))
    (fun error =>
       let errorMessage := message_or error "알 수 없는 오류가 발생했습니다." in
       throw (ErrorObject
                ("이미지 생성 오류: " ++ errorMessage
                 ++ ". HF_TOKEN 환경 변수가 설정되어 있는지 확인해주세요."))).

(** The registration of [greet]. *)
Definition greet_tool : ToolDefinition :=
  {| tool_name := "greet";
     description := "이름과 언어를 입력하면 인사말을 반환합니다.";
     inputSchema := Schemas.greet;
     handler := fun _ _ '(name, language) => greet name language |}.

(** The registration of [calculator]. *)
Definition calculator_tool : ToolDefinition :=
  {| tool_name := "calculator";
     description := "두 개의 숫자와 연산자를 입력받아 사칙연산 결과를 반환합니다.";
     inputSchema := Schemas.calculator;
     handler := fun h _ '(num1, num2, operator) => calculator h num1 num2 operator |}.

(** The registration of [getTime]. *)
Definition getTime_tool : ToolDefinition :=
  {| tool_name := "getTime";
     description := "Timezone을 입력받아 해당 시간대의 현재 시간을 반환합니다.";
     inputSchema := Schemas.getTime;
     handler := fun _ w timezone => getTime w timezone |}.

(** The registration of [geocode]. *)
Definition geocode_tool : ToolDefinition :=
  {| tool_name := "geocode";
     description := "도시 이름이나 주소를 입력받아 위도와 경도 좌표를 반환합니다. Nominatim OpenStreetMap API를 사용합니다.";
     inputSchema := Schemas.geocode;
     handler := fun h w '(address, limit, country) =>
                  geocode h w address (Some limit) country |}.

(** The registration of [get-weather]. *)
Definition get_weather_tool : ToolDefinition :=
  {| tool_name := "get-weather";
     description := "위도와 경도 좌표, 예보 기간을 입력받아 해당 위치의 현재 날씨와 예보 정보를 제공합니다. Open-Meteo Weather API를 사용합니다.";
     inputSchema := Schemas.get_weather_timezone;
     handler := fun h w '(latitude, longitude, forecast_days, timezone) =>
                  get_weather h w latitude longitude (Some forecast_days) timezone |}.

(** The registration of [generate-image], for the client of the server. *)
Definition generate_image_tool (client : option string) : ToolDefinition :=
  {| tool_name := "generate-image";
     description := "텍스트 프롬프트를 입력받아 AI 이미지를 생성합니다. FLUX.1-schnell 모델을 사용합니다.";
     inputSchema := Schemas.generate_image;
     handler := fun h w prompt => generate_image h w client prompt |}.

(** The tools that [createServer({config})] registers, in order, when the
    environment holds [env_HF_TOKEN] at that time. *)
Definition createServer (config : option Config) (env_HF_TOKEN : option string)
  : list ToolDefinition :=
  [ greet_tool;
    calculator_tool;
    getTime_tool;
    geocode_tool;
    get_weather_tool;
    generate_image_tool (hfClient config env_HF_TOKEN) ].

End Registered.

(** ** The dispatcher *)

(** The string that describes a thrown value: the message of an [Error],
    the string of anything else. *)
Definition describe (h : Host) (e : thrown) : string :=
  match e with
  | ErrorObject message => message
  | NonError v => ToString h v
  end.

(** What an invocation comes to: no tool of that name, arguments that the
    input schema rejects at a field, or a result. *)
Inductive Dispatched : Type :=
| ToolNotFound (name : string)
| ValidationError (name field : string)
| Result (r : InvocationResult).

(** A tool applied to a raw argument bag: the input schema validates and
    normalises the arguments, and the handler runs on them. *)
Definition call (t : ToolDefinition) (h : Host) (w : World) (rawArgs : value)
  : Zod.Validation (Completion InvocationResult * list Event) :=
  match inputSchema t rawArgs with
  | Zod.Invalid field => Zod.Invalid field
  | Zod.Valid args => Zod.Valid (run (handler t h w args))
  end.

(** Modelled from the spec: the dispatcher belongs to the protocol SDK, which
    is not part of the repository.  It looks the tool up by name, validates
    the argument bag against the input schema, calls the handler on the
    normalised arguments and returns its result unchanged; a throw of the
    handler becomes a result with a single text block that describes the
    error and with the error flag set. *)
Definition invoke (registry : list ToolDefinition) (h : Host) (w : World)
    (name : string) (rawArgs : value) : Dispatched * list Event :=
  match find (fun t => String.eqb (tool_name t) name) registry with
  | None => (ToolNotFound name, [])
  | Some t =>
      match call t h w rawArgs with
      | Zod.Invalid field => (ValidationError name field, [])
      | Zod.Valid (Normal r, log) => (Result r, log)
      | Zod.Valid (Abrupt e, log) => (Result (error_result (describe h e)), log)
      end
  end.

(** ** A host and a world to run the model on

    [ascii_host] agrees with a JavaScript runtime in the UTC time zone on
    the numbers that hold an integer below 10^21 in magnitude, on ASCII
    text, and on the dates [YYYY-MM-DD] and the times [YYYY-MM-DDTHH:mm]
    of the calendar, which is all the examples below use; elsewhere it
    answers with a placeholder. *)

Definition ascii_upper (c : ascii) : ascii :=
  let n := nat_of_ascii c in
  if (97 <=? n)%nat && (n <=? 122)%nat then ascii_of_nat (n - 32) else c.

Definition ascii_lower (c : ascii) : ascii :=
  let n := nat_of_ascii c in
  if (65 <=? n)%nat && (n <=? 90)%nat then ascii_of_nat (n + 32) else c.

Fixpoint map_string (f : ascii -> ascii) (s : string) : string :=
  match s with
  | EmptyString => EmptyString
  | String c rest => String (f c) (map_string f rest)
  end.

Definition integer_toString (n : float) : string :=
  if is_NaN n then "NaN"
  else match Number_to_Z n with
       | Some z => decimal z
       | None =>
           if PrimFloat.eqb n infinity then "Infinity"
           else if PrimFloat.eqb n neg_infinity then "-Infinity"
           else "(fraction)"
       end.

Definition integer_of_string (s : string) : float :=
  match NilZero.int_of_string s with
  | Some d => Number_of_Z (Z.of_int d)
  | None => nan
  end.

Fixpoint zeros (digits : nat) : string :=
  match digits with
  | O => EmptyString
  | S d => "0" ++ zeros d
  end.

(** The number written by a string of decimal digits. *)
Fixpoint digits_value (s : string) (acc : Z) : option Z :=
  match s with
  | EmptyString => Some acc
  | String c rest =>
      let n := Z.of_nat (nat_of_ascii c) in
      if ((48 <=? n) && (n <=? 57))%Z
      then digits_value rest (acc * 10 + (n - 48))%Z
      else None
  end.

(** The number written by the [len] digits of [s] from [start]. *)
Definition number_at (s : string) (start len : nat) : option Z :=
  let part := String.substring start len s in
  if Nat.eqb (String.length part) len then digits_value part 0 else None.

(** The character of [s] at [i] is [c]. *)
Definition char_at (s : string) (i : nat) (c : string) : bool :=
  String.eqb (String.substring i 1 s) c.

Definition leap_year (y : Z) : bool :=
  ((y mod 4 =? 0) && negb (y mod 100 =? 0) || (y mod 400 =? 0))%Z.

Definition days_in_month (y m : Z) : Z :=
  if (m =? 2)%Z then (if leap_year y then 29 else 28)%Z
  else if ((m =? 4) || (m =? 6) || (m =? 9) || (m =? 11))%Z then 30%Z
  else 31%Z.

(** The days from 1970-01-01 to a date of the Gregorian calendar. *)
Definition days_from_civil (y m d : Z) : Z :=
  let y' := (if m <=? 2 then y - 1 else y)%Z in
  let era := (y' / 400)%Z in
  let yoe := (y' - era * 400)%Z in
  let mp := ((m + 9) mod 12)%Z in
  let doy := ((153 * mp + 2) / 5 + d - 1)%Z in
  let doe := (yoe * 365 + yoe / 4 - yoe / 100 + doy)%Z in
  (era * 146097 + doe - 719468)%Z.

(** The day of the week in Korean, short: 1970-01-01 was a Thursday. *)
Definition ko_weekday (y m d : Z) : string :=
  nth (Z.to_nat ((days_from_civil y m d + 4) mod 7))
      ["일"; "월"; "화"; "수"; "목"; "금"; "토"] EmptyString.

(** The date that [YYYY-MM-DD] writes. *)
Definition iso_date (s : string) : option (Z * Z * Z) :=
  match number_at s 0 4, number_at s 5 2, number_at s 8 2 with
  | Some y, Some m, Some d =>
      if char_at s 4 "-" && char_at s 7 "-"
         && ((1 <=? m) && (m <=? 12) && (1 <=? d) && (d <=? days_in_month y m))%Z
      then Some (y, m, d)
      else None
  | _, _, _ => None
  end.

(** The time of day that [HH:mm] writes. *)
Definition iso_time (s : string) : option (Z * Z) :=
  match number_at s 0 2, number_at s 3 2 with
  | Some hour, Some minute =>
      if char_at s 2 ":" && ((hour <=? 23) && (minute <=? 59))%Z
      then Some (hour, minute)
      else None
  | _, _ => None
  end.

Definition two_digits (n : Z) : string :=
  if (n <? 10)%Z then "0" ++ decimal n else decimal n.

(** [toLocaleDateString('ko-KR', {month: 'long', day: 'numeric', weekday:
    'short'})] of the date that [YYYY-MM-DD] writes. *)
Definition ko_date (v : value) : string :=
  match v with
  | VStr s =>
      match (if Nat.eqb (String.length s) 10 then iso_date s else None) with
      | Some (y, m, d) =>
          decimal m ++ "월 " ++ decimal d ++ "일 (" ++ ko_weekday y m d ++ ")"
      | None => "Invalid Date"
      end
  | _ => "Invalid Date"
  end.

(** [toLocaleString('ko-KR', {month: 'short', day: 'numeric', hour:
    '2-digit', minute: '2-digit'})] of the time that [YYYY-MM-DDTHH:mm]
    writes: a twelve-hour clock, before or after noon. *)
Definition ko_date_time (v : value) : string :=
  match v with
  | VStr s =>
      match (if Nat.eqb (String.length s) 16 && char_at s 10 "T"
             then iso_date (String.substring 0 10 s) else None),
            iso_time (String.substring 11 5 s) with
      | Some (y, m, d), Some (hour, minute) =>
          decimal m ++ "월 " ++ decimal d ++ "일 "
          ++ (if (hour <? 12)%Z then "오전" else "오후") ++ " "
          ++ two_digits (if (hour mod 12 =? 0)%Z then 12 else hour mod 12)
          ++ ":" ++ two_digits minute
      | _, _ => "Invalid Date"
      end
  | _ => "Invalid Date"
  end.

Definition ascii_host : Host :=
  {| Number_toString := integer_toString;
     StringToNumber := integer_of_string;
     parseFloat := integer_of_string;
     toFixed := fun n digits =>
       match Number_to_Z n with
       | Some z => decimal z ++ "." ++ zeros digits
       | None => "(fraction)"
       end;
     toUpperCase := map_string ascii_upper;
     toLowerCase := map_string ascii_lower;
     String_length := String.length;
     String_at := fun s i =>
       match String.get i s with
       | Some c => Some (String c EmptyString)
       | None => None
       end;
     Date_toLocaleDateString := ko_date;
     Date_toLocaleString := ko_date_time;
     cannot_read := fun v p =>
       "Cannot read properties of "
       ++ match v with VNull => "null" | _ => "undefined" end
       ++ " (reading '" ++ p ++ "')";
     not_a_function := fun callee => callee ++ " is not a function";
     Object_prototype_text := fun name =>
       if String.eqb name "__proto__" then "[object Object]"
       else if String.eqb name "constructor" then "function Object() { [native code] }"
       else "function " ++ name ++ "() { [native code] }" |}.

(** A world whose upstream answers every request with status 200 and the
    given body, knows two time zones, has no credential in its environment,
    and whose inference service answers as given. *)
Definition upstream (body : Completion value) (image : Completion (list Byte.byte))
  : World :=
  {| fetch := fun _ =>
       Normal {| ok := true; status := 200; statusText := "OK"; json := body |};
     textToImage := fun _ => image;
     DateTimeFormat_now := fun timeZone =>
       if String.eqb timeZone "Asia/Seoul" then Normal "2025. 12. 15. 18:00:00"
       else if String.eqb timeZone "UTC" then Normal "2025. 12. 15. 09:00:00"
       else Abrupt (ErrorObject ("Invalid time zone specified: " ++ timeZone));
     HF_TOKEN := None |}.

(** The world of [w] with another [process.env.HF_TOKEN]. *)
Definition with_HF_TOKEN (token : option string) (w : World) : World :=
  {| fetch := fetch w;
     textToImage := textToImage w;
     DateTimeFormat_now := DateTimeFormat_now w;
     HF_TOKEN := token |}.

(** ** Definitions that the properties are stated with *)

(** The value of [num1 operator num2] in the arithmetic of JavaScript
    numbers (IEEE 754 binary64), for the four operators. *)
Definition arithmetic (num1 num2 : float) (operator : string) : option float :=
  if String.eqb operator "+" then Some (num1 + num2)%float
  else if String.eqb operator "-" then Some (num1 - num2)%float
  else if String.eqb operator "*" then Some (num1 * num2)%float
  else if String.eqb operator "/" then Some (num1 / num2)%float
  else None.

(** The text ["{num1} {operator} {num2} = {result}"]. *)
Definition calculation_text (h : Host) (num1 : float) (operator : string)
    (num2 result : float) : string :=
  Number_toString h num1 ++ " " ++ operator ++ " " ++ Number_toString h num2
  ++ " = " ++ Number_toString h result.

(** [needle] occurs in [text]. *)
Definition Contains (needle text : string) : Prop :=
  exists pre post, text = pre ++ needle ++ post.

(** The same, decided: [text.includes(needle)]. *)
Fixpoint includes (needle text : string) : bool :=
  String.prefix needle text
  || match text with
     | EmptyString => false
     | String _ rest => includes needle rest
     end.

(** The strings of a list, one after the other. *)
Definition join_all (l : list string) : string :=
  fold_right String.append EmptyString l.

(** The elements of a list with their positions, counted from [start]. *)
Definition indexed {A : Type} (start : nat) (l : list A) : list (nat * A) :=
  combine (seq start (length l)) l.








(** What the daily loop of [index.ts] writes for the day [date] at index
    [i] of the daily payload with the given fields. *)
Definition day_entry_index (h : Host) (fields : list (string * value))
    (day : nat * value) : string :=
  let (i, date) := day in
  ToString h date ++ ": "
  ++ ToString h (index_opt h (own_property fields "temperature_2m_min") i) ++ "°C ~ "
  ++ ToString h (index_opt h (own_property fields "temperature_2m_max") i) ++ "°C" ++ nl.

(** Lines, each ended by a line feed. *)
Definition lines_text (lines : list string) : string :=
  join_all (map (fun line => line ++ nl) lines).

(** The rule that [part_000] draws under a section title: forty dashes. *)
Definition section_rule : string := "━━━━━━━━━━━━━━━━━━━━━━━━━━━━━━━━━━━━━━━━".

(** What the daily loop of [part_000] writes for the day [date] at index
    [i] of the daily payload with the given fields: the date, then a line
    for the temperatures (when the day has both), for the weather (when it
    has a code), for the precipitation and for the wind (when it has
    them), then a blank line. *)
Definition day_entry_registered (h : Host) (fields : list (string * value))
    (day : nat * value) : string :=
  let (i, date) := day in
  let maxTemp := index_opt h (own_property fields "temperature_2m_max") i in
  let minTemp := index_opt h (own_property fields "temperature_2m_min") i in
  let precip := index_opt h (own_property fields "precipitation_sum") i in
  let weatherCode := index_opt h (own_property fields "weather_code") i in
  let windSpeed := index_opt h (own_property fields "wind_speed_10m_max") i in
  let temperatures :=
    "  🌡️  기온: " ++ ToString h minTemp ++ "°C ~ " ++ ToString h maxTemp ++ "°C" in
  let weather := "  ☁️  날씨: " ++ Registered.getWeatherDescription h weatherCode in
  let precipitation := "  🌧️  강수량: " ++ ToString h precip ++ "mm" in
  let wind := "  💨 최대 풍속: " ++ ToString h windSpeed ++ " km/h" in
  lines_text
    ([Date_toLocaleDateString h date]
     ++ (if defined maxTemp && defined minTemp then [temperatures] else [])
     ++ (if defined weatherCode then [weather] else [])
     ++ (if defined precip then [precipitation] else [])
     ++ (if defined windSpeed then [wind] else [])
     ++ [EmptyString])%list.

(** A match of the sample upstream. *)
Definition seoul_fields : list (string * value) :=
  [ ("display_name", VStr "Seoul, South Korea");
    ("lat", VStr "37"); ("lon", VStr "127");
    ("importance", VNum 1);
    ("address", VObj [ ("city", VStr "Seoul"); ("country_code", VStr "kr");
                       ("postcode", VStr "04524") ]) ].

Definition seoul : value := VObj seoul_fields.

(** A daily payload of the sample upstream: three days. *)
Definition three_days : list (string * value) :=
  [ ("time", VArr [VStr "2025-12-15"; VStr "2025-12-16"; VStr "2025-12-17"]);
    ("temperature_2m_max", VArr [VNum 5; VNum 6; VNum 7]);
    ("temperature_2m_min", VArr [VNum 1; VNum 2; VNum 3]);
    ("precipitation_sum", VArr [VNum 0; VNum 4; VNum 0]);
    ("weather_code", VArr [VNum 0; VNum 45; VNum 99]);
    ("wind_speed_10m_max", VArr [VNum 10; VNum 12; VNum 8]) ].

(** The outcome of a handler holds a block: a result with at least one
    content block, unless the handler threw. *)
Definition returns_content (outcome : Completion InvocationResult * list Event) : Prop :=
  match fst outcome with
  | Normal r => content r <> []
  | Abrupt _ => True
  end.

(** A computation whose outcome holds a block from every log. *)
Definition Safe (m : Eff InvocationResult) : Prop :=
  forall log, returns_content (m log).

(** A handler that yields the same outcome whatever [process.env.HF_TOKEN]
    holds. *)
Definition ignores_HF_TOKEN (t : ToolDefinition) : Prop :=
  forall (token : option string) (h : Host) (w : World) (args : Args t)
         (log : list Event),
    handler t h (with_HF_TOKEN token w) args log = handler t h w args log.

(** The call that [generate-image] of [part_000] makes for a client built
    with the token [client]. *)
Definition inference_call (client : option string) (prompt : string) : ImageRequest :=
  {| accessToken := client;
     provider := "auto";
     model := "black-forest-labs/FLUX.1-schnell";
     inputs := prompt;
     num_inference_steps := 5 |}.

(** What the hourly loop of [part_000] writes for the hour [time] at index
    [i] of the hourly payload with the given fields: the time, then one
    line with the temperature, the humidity, the precipitation (when there
    is some), the wind speed, the wind direction and the weather, each when
    the hour has it. *)
Definition hour_entry_registered (h : Host) (fields : list (string * value))
    (hour : nat * value) : string :=
  let (i, time) := hour in
  let temp := index_opt h (own_property fields "temperature_2m") i in
  let humidity := index_opt h (own_property fields "relative_humidity_2m") i in
  let precip := index_opt h (own_property fields "precipitation") i in
  let windSpeed := index_opt h (own_property fields "wind_speed_10m") i in
  let windDir := index_opt h (own_property fields "wind_direction_10m") i in
  let weatherCode := index_opt h (own_property fields "weather_code") i in
  let parts :=
    [ if defined temp then "  🌡️  " ++ ToString h temp ++ "°C" else EmptyString;
      if defined humidity then " | 💧 습도: " ++ ToString h humidity ++ "%"
      else EmptyString;
      if defined precip && PrimFloat.ltb 0 (ToNumber h precip)
      then " | 🌧️  강수: " ++ ToString h precip ++ "mm" else EmptyString;
      if defined windSpeed then " | 💨 풍속: " ++ ToString h windSpeed ++ " km/h"
      else EmptyString;
      if defined windDir then " (" ++ ToString h windDir ++ "°)" else EmptyString;
      if defined weatherCode then " | " ++ Registered.getWeatherDescription h weatherCode
      else EmptyString ] in
  lines_text [Date_toLocaleString h time; join_all parts].

(** An hourly payload of the sample upstream: two hours. *)
Definition two_hours : list (string * value) :=
  [ ("time", VArr [VStr "2025-12-15T09:00"; VStr "2025-12-15T15:00"]);
    ("temperature_2m", VArr [VNum 3; VNum 4]);
    ("precipitation", VArr [VNum 0; VNum 2]) ].

(** A world whose upstream answers every request with the given status and
    status text, and no usable body. *)
Definition failing_upstream (code : Z) (text : string) : World :=
  {| fetch := fun _ =>
       Normal {| ok := false; status := code; statusText := text;
                 json := Abrupt (ErrorObject "Unexpected end of JSON input") |};
     textToImage := fun _ => Abrupt (ErrorObject "fetch failed");
     DateTimeFormat_now := fun timeZone =>
       Abrupt (ErrorObject ("Invalid time zone specified: " ++ timeZone));
     HF_TOKEN := None |}.

(** A forecast of the sample upstream. *)
Definition sample_forecast : value :=
  VObj [ ("elevation", VNum 38); ("timezone", VStr "GMT");
         ("current_weather",
          VObj [ ("time", VStr "2025-12-15T09:00"); ("temperature", VNum 3);
                 ("wind_speed", VNum 5); ("wind_direction", VNum 270);
                 ("weather_code", VNum 3) ]);
         ("daily", VObj three_days);
         ("hourly", VObj two_hours) ].

(** ** String replacement

    [String.prototype.replace] with a string pattern: the first occurrence
    of the pattern is replaced, and the replacement text is a template in
    which [$$], [$&], [$`] and [$'] stand for a dollar sign, the matched
    text, and the text before and after the match.  (With a string pattern
    there are no captures, so [$1], [$<name>] and a lone [$] stand for
    themselves.)  Occurrences are the same in the UTF-8 text as in the
    UTF-16 string. *)

(** The text after the first [n] characters. *)
Fixpoint drop (n : nat) (s : string) : string :=
  match n, s with
  | O, _ => s
  | S _, EmptyString => EmptyString
  | S n', String _ rest => drop n' rest
  end.

(** The text before and the text after the first occurrence of [pattern]
    in [text], if it occurs. *)
Fixpoint split_at_first (pattern text : string) : option (string * string) :=
  if String.prefix pattern text
  then Some (EmptyString, drop (String.length pattern) text)
  else match text with
       | EmptyString => None
       | String c rest =>
           match split_at_first pattern rest with
           | Some (before, after) => Some (String c before, after)
           | None => None
           end
       end.

(** [GetSubstitution] for a string pattern. *)
Fixpoint GetSubstitution (matched before after template : string) : string :=
  match template with
  | EmptyString => EmptyString
  | String c rest =>
      if Ascii.eqb c "$" then
        match rest with
        | EmptyString => String c EmptyString
        | String d rest' =>
            if Ascii.eqb d "$" then String d (GetSubstitution matched before after rest')
            else if Ascii.eqb d "&" then matched ++ GetSubstitution matched before after rest'
            else if Ascii.eqb d "`" then before ++ GetSubstitution matched before after rest'
            else if Ascii.eqb d "'" then after ++ GetSubstitution matched before after rest'
            else String c (GetSubstitution matched before after rest)
        end
      else String c (GetSubstitution matched before after rest)
  end.

(** [text.replace(pattern, replacement)]. *)
Definition String_replace (text pattern replacement : string) : string :=
  match split_at_first pattern text with
  | None => text
  | Some (before, after) =>
      before ++ GetSubstitution pattern before after replacement ++ after
  end.

(** Whether the character occurs in the text. *)
Fixpoint has_char (c : ascii) (s : string) : bool :=
  match s with
  | EmptyString => false
  | String d rest => Ascii.eqb d c || has_char c rest
  end.

(** No occurrence of [p] starts in [x], whatever follows [x]. *)
Fixpoint clear_of (p x : string) : bool :=
  match x with
  | EmptyString => true
  | String _ rest =>
      negb (String.prefix p x) && negb (String.prefix x p) && clear_of p rest
  end.

(** ** The code-review prompt of [src/unnamed/part_000] *)

Module CodeReview.

Definition CODE_REVIEW_PROMPT_TEMPLATE : string :=
  "다음 코드를 리뷰해주세요. 다음 항목들을 중심으로 검토해주세요:

1. **코드 품질 및 가독성**
   - 코드가 명확하고 이해하기 쉬운가요?
   - 변수명과 함수명이 의미를 잘 전달하나요?
   - 주석이 적절하게 작성되어 있나요?

2. **성능 및 최적화**
   - 불필요한 연산이나 중복 코드가 있나요?
   - 알고리즘의 시간 복잡도와 공간 복잡도는 적절한가요?
   - 더 효율적인 방법이 있을까요?

3. **보안 및 에러 처리**
   - 보안 취약점이 있나요?
   - 예외 상황에 대한 처리가 적절한가요?
   - 입력값 검증이 충분한가요?

4. **모범 사례 및 표준 준수**
   - 해당 언어/프레임워크의 모범 사례를 따르고 있나요?
   - 코딩 컨벤션을 준수하고 있나요?
   - 설계 패턴이 적절하게 적용되었나요?

5. **테스트 가능성**
   - 코드가 테스트하기 쉬운 구조인가요?
   - 단위 테스트를 작성하기에 적합한가요?

6. **개선 제안**
   - 리팩토링이 필요한 부분이 있나요?
   - 구체적인 개선 방안을 제시해주세요.

---

**리뷰할 코드:**

```
{code}
```

---

위 항목들을 바탕으로 상세한 코드 리뷰를 작성해주세요.".

(** The header that the language and the context are inserted before. *)
Definition code_header : string := "**리뷰할 코드:**".

(** A message of a prompt: [{role, content: {type: 'text', text}}]. *)
Record PromptMessage : Type := {
  prompt_role : string;
  prompt_content : ContentBlock
}.

(** The callback of [code-review]. *)
Definition code_review (code : string) (language context : option string)
  : list PromptMessage :=
  let prompt := String_replace CODE_REVIEW_PROMPT_TEMPLATE "{code}" code in
  let prompt :=
    match language with
    | Some l =>
        if given language
        then String_replace prompt code_header
               ("**프로그래밍 언어:** " ++ l ++ nl ++ nl ++ "**리뷰할 코드:**")
        else prompt
    | None => prompt
    end in
  let prompt :=
    match context with
    | Some c =>
        if given context
        then String_replace prompt code_header
               ("**코드 맥락/목적:**" ++ nl ++ c ++ nl ++ nl ++ "**리뷰할 코드:**")
        else prompt
    | None => prompt
    end in
  [ {| prompt_role := "user"; prompt_content := TextContent prompt |} ].

(** The text of the prompt. *)
Definition prompt_text (messages : list PromptMessage) : list string :=
  flat_map (fun m => match prompt_content m with
                     | TextContent t => [t]
                     | ImageContent _ _ => []
                     end) messages.

(** The template before and after its [{code}] placeholder. *)
Definition before_code : string :=
  match split_at_first "{code}" CODE_REVIEW_PROMPT_TEMPLATE with
  | Some (before, _) => before
  | None => EmptyString
  end.

Definition after_code : string :=
  match split_at_first "{code}" CODE_REVIEW_PROMPT_TEMPLATE with
  | Some (_, after) => after
  | None => EmptyString
  end.

(** The template before its code header, and from there to the
    placeholder. *)
Definition before_header : string :=
  match split_at_first code_header before_code with
  | Some (before, _) => before
  | None => EmptyString
  end.

Definition header_to_code : string :=
  match split_at_first code_header before_code with
  | Some (_, after) => after
  | None => EmptyString
  end.

End CodeReview.

(** The line that [code-review] inserts for a language, and the block it
    inserts for a context. *)
Definition language_part (language : option string) : string :=
  match language with
  | Some l => if given language then "**프로그래밍 언어:** " ++ l ++ nl ++ nl else EmptyString
  | None => EmptyString
  end.

Definition context_part (context : option string) : string :=
  match context with
  | Some c => if given context then "**코드 맥락/목적:**" ++ nl ++ c ++ nl ++ nl else EmptyString
  | None => EmptyString
  end.

(** An optional text in which the character does not occur. *)
Definition lacks (c : ascii) (text : option string) : bool :=
  match text with
  | Some t => negb (has_char c t)
  | None => true
  end.

(** Every result that the computation returns satisfies [P]. *)
Definition Results (P : InvocationResult -> Prop) (m : Eff InvocationResult) : Prop :=
  forall log,
    match fst (m log) with
    | Normal r => P r
    | Abrupt _ => True
    end.

(** The computation never throws. *)
Definition Total (m : Eff InvocationResult) : Prop :=
  forall log, exists r, fst (m log) = Normal r.

(** The computation makes exactly the given outbound calls, in order. *)
Definition Calls {A : Type} (events : list Event) (m : Eff A) : Prop :=
  forall log, snd (m log) = (log ++ events)%list.

(** The call that [generate-image] of [index.ts] makes with the token of
    the environment. *)
Definition index_inference_call (token : option string) (prompt : string)
  : ImageRequest :=
  {| accessToken := token;
     provider := "hf-inference";
     model := "black-forest-labs/FLUX.1-schnell";
     inputs := prompt;
     num_inference_steps := 5 |}.

(** The request fails, or its body cannot be parsed, with [e]. *)
Definition transport_fails (w : World) (e : thrown) : Prop :=
  forall req,
    fetch w req = Abrupt e
    \/ exists response,
         fetch w req = Normal response /\ ok response = true
         /\ json response = Abrupt e.

(** A world whose requests are all rejected with a value that is not an
    [Error]. *)
Definition rejecting (v : value) : World :=
  {| fetch := fun _ => Abrupt (NonError v);
     textToImage := fun _ => Abrupt (NonError v);
     DateTimeFormat_now := fun _ => Abrupt (NonError v);
     HF_TOKEN := Some "hf_token" |}.

(** [v == null]: [null] or [undefined]. *)
Definition nullish (v : value) : bool :=
  match v with
  | VUndefined | VNull => true
  | _ => false
  end.

(** The first line of the report of [get-weather]. *)
Definition location_line (h : Host) (latitude longitude : float) : string :=
  "📍 위치: 위도 " ++ Number_toString h latitude ++ ", 경도 "
  ++ Number_toString h longitude ++ nl.

(** Every request gets the success answer whose body parses to [data]. *)
Definition answers (w : World) (data : value) : Prop :=
  forall req, exists response,
    fetch w req = Normal response /\ ok response = true /\ json response = Normal data.

(** A body that reports an error of the forecast service. *)
Definition api_error_body : value :=
  VObj [ ("error", VBool true); ("reason", VStr "Invalid coordinates") ].

(** A list of matches whose second entry is [null]. *)
Definition broken_matches : list value := [seoul; VNull; seoul].

(** The bag has no field of that name (or holds [undefined] there). *)
Definition lacks_field (raw : value) (name : string) : Prop :=
  exists fields, raw = VObj fields /\ own_property fields name = VUndefined.

(** [lo <= n <= hi] on numbers. *)
Definition within (lo hi : Z) (n : float) : Prop :=
  PrimFloat.leb (Number_of_Z lo) n = true /\ PrimFloat.leb n (Number_of_Z hi) = true.

(** ** The weather report, section by section *)

(** The current-weather section of [index.ts]: written when the body has a
    (truthy) [current_weather]. *)
Definition current_section_index (h : Host) (data : value) : string :=
  let current := get_opt h data "current_weather" in
  if truthy current
  then lines_text
         [ "🌤️ 현재 날씨";
           "온도: " ++ ToString h (get_opt h current "temperature") ++ "°C";
           "풍속: " ++ ToString h (get_opt h current "wind_speed") ++ " km/h";
           EmptyString ]
  else EmptyString.

(** The daily section of [index.ts] for a daily payload with the given
    fields and days: the title, then the entries of the first
    [forecast_days] days, in order. *)
Definition daily_section_index (h : Host) (forecast_days : Z)
    (fields : list (string * value)) (days : list value) : string :=
  "📅 " ++ decimal forecast_days ++ "일 예보" ++ nl
  ++ join_all (map (day_entry_index h fields)
                 (firstn (Z.to_nat forecast_days) (indexed 0 days))).

(** The head of the report of [part_000]: the location, the time zone when
    the body names one, the elevation when the body has one, and a blank
    line. *)
Definition report_head_registered (h : Host) (latitude longitude : float)
    (data : value) : string :=
  let timezone := get_opt h data "timezone" in
  let elevation := get_opt h data "elevation" in
  location_line h latitude longitude
  ++ (if truthy timezone then "🌍 시간대: " ++ ToString h timezone ++ nl
      else EmptyString)
  ++ (if defined elevation then "⛰️  고도: " ++ ToString h elevation ++ "m" ++ nl
      else EmptyString)
  ++ nl.

(** The current-weather section of [part_000]. *)
Definition current_section_registered (h : Host) (data : value) : string :=
  let current := get_opt h data "current_weather" in
  let code := get_opt h current "weather_code" in
  if truthy current
  then lines_text
         [ "🌤️  현재 날씨";
           section_rule;
           "온도: " ++ ToString h (get_opt h current "temperature") ++ "°C";
           "날씨: " ++ Registered.getWeatherDescription h code
           ++ " (코드: " ++ ToString h code ++ ")";
           "풍속: " ++ ToString h (get_opt h current "wind_speed") ++ " km/h";
           "풍향: " ++ ToString h (get_opt h current "wind_direction") ++ "°";
           "시간: " ++ ToString h (get_opt h current "time");
           EmptyString ]
  else EmptyString.

(** The daily section of [part_000]: the title, the rule, then the entries
    of the first [forecast_days] days, in order. *)
Definition daily_section_registered (h : Host) (forecast_days : Z)
    (fields : list (string * value)) (days : list value) : string :=
  "📅 " ++ decimal forecast_days ++ "일 일별 예보" ++ nl
  ++ section_rule ++ nl
  ++ join_all (map (day_entry_registered h fields)
                 (firstn (Z.to_nat forecast_days) (indexed 0 days))).

(** The hourly section of [part_000]: the title, the rule, then the entries
    of the first 24 hours, in order. *)
Definition hourly_section (h : Host) (fields : list (string * value))
    (hours : list value) : string :=
  "⏰ 다음 24시간 시간별 예보" ++ nl
  ++ section_rule ++ nl
  ++ join_all (map (hour_entry_registered h fields) (firstn 24 (indexed 0 hours))).

(** The body has a daily payload with the given fields, whose [time] lists
    the given days. *)
Definition daily_payload (h : Host) (data : value) (fields : list (string * value))
    (days : list value) : Prop :=
  get h data "daily" = Normal (VObj fields) /\ own_property fields "time" = VArr days.

(** The body has an hourly payload with the given fields, whose [time]
    lists the given hours. *)
Definition hourly_payload (h : Host) (data : value) (fields : list (string * value))
    (hours : list value) : Prop :=
  get h data "hourly" = Normal (VObj fields) /\ own_property fields "time" = VArr hours.

(** ** The requests, parameter by parameter *)


(** The search for [limit] matches of [address], in [country] when one is
    given. *)
Definition geocode_query (h : Host) (address : string) (limit : Z)
    (country : option string) : Request :=
  let search :=
    [("q", address); ("format", "json"); ("limit", decimal limit);
     ("addressdetails", "1")] in
  let filter :=
    match country with
    | Some c => if String.eqb c EmptyString then [] else [("countrycodes", toLowerCase h c)]
    | None => []
    end in
  {| endpoint := "https://nominatim.openstreetmap.org/search";
     params := (search ++ filter)%list;
     headers := [("User-Agent", "MCP-Geocode-Tool/1.0"); ("Accept", "application/json")] |}.

(** The forecast that [index.ts] asks for. *)
Definition forecast_query_index (h : Host) (latitude longitude : float)
    (forecast_days : Z) : Request :=
  {| endpoint := "https://api.open-meteo.com/v1/forecast";
     params :=
       [("latitude", Number_toString h latitude);
        ("longitude", Number_toString h longitude);
        ("forecast_days", decimal forecast_days);
        ("current_weather", "true");
        ("daily", "temperature_2m_max,temperature_2m_min,precipitation_sum,weather_code")];
     headers := [] |}.

(** The forecast that [part_000] asks for, in [timezone] when one is
    given. *)
Definition forecast_query_registered (h : Host) (latitude longitude : float)
    (forecast_days : Z) (timezone : option string) : Request :=
  let forecast :=
    [("latitude", Number_toString h latitude);
     ("longitude", Number_toString h longitude);
     ("forecast_days", decimal forecast_days);
     ("current_weather", "true");
     ("hourly", "temperature_2m,relative_humidity_2m,precipitation,wind_speed_10m,wind_direction_10m,weather_code");
     ("daily", "temperature_2m_max,temperature_2m_min,precipitation_sum,weather_code,wind_speed_10m_max")] in
  let zone :=
    match timezone with
    | Some tz => if String.eqb tz EmptyString then [] else [("timezone", tz)]
    | None => []
    end in
  {| endpoint := "https://api.open-meteo.com/v1/forecast";
     params := (forecast ++ zone)%list;
     headers := [("Accept", "application/json")] |}.

(** The value that a bag holds for an optional whole number: the number,
    or the default when the bag has none. *)
Definition holds_whole (raw : value) (name : string) (default z : Z) : Prop :=
  exists fields,
    raw = VObj fields
    /\ ((own_property fields name = VUndefined /\ z = default)
        \/ exists n, own_property fields name = VNum n /\ Number_to_Z n = Some z).

(** The value that a bag holds for a number. *)
Definition holds_number (raw : value) (name : string) (n : float) : Prop :=
  exists fields, raw = VObj fields /\ own_property fields name = VNum n.

(** The value that a bag holds for a text. *)
Definition holds_text (raw : value) (name : string) (text : string) : Prop :=
  exists fields, raw = VObj fields /\ own_property fields name = VStr text.

(** The value that a bag holds for an optional text. *)
Definition holds_optional_text (raw : value) (name : string) (text : option string)
  : Prop :=
  exists fields,
    raw = VObj fields
    /\ match text with
       | Some t => own_property fields name = VStr t
       | None => own_property fields name = VUndefined
       end.

(** The bag holds the operands and the operator of a calculation whose
    value, in the arithmetic of JavaScript numbers, is [result]. *)
Definition calculated (raw : value) (num1 num2 : float) (operator : string)
    (result : float) : Prop :=
  holds_number raw "num1" num1 /\ holds_number raw "num2" num2
  /\ holds_text raw "operator" operator
  /\ is_NaN num1 = false /\ is_NaN num2 = false
  /\ arithmetic num1 num2 operator = Some result.

(** The body has no payload of that name to list: no (truthy) object, or
    none with a (truthy) [time]. *)
Definition no_payload (h : Host) (data : value) (name : string) : Prop :=
  truthy (get_opt h data name) = false
  \/ truthy (get_opt h (get_opt h data name) "time") = false.

(** * Properties *)

(** ** The calculator (C1) *)

Lemma operator_cases (operator : string) :
  In operator ["+"; "-"; "*"; "/"] ->
  operator = "+" \/ operator = "-" \/ operator = "*" \/ operator = "/".
Proof.
  simpl. intros [H | [H | [H | [H | []]]]]; subst; auto.
Qed.

(** C1.  For an operator among [+ - * /] and, when it is [/], a divisor
    that is not zero, both editions return a result without the error flag
    whose text is ["{num1} {operator} {num2} = {result}"], where the result
    is the value of the operation on JavaScript numbers; and for a divisor
    equal to zero ([num2 === 0]) the division returns an error-flagged
    result ([index.ts]) or throws ([part_000]), whatever [num1] is. *)
Theorem calculator_correct (h : Host) (num1 num2 : float) (operator : string) :
  (In operator ["+"; "-"; "*"; "/"] ->
   (operator = "/" -> PrimFloat.eqb num2 0 = false) ->
   exists result,
     arithmetic num1 num2 operator = Some result
     /\ run (Index.calculator h num1 num2 operator)
        = (Normal (text_result (calculation_text h num1 operator num2 result)), [])
     /\ run (Registered.calculator h num1 num2 operator)
        = (Normal (mirrored_result (calculation_text h num1 operator num2 result)), []))
  /\ (PrimFloat.eqb num2 0 = true ->
      run (Index.calculator h num1 num2 "/")
      = (Normal (error_result "오류: 0으로 나눌 수 없습니다."), [])
      /\ run (Registered.calculator h num1 num2 "/")
         = (Abrupt (ErrorObject "0으로 나눌 수 없습니다."), [])).
Proof.
  split.
  - intros Hop Hdiv.
    destruct (operator_cases operator Hop) as [E | [E | [E | E]]]; subst operator.
    + exists (num1 + num2)%float. repeat split.
    + exists (num1 - num2)%float. repeat split.
    + exists (num1 * num2)%float. repeat split.
    + exists (num1 / num2)%float.
      assert (Hz : PrimFloat.eqb num2 0 = false) by (apply Hdiv; reflexivity).
      unfold run, Index.calculator, Index.calculator_switch,
        Registered.calculator, Registered.calculator_switch, bind, lift, ret.
      cbn [String.eqb Ascii.eqb Bool.eqb]. rewrite Hz. repeat split.
  - intros Hz.
    unfold run, Index.calculator, Index.calculator_switch,
      Registered.calculator, Registered.calculator_switch, bind, lift, ret.
    cbn [String.eqb Ascii.eqb Bool.eqb]. rewrite Hz. split; reflexivity.
Qed.

(** [10 / 2] is not an error and reads ["10 / 2 = 5"]; [10 / 0] is an
    error in both editions. *)
Lemma calculator_correct_witness :
  (exists result,
      arithmetic 10 2 "/" = Some result
      /\ run (Index.calculator ascii_host 10 2 "/")
         = (Normal (text_result (calculation_text ascii_host 10 "/" 2 result)), [])
      /\ run (Registered.calculator ascii_host 10 2 "/")
         = (Normal (mirrored_result (calculation_text ascii_host 10 "/" 2 result)), []))
  /\ texts_of (run (Index.calculator ascii_host 10 2 "/")) = ["10 / 2 = 5"]
  /\ (run (Index.calculator ascii_host 10 0 "/")
       = (Normal (error_result "오류: 0으로 나눌 수 없습니다."), [])
      /\ run (Registered.calculator ascii_host 10 0 "/")
         = (Abrupt (ErrorObject "0으로 나눌 수 없습니다."), [])).
Proof.
  split; [| split].
  - apply (proj1 (calculator_correct ascii_host 10 2 "/")).
    + simpl. tauto.
    + intros _. reflexivity.
  - reflexivity.
  - apply (proj2 (calculator_correct ascii_host 10 0 "/")). reflexivity.
Defined.

(** ** The greeting (C6, C7) *)

Lemma eqb_ko_false (language : string) :
  language <> "ko" -> String.eqb language "ko" = false.
Proof.
  intros H. apply String.eqb_neq. exact H.
Qed.

(** C6.  For every name, both editions return exactly the Korean greeting
    when the language is ["ko"] and exactly the English one otherwise
    ([part_000] mirrors the same text in [structuredContent]); for
    [{name: "Tom", language: "ko"}] the text is ["안녕하세요, Tom님!"]. *)
Theorem greet_text (name language : string) :
  (language = "ko" ->
   run (Index.greet name language)
   = (Normal (text_result ("안녕하세요, " ++ name ++ "님!")), [])
   /\ run (Registered.greet name language)
      = (Normal (mirrored_result ("안녕하세요, " ++ name ++ "님!")), []))
  /\ (language <> "ko" ->
      run (Index.greet name language)
      = (Normal (text_result ("Hey there, " ++ name ++ "! 👋 Nice to meet you!")), [])
      /\ run (Registered.greet name language)
         = (Normal (mirrored_result ("Hey there, " ++ name ++ "! 👋 Nice to meet you!")),
            []))
  /\ texts_of (run (Index.greet "Tom" "ko")) = ["안녕하세요, Tom님!"]
  /\ texts_of (run (Registered.greet "Tom" "ko")) = ["안녕하세요, Tom님!"].
Proof.
  repeat split.
  - subst language. reflexivity.
  - subst language. reflexivity.
  - unfold run, Index.greet, ret. rewrite (eqb_ko_false language H). reflexivity.
  - unfold run, Registered.greet, ret. rewrite (eqb_ko_false language H). reflexivity.
Qed.

(** The greetings of Tom in Korean and of Ada in English. *)
Lemma greet_text_witness :
  (run (Index.greet "Tom" "ko")
   = (Normal (text_result ("안녕하세요, " ++ "Tom" ++ "님!")), [])
   /\ run (Registered.greet "Tom" "ko")
      = (Normal (mirrored_result ("안녕하세요, " ++ "Tom" ++ "님!")), []))
  /\ (run (Index.greet "Ada" "en")
      = (Normal (text_result ("Hey there, " ++ "Ada" ++ "! 👋 Nice to meet you!")), [])
      /\ run (Registered.greet "Ada" "en")
         = (Normal (mirrored_result ("Hey there, " ++ "Ada" ++ "! 👋 Nice to meet you!")),
            [])).
Proof.
  split.
  - apply (proj1 (greet_text "Tom" "ko")). reflexivity.
  - apply (proj1 (proj2 (greet_text "Ada" "en"))). discriminate.
Defined.

Lemma own_property_other (fields : list (string * value)) (k p : string) (v : value) :
  String.eqb k p = false ->
  own_property ((k, v) :: fields) p = own_property fields p.
Proof.
  intros H. simpl. rewrite H. reflexivity.
Qed.

Lemma greet_schema_default (fields : list (string * value)) :
  own_property fields "language" = VUndefined ->
  Schemas.greet (VObj fields)
  = Schemas.greet (VObj (("language", VStr "en") :: fields)).
Proof.
  intros H. unfold Schemas.greet, Zod.field.
  rewrite (own_property_other fields "language" "name") by reflexivity.
  destruct (Zod.string_ (own_property fields "name")) as [name |]; [| reflexivity].
  unfold Zod.and_then. rewrite H. reflexivity.
Qed.

(** C7.  In both editions the greeting handler is a function of
    [{name, language}] alone: equal arguments give equal results whatever
    the host, the world and the calls logged so far, and the handler logs
    no call; and a bag without [language] is handled as the bag with
    [language: "en"] (for every language, in particular [ko] and [en]). *)
Theorem greet_deterministic :
  (forall (h1 h2 : Host) (w1 w2 : World) (log1 log2 : list Event)
          (args1 args2 : string * string),
      args1 = args2 ->
      fst (handler Index.greet_tool h1 w1 args1 log1)
      = fst (handler Index.greet_tool h2 w2 args2 log2)
      /\ snd (handler Index.greet_tool h1 w1 args1 log1) = log1
      /\ fst (handler Registered.greet_tool h1 w1 args1 log1)
         = fst (handler Registered.greet_tool h2 w2 args2 log2)
      /\ snd (handler Registered.greet_tool h1 w1 args1 log1) = log1)
  /\ (forall (h : Host) (w : World) (fields : list (string * value)),
         own_property fields "language" = VUndefined ->
         call Index.greet_tool h w (VObj fields)
         = call Index.greet_tool h w (VObj (("language", VStr "en") :: fields))
         /\ call Registered.greet_tool h w (VObj fields)
            = call Registered.greet_tool h w (VObj (("language", VStr "en") :: fields))).
Proof.
  split.
  - intros h1 h2 w1 w2 log1 log2 [name language] args2 <-.
    repeat split.
  - intros h w fields H. unfold call.
    cbn [inputSchema Index.greet_tool Registered.greet_tool].
    rewrite <- (greet_schema_default fields H). split; reflexivity.
Qed.

(** Tom is greeted in Korean the same from any two starting logs, and
    [{name: "Tom"}] is greeted as [{name: "Tom", language: "en"}]. *)
Lemma greet_deterministic_witness :
  (fst (handler Index.greet_tool ascii_host (upstream (Normal VNull) (Normal []))
          ("Tom", "ko") [])
   = fst (handler Index.greet_tool ascii_host (upstream (Normal (VArr [])) (Normal []))
            ("Tom", "ko") [Fetched {| endpoint := "x"; params := []; headers := [] |}]))
  /\ call Index.greet_tool ascii_host (upstream (Normal VNull) (Normal []))
          (VObj [("name", VStr "Tom")])
     = call Index.greet_tool ascii_host (upstream (Normal VNull) (Normal []))
          (VObj [("language", VStr "en"); ("name", VStr "Tom")]).
Proof.
  split.
  - apply (proj1 greet_deterministic). reflexivity.
  - apply (proj2 greet_deterministic). reflexivity.
Defined.

(** ** The time lookup (C3) *)

(** C3.  When the date-formatting facility rejects the time zone, [getTime]
    of [index.ts] returns an error-flagged result and [getTime] of
    [part_000] throws; either text is the invalid-timezone message followed
    by the offending input, and no time is returned. *)
Theorem getTime_invalid_timezone (w : World) (timezone : string) (e : thrown) :
  DateTimeFormat_now w timezone = Abrupt e ->
  run (Index.getTime w timezone)
  = (Normal (error_result ("유효하지 않은 timezone입니다: " ++ timezone)), [])
  /\ run (Registered.getTime w timezone)
     = (Abrupt (ErrorObject
                  ("유효하지 않은 timezone입니다: " ++ timezone
                   ++ ". IANA Timezone 형식을 사용해주세요 (예: Asia/Seoul, America/New_York).")),
        []).
Proof.
  intros H.
  unfold run, Index.getTime, Registered.getTime, try_catch, bind, lift, ret, throw.
  rewrite H. split; reflexivity.
Qed.

(** [Mars/Phobos] is no time zone of the sample world. *)
Lemma getTime_invalid_timezone_witness :
  run (Index.getTime (upstream (Normal VNull) (Normal [])) "Mars/Phobos")
  = (Normal (error_result ("유효하지 않은 timezone입니다: " ++ "Mars/Phobos")), [])
  /\ run (Registered.getTime (upstream (Normal VNull) (Normal [])) "Mars/Phobos")
     = (Abrupt (ErrorObject
                  ("유효하지 않은 timezone입니다: " ++ "Mars/Phobos"
                   ++ ". IANA Timezone 형식을 사용해주세요 (예: Asia/Seoul, America/New_York).")),
        []).
Proof.
  apply (getTime_invalid_timezone (upstream (Normal VNull) (Normal [])) "Mars/Phobos"
           (ErrorObject "Invalid time zone specified: Mars/Phobos")).
  reflexivity.
Defined.

(** ** Geocoding (C4, C8) *)

Lemma append_assoc (a b c : string) : (a ++ b) ++ c = a ++ (b ++ c).
Proof.
  induction a as [| x a IH]; simpl; [reflexivity | rewrite IH; reflexivity].
Qed.

Lemma append_empty_r (a : string) : a ++ EmptyString = a.
Proof.
  induction a as [| x a IH]; simpl; [reflexivity | rewrite IH; reflexivity].
Qed.

Lemma Contains_middle (pre needle post : string) :
  Contains needle (pre ++ needle ++ post).
Proof.
  exists pre, post. reflexivity.
Qed.

Lemma prefix_append (needle post : string) : String.prefix needle (needle ++ post) = true.
Proof.
  induction needle as [| c needle IH]; simpl.
  - destruct post; reflexivity.
  - destruct (Ascii.ascii_dec c c) as [_ | N]; [exact IH | contradiction].
Qed.

Lemma includes_prefix (needle text : string) :
  String.prefix needle text = true -> includes needle text = true.
Proof.
  intros H. destruct text; cbn [includes]; rewrite H; reflexivity.
Qed.

(** [includes] answers [true] wherever the needle occurs. *)
Lemma Contains_includes (needle text : string) :
  Contains needle text -> includes needle text = true.
Proof.
  intros [pre [post ->]].
  induction pre as [| c pre IH].
  - change (includes needle (needle ++ post) = true).
    apply includes_prefix, prefix_append.
  - change (includes needle (String c (pre ++ needle ++ post)) = true).
    cbn [includes]. rewrite IH. apply orb_true_r.
Qed.

Lemma geocode_request_same (h : Host) (address : string) (limit : Z)
    (country : option string) :
  Registered.geocode_request h address limit country
  = Index.geocode_request h address limit country.
Proof.
  reflexivity.
Qed.

(** C4.  When the upstream answers with a success status and a body that
    parses to an empty array or to a value that is no array, both editions
    return a result without the error flag (nothing is thrown) whose text
    says that nothing was found for the quoted address.  (Both editions
    send the same request, [geocode_request_same].) *)
Theorem geocode_no_results (h : Host) (w : World) (address : string)
    (limit : option Z) (country : option string) (response : Response) (data : value) :
  fetch w (Index.geocode_request h address (or_default limit 1%Z) country)
  = Normal response ->
  ok response = true ->
  json response = Normal data ->
  data = VArr [] \/ isArray data = false ->
  run (Index.geocode h w address limit country)
  = (Normal (text_result
               ("주소 " ++ dquote ++ address ++ dquote ++ "에 대한 검색 결과가 없습니다.")),
     [Fetched (Index.geocode_request h address (or_default limit 1%Z) country)])
  /\ run (Registered.geocode h w address limit country)
     = (Normal (mirrored_result
                  ("주소 " ++ dquote ++ address ++ dquote ++ Registered.countryMsg country
                   ++ "에 대한 검색 결과를 찾을 수 없습니다.")),
        [Fetched (Index.geocode_request h address (or_default limit 1%Z) country)])
  /\ Contains address
       ("주소 " ++ dquote ++ address ++ dquote ++ "에 대한 검색 결과가 없습니다.")
  /\ Contains address
       ("주소 " ++ dquote ++ address ++ dquote ++ Registered.countryMsg country
        ++ "에 대한 검색 결과를 찾을 수 없습니다.").
Proof.
  intros Hfetch Hok Hjson Hdata.
  repeat split.
  - unfold run, Index.geocode, try_catch, bind, do_fetch, lift, ret.
    rewrite Hfetch, Hok, Hjson. simpl negb. cbv iota.
    destruct Hdata as [-> | Hno]; [reflexivity |].
    destruct data as [| | b | n | s | items | fields]; try reflexivity; discriminate.
  - unfold run, Registered.geocode, try_catch, bind, do_fetch, lift, ret.
    rewrite geocode_request_same, Hfetch, Hok, Hjson. simpl negb. cbv iota.
    destruct Hdata as [-> | Hno]; [reflexivity |].
    destruct data as [| | b | n | s | items | fields]; try reflexivity; discriminate.
  - apply (Contains_middle ("주소 " ++ dquote)).
  - change ("주소 " ++ dquote ++ address ++ dquote ++ Registered.countryMsg country
            ++ "에 대한 검색 결과를 찾을 수 없습니다.")
      with (("주소 " ++ dquote) ++ address ++ dquote ++ Registered.countryMsg country
            ++ "에 대한 검색 결과를 찾을 수 없습니다.").
    apply Contains_middle.
Qed.

(** The end-to-end example of the specification: no match for
    [no-such-place-xyz123]. *)
Lemma geocode_no_results_witness :
  run (Index.geocode ascii_host (upstream (Normal (VArr [])) (Normal []))
         "no-such-place-xyz123" None None)
  = (Normal (text_result
               ("주소 " ++ dquote ++ "no-such-place-xyz123" ++ dquote
                ++ "에 대한 검색 결과가 없습니다.")),
     [Fetched (Index.geocode_request ascii_host "no-such-place-xyz123" 1%Z None)])
  /\ run (Registered.geocode ascii_host (upstream (Normal (VArr [])) (Normal []))
            "no-such-place-xyz123" None None)
     = (Normal (mirrored_result
                  ("주소 " ++ dquote ++ "no-such-place-xyz123" ++ dquote
                   ++ "에 대한 검색 결과를 찾을 수 없습니다.")),
        [Fetched (Index.geocode_request ascii_host "no-such-place-xyz123" 1%Z None)]).
Proof.
  pose proof (geocode_no_results ascii_host (upstream (Normal (VArr [])) (Normal []))
                "no-such-place-xyz123" None None
                {| ok := true; status := 200; statusText := "OK";
                   json := Normal (VArr []) |}
                (VArr []) eq_refl eq_refl eq_refl (or_introl eq_refl)) as [HI [HR _]].
  split; [exact HI | exact HR].
Defined.

Lemma get_object (h : Host) (fields : list (string * value)) (p : string) :
  get h (VObj fields) p = Normal (own_property fields p).
Proof.
  reflexivity.
Qed.

(** Reading a property of a truthy value does not throw. *)
Lemma get_truthy (h : Host) (v : value) (p : string) :
  truthy v = true -> get h v p = Normal (get_opt h v p).
Proof.
  intros H. unfold get_opt. destruct v; try discriminate; reflexivity.
Qed.











(** ** The daily forecast (C5) *)

Lemma join_all_app (a b : list string) :
  join_all (a ++ b)%list = join_all a ++ join_all b.
Proof.
  induction a as [| x a IH]; simpl.
  - reflexivity.
  - rewrite IH, append_assoc. reflexivity.
Qed.

(** A loop whose round [i] appends [entry i] appends the entries of its
    rounds in order. *)
Lemma for_loop_appends (body : nat -> string -> Completion string)
    (entry : nat -> string) :
  (forall i resultText, body i resultText = Normal (resultText ++ entry i)) ->
  forall rounds i resultText,
    for_loop body i rounds resultText
    = Normal (resultText ++ join_all (map entry (seq i rounds))).
Proof.
  intros Hbody. induction rounds as [| rounds IH]; intros i resultText.
  - simpl. rewrite append_empty_r. reflexivity.
  - cbn [for_loop]. rewrite Hbody, IH. cbn [seq map join_all fold_right].
    rewrite append_assoc. reflexivity.
Qed.

Lemma firstn_seq (n start len : nat) :
  firstn n (seq start len) = seq start (Nat.min n len).
Proof.
  revert start len. induction n as [| n IH]; intros start [| len]; simpl;
    try reflexivity.
  rewrite IH. reflexivity.
Qed.

Lemma indexed_nth {A : Type} (d : A) (l : list A) (start : nat) :
  indexed start l = map (fun i => (i, nth (i - start) l d)) (seq start (length l)).
Proof.
  unfold indexed. revert start. induction l as [| a l IH]; intros start.
  - reflexivity.
  - cbn [length seq combine map]. rewrite Nat.sub_diag. cbn [nth]. f_equal.
    rewrite IH. apply map_ext_in. intros i Hi. apply in_seq in Hi.
    replace (i - start) with (S (i - S start)) by lia. reflexivity.
Qed.

(** The first [n] days with their positions are the positions below [n]
    (and below the number of days) with the days found there. *)
Lemma firstn_indexed {A : Type} (d : A) (l : list A) (n : nat) :
  firstn n (indexed 0 l)
  = map (fun i => (i, nth i l d)) (seq 0 (Nat.min n (length l))).
Proof.
  rewrite (indexed_nth d), firstn_map, firstn_seq.
  apply map_ext. intros i. rewrite Nat.sub_0_r. reflexivity.
Qed.

Lemma loop_rounds_counted (h : Host) (n : nat) (k : Z) :
  loop_rounds h (Counted n) k = Nat.min (Z.to_nat k) n.
Proof.
  unfold loop_rounds. lia.
Qed.

Lemma daily_round_index (h : Host) (fields : list (string * value)) (days : list value)
    (i : nat) (resultText : string) :
  own_property fields "time" = VArr days ->
  Index.daily_round h (VObj fields) i resultText
  = Normal (resultText ++ day_entry_index h fields (i, nth i days VUndefined)).
Proof.
  intros Htime. unfold Index.daily_round, and_next.
  rewrite !get_object, Htime. reflexivity.
Qed.

(** Brings two texts made of the same pieces to the same form. *)
Ltac same_text :=
  cbn [lines_text map join_all fold_right Datatypes.app andb];
  rewrite ?append_assoc; cbn [append]; rewrite ?append_empty_r;
  reflexivity.

Lemma daily_round_registered (h : Host) (fields : list (string * value))
    (days : list value) (i : nat) (resultText : string) :
  own_property fields "time" = VArr days ->
  Registered.daily_round h (VObj fields) i resultText
  = Normal (resultText ++ day_entry_registered h fields (i, nth i days VUndefined)).
Proof.
  intros Htime. unfold Registered.daily_round, and_next.
  rewrite !get_object, Htime. cbn [index index_opt].
  unfold Registered.daily_entry, day_entry_registered. f_equal. f_equal.
  destruct (defined (index_opt h (own_property fields "temperature_2m_max") i)),
    (defined (index_opt h (own_property fields "temperature_2m_min") i)),
    (defined (index_opt h (own_property fields "weather_code") i)),
    (defined (index_opt h (own_property fields "precipitation_sum") i)),
    (defined (index_opt h (own_property fields "wind_speed_10m_max") i));
    same_text.
Qed.

Lemma daily_block_index_appends (h : Host) (forecast_days : Z) (data : value)
    (fields : list (string * value)) (days : list value) (resultText : string) :
  get h data "daily" = Normal (VObj fields) ->
  own_property fields "time" = VArr days ->
  Index.daily_block h forecast_days data resultText
  = Normal (resultText ++ daily_section_index h forecast_days fields days).
Proof.
  intros Hdaily Htime. unfold Index.daily_block, daily_section_index, and_next.
  rewrite Hdaily, get_object, Htime. cbn [truthy length_of].
  rewrite loop_rounds_counted.
  rewrite (for_loop_appends _ (fun i => day_entry_index h fields (i, nth i days VUndefined)))
    by (intros; apply daily_round_index; exact Htime).
  rewrite (firstn_indexed VUndefined), map_map, !append_assoc. reflexivity.
Qed.

Lemma daily_block_registered_appends (h : Host) (forecast_days : Z) (data : value)
    (fields : list (string * value)) (days : list value) (resultText : string) :
  get h data "daily" = Normal (VObj fields) ->
  own_property fields "time" = VArr days ->
  Registered.daily_block h forecast_days data resultText
  = Normal (resultText ++ daily_section_registered h forecast_days fields days).
Proof.
  intros Hdaily Htime. unfold Registered.daily_block, daily_section_registered, and_next.
  rewrite Hdaily, get_object, Htime. cbn [truthy length_of].
  rewrite loop_rounds_counted.
  rewrite (for_loop_appends _
             (fun i => day_entry_registered h fields (i, nth i days VUndefined)))
    by (intros; apply daily_round_registered; exact Htime).
  rewrite (firstn_indexed VUndefined), map_map, !append_assoc. reflexivity.
Qed.

(** ** The weather codes (C10) *)

Lemma decimal_parses (z : Z) :
  NilZero.int_of_string (decimal z) = Some (Z.to_int z).
Proof.
  unfold decimal. apply NilZero.isi; destruct z; simpl; intros H;
    try discriminate H; inversion H as [E];
    exact (DecimalPos.Unsigned.to_uint_nonnil _ E).
Qed.

Lemma decimal_inj (a b : Z) : decimal a = decimal b -> a = b.
Proof.
  intros H. apply DecimalZ.to_int_inj.
  pose proof (decimal_parses a) as Pa. rewrite H, decimal_parses in Pa.
  inversion Pa. reflexivity.
Qed.

Lemma own_absent (table : list (Z * string)) (z : Z) :
  ~ In z (map fst table) ->
  find (fun entry => String.eqb (decimal (fst entry)) (decimal z)) table = None.
Proof.
  induction table as [| [k d] table IH]; intros Hnot.
  - reflexivity.
  - cbn [find fst]. destruct (String.eqb_spec (decimal k) (decimal z)) as [E | _].
    + exfalso. apply Hnot. left. apply decimal_inj. exact E.
    + apply IH. intros Hin. apply Hnot. right. exact Hin.
Qed.

(** No decimal numeral is the name of a member of [Object.prototype]. *)
Lemma decimal_not_inherited (z : Z) :
  existsb (String.eqb (decimal z)) Registered.Object_prototype_names = false.
Proof.
  pose proof (decimal_parses z) as P.
  unfold Registered.Object_prototype_names. cbn [existsb].
  repeat match goal with
         | |- context [String.eqb (decimal z) ?name] =>
             destruct (String.eqb_spec (decimal z) name) as [E | _];
             [rewrite E in P; discriminate P |]
         end.
  reflexivity.
Qed.

(** C10.  [getWeatherDescription] is a total function.  For a number that
    holds an integer (its string is the decimal numeral of [z]): when the
    table lists [z], the result is the description listed for it, glyph
    included, which is not empty; when the table does not list [z], the
    result is the fallback ["날씨 코드: {code}"]; either way it is not the
    empty string. *)
Theorem getWeatherDescription_total (h : Host) (n : float) (z : Z) :
  Number_toString h n = decimal z ->
  (forall description,
      In (z, description) Registered.weatherCodes ->
      Registered.getWeatherDescription h (VNum n) = description
      /\ description <> EmptyString)
  /\ (~ In z (map fst Registered.weatherCodes) ->
      Registered.getWeatherDescription h (VNum n) = "날씨 코드: " ++ decimal z)
  /\ Registered.getWeatherDescription h (VNum n) <> EmptyString.
Proof.
  intros Hn.
  assert (Hlisted : forall description,
             In (z, description) Registered.weatherCodes ->
             Registered.getWeatherDescription h (VNum n) = description
             /\ description <> EmptyString).
  { intros description Hin.
    unfold Registered.getWeatherDescription. cbn [ToString]. rewrite Hn.
    unfold Registered.weatherCodes in Hin. cbn [In] in Hin.
    repeat (destruct Hin as [Hin | Hin];
            [inversion Hin; subst z description; split; [reflexivity | discriminate] |]).
    contradiction. }
  assert (Habsent : ~ In z (map fst Registered.weatherCodes) ->
                    Registered.getWeatherDescription h (VNum n)
                    = "날씨 코드: " ++ decimal z).
  { intros Hnot.
    unfold Registered.getWeatherDescription, Registered.weatherCodes_own.
    cbn [ToString]. rewrite Hn, (own_absent _ z Hnot), decimal_not_inherited.
    reflexivity. }
  split; [exact Hlisted | split; [exact Habsent |]].
  destruct (in_dec Z.eq_dec z (map fst Registered.weatherCodes)) as [Hin | Hnot].
  - apply in_map_iff in Hin. destruct Hin as [[k description] [Hk Hin]].
    cbn [fst] in Hk. subst k.
    destruct (Hlisted description Hin) as [-> Hne]. exact Hne.
  - rewrite (Habsent Hnot). discriminate.
Qed.

(** Code 45 is listed (fog) and code 4 is not. *)
Lemma getWeatherDescription_total_witness :
  Registered.getWeatherDescription ascii_host (VNum 45) = "🌫️ 안개"
  /\ Registered.getWeatherDescription ascii_host (VNum 4) = "날씨 코드: " ++ decimal 4.
Proof.
  split.
  - apply (proj1 (getWeatherDescription_total ascii_host 45 45 eq_refl)).
    unfold Registered.weatherCodes. cbn [In].
    do 4 right. left. reflexivity.
  - apply (proj1 (proj2 (getWeatherDescription_total ascii_host 4 4 eq_refl))).
    unfold Registered.weatherCodes. cbn [map fst In].
    intros H. repeat destruct H as [H | H]; discriminate || contradiction.
Defined.

(** ** The credential of image generation (C9) *)

(** C9 fails as stated on [part_000]: with no credential in the
    configuration or the environment, its handler still makes the inference
    call (with a client that has no token) and returns whatever the service
    answers: the image when the service answers with one, and a thrown
    image-generation error when it rejects. *)
Lemma generate_image_without_credential_calls_upstream :
  run (Registered.generate_image ascii_host
         (upstream (Normal VNull) (Normal (list_byte_of_string "png")))
         (Registered.hfClient None None) "cat")
  = (Normal (image_result "cG5n"), [Inferred (inference_call None "cat")])
  /\ run (Registered.generate_image ascii_host
            (upstream (Normal VNull) (Abrupt (ErrorObject "Unauthorized")))
            (Registered.hfClient (Some {| Registered.hfToken := None |}) None) "cat")
     = (Abrupt (ErrorObject
                  ("이미지 생성 오류: Unauthorized"
                   ++ ". HF_TOKEN 환경 변수가 설정되어 있는지 확인해주세요.")),
        [Inferred (inference_call None "cat")]).
Proof.
  split; vm_compute; reflexivity.
Qed.

Lemma hfClient_without_credential (config : option Registered.Config)
    (env_HF_TOKEN : option string) :
  match config with
  | Some c => given (Registered.hfToken c) = false
  | None => True
  end ->
  given env_HF_TOKEN = false ->
  given (Registered.hfClient config env_HF_TOKEN) = false.
Proof.
  intros Hconfig Henv. unfold Registered.hfClient.
  destruct config as [c |]; [rewrite Hconfig |]; exact Henv.
Qed.

Lemma other_tools_ignore_HF_TOKEN :
  Forall ignores_HF_TOKEN
    [ Index.greet_tool; Index.calculator_tool; Index.getTime_tool;
      Index.geocode_tool; Index.get_weather_tool;
      Registered.greet_tool; Registered.calculator_tool; Registered.getTime_tool;
      Registered.geocode_tool; Registered.get_weather_tool ].
Proof.
  repeat constructor; intros token h w args log;
    repeat match goal with
           | a : Args _ |- _ => cbn in a
           | a : (_ * _)%type |- _ => destruct a
           end;
    reflexivity.
Qed.

(** C9, as the code has it.  In [index.ts] a missing (or empty)
    [HF_TOKEN] of the environment makes the handler return the
    error-flagged missing-credential text without any outbound call.  In
    [part_000] the handler checks nothing: it makes exactly one inference
    call, with the token of the client (none when neither the configuration
    nor the environment gives one), returns the image when the call
    succeeds and throws an image-generation error, with a hint to check
    [HF_TOKEN], when it fails.  In both editions every other tool runs the
    same whatever the credential is, and the registrations of [part_000]
    other than [generate-image] do not depend on the configuration. *)
Theorem generate_image_credential :
  (forall (h : Host) (w : World) (prompt : string),
      given (HF_TOKEN w) = false ->
      run (Index.generate_image h w prompt)
      = (Normal (error_result "HF_TOKEN 환경 변수가 설정되지 않았습니다."), []))
  /\ (forall (h : Host) (w : World) (client : option string) (prompt : string),
         run (Registered.generate_image h w client prompt)
         = (match textToImage w (inference_call client prompt) with
            | Normal bytes => Normal (image_result (base64 bytes))
            | Abrupt e =>
                Abrupt (ErrorObject
                          ("이미지 생성 오류: "
                           ++ message_or e "알 수 없는 오류가 발생했습니다."
                           ++ ". HF_TOKEN 환경 변수가 설정되어 있는지 확인해주세요."))
            end,
            [Inferred (inference_call client prompt)]))
  /\ Registered.hfClient None None = None
  /\ Forall ignores_HF_TOKEN (removelast Index.createServer)
  /\ (forall config env_HF_TOKEN,
         Forall ignores_HF_TOKEN
           (removelast (Registered.createServer config env_HF_TOKEN))
         /\ removelast (Registered.createServer config env_HF_TOKEN)
            = removelast (Registered.createServer None None)).
Proof.
  pose proof other_tools_ignore_HF_TOKEN as Hother.
  repeat split.
  - intros h w prompt Hnone.
    unfold run, Index.generate_image, try_catch. rewrite Hnone. reflexivity.
  - intros h w client prompt.
    unfold run, Registered.generate_image, try_catch, bind, do_textToImage, ret, throw.
    fold (inference_call client prompt).
    destruct (textToImage w (inference_call client prompt)); reflexivity.
  - cbn [Index.createServer removelast].
    repeat (apply Forall_cons_iff in Hother; destruct Hother as [? Hother]).
    repeat (constructor; [assumption |]). constructor.
  - cbn [Registered.createServer removelast].
    do 5 (apply Forall_cons_iff in Hother; destruct Hother as [_ Hother]).
    exact Hother.
Qed.

(** Without [HF_TOKEN] in its environment, the sample world gets the
    missing-credential result from [index.ts], and no call is made. *)
Lemma generate_image_credential_witness :
  run (Index.generate_image ascii_host
         (upstream (Normal VNull) (Normal (list_byte_of_string "png"))) "cat")
  = (Normal (error_result "HF_TOKEN 환경 변수가 설정되지 않았습니다."), []).
Proof.
  apply (proj1 generate_image_credential). reflexivity.
Defined.

(** ** Every result holds a content block (C2) *)

Lemma Safe_ret (r : InvocationResult) : content r <> [] -> Safe (ret r).
Proof.
  intros H log. exact H.
Qed.

Lemma Safe_throw (e : thrown) : Safe (throw e).
Proof.
  intros log. exact I.
Qed.

Lemma Safe_bind {A : Type} (m : Eff A) (k : A -> Eff InvocationResult) :
  (forall a, Safe (k a)) -> Safe (bind m k).
Proof.
  intros Hk log. unfold bind.
  destruct (m log) as [[a | e] log']; [apply Hk | exact I].
Qed.

Lemma Safe_try_catch (body : Eff InvocationResult)
    (recover : thrown -> Eff InvocationResult) :
  Safe body -> (forall e, Safe (recover e)) -> Safe (try_catch body recover).
Proof.
  intros Hbody Hrecover log. unfold try_catch.
  pose proof (Hbody log) as H. unfold returns_content in H.
  destruct (body log) as [[r | e] log']; [exact H | apply Hrecover].
Qed.

Lemma one_block_not_empty (block : ContentBlock) : [block] <> [].
Proof.
  discriminate.
Qed.

(** Follows the shape of a handler down to its [return]s and [throw]s. *)
Ltac safe :=
  repeat first
    [ apply Safe_try_catch; [| intros ?]
    | apply Safe_bind; intros ?
    | apply Safe_throw
    | apply Safe_ret; apply one_block_not_empty
    | match goal with
      | |- Safe (if ?b then _ else _) => destruct b
      | |- Safe (match (if ?b then _ else _) with _ => _ end) => destruct b
      | |- Safe (match ?x with _ => _ end) => destruct x
      | |- Safe (let _ := _ in _) => cbv zeta
      end ].

Lemma Index_handlers_safe :
  Forall (fun t => forall h w (args : Args t), Safe (handler t h w args))
    Index.createServer.
Proof.
  repeat constructor; intros h w args;
    repeat match goal with
           | a : Args _ |- _ => cbn in a
           | a : (_ * _)%type |- _ => destruct a
           end;
    cbn [handler Index.greet_tool Index.calculator_tool Index.getTime_tool
           Index.geocode_tool Index.get_weather_tool Index.generate_image_tool].
  - unfold Index.greet. safe.
  - unfold Index.calculator, Index.calculator_switch. safe.
  - unfold Index.getTime. safe.
  - unfold Index.geocode. safe.
  - unfold Index.get_weather. safe.
  - unfold Index.generate_image. safe.
Qed.

Lemma Registered_handlers_safe (config : option Registered.Config)
    (env_HF_TOKEN : option string) :
  Forall (fun t => forall h w (args : Args t), Safe (handler t h w args))
    (Registered.createServer config env_HF_TOKEN).
Proof.
  repeat constructor; intros h w args;
    repeat match goal with
           | a : Args _ |- _ => cbn in a
           | a : (_ * _)%type |- _ => destruct a
           end;
    cbn [handler Registered.greet_tool Registered.calculator_tool
           Registered.getTime_tool Registered.geocode_tool
           Registered.get_weather_tool Registered.generate_image_tool].
  - unfold Registered.greet. safe.
  - unfold Registered.calculator. safe.
  - unfold Registered.getTime. safe.
  - unfold Registered.geocode. safe.
  - unfold Registered.get_weather. safe.
  - unfold Registered.generate_image. safe.
Qed.

(** C2.  Whatever the host, the world, the validated arguments and the
    calls logged so far, every handler of either edition either returns a
    result with at least one content block (on success and on the errors it
    reports itself) or throws for the dispatcher to wrap; it always does one
    of the two. *)
Theorem handlers_return_content :
  Forall (fun t => forall h w (args : Args t) log,
              returns_content (handler t h w args log))
    Index.createServer
  /\ (forall config env_HF_TOKEN,
         Forall (fun t => forall h w (args : Args t) log,
                     returns_content (handler t h w args log))
           (Registered.createServer config env_HF_TOKEN)).
Proof.
  split; [| intros config env_HF_TOKEN].
  - exact Index_handlers_safe.
  - exact (Registered_handlers_safe config env_HF_TOKEN).
Qed.

(** The dispatcher turns a throw into a result with one text block, so that
    every result it gives holds a block. *)
Lemma invoke_result_has_content (registry : list ToolDefinition) (h : Host) (w : World)
    (name : string) (rawArgs : value) :
  Forall (fun t => forall h w (args : Args t), Safe (handler t h w args)) registry ->
  match fst (invoke registry h w name rawArgs) with
  | Result r => content r <> []
  | ToolNotFound _ | ValidationError _ _ => True
  end.
Proof.
  intros Hsafe. unfold invoke, call.
  destruct (find (fun t => String.eqb (tool_name t) name) registry) as [t |] eqn:Hfind;
    [| exact I].
  apply find_some in Hfind. destruct Hfind as [Hin _].
  rewrite Forall_forall in Hsafe. specialize (Hsafe t Hin).
  destruct (inputSchema t rawArgs) as [args | field]; [| exact I].
  pose proof (Hsafe h w args []) as H. unfold returns_content, run in *.
  destruct (handler t h w args []) as [[r | e] log]; [exact H | discriminate].
Qed.

(** ** The daily section within the weather report *)

(** Once one property of a value has been read, reading another does not
    throw. *)
Lemma get_after_get (h : Host) (v : value) (p q : string) (x : value) :
  get h v p = Normal x -> get h v q = Normal (get_opt h v q).
Proof.
  intros H. unfold get_opt. destruct v; try discriminate; reflexivity.
Qed.

Lemma index_truthy (h : Host) (v : value) (i : nat) :
  truthy v = true -> index h v i = Normal (index_opt h v i).
Proof.
  intros H. destruct v; try discriminate; reflexivity.
Qed.

Lemma length_of_truthy (h : Host) (v : value) :
  truthy v = true -> exists len, length_of h v = Normal len.
Proof.
  intros H. destruct v; try discriminate; eexists; reflexivity.
Qed.

Lemma current_block_index_appends (h : Host) (data x : value) (p : string)
    (resultText : string) :
  get h data p = Normal x ->
  exists current, Index.current_block h data resultText = Normal (resultText ++ current).
Proof.
  intros Hdata. unfold Index.current_block, and_next.
  rewrite (get_after_get h data p "current_weather" x Hdata).
  destruct (truthy (get_opt h data "current_weather")) eqn:Hcurrent.
  - rewrite !(get_truthy h _ _ Hcurrent). eexists. reflexivity.
  - exists EmptyString. rewrite append_empty_r. reflexivity.
Qed.

Lemma current_block_registered_appends (h : Host) (data x : value) (p : string)
    (resultText : string) :
  get h data p = Normal x ->
  exists current,
    Registered.current_block h data resultText = Normal (resultText ++ current).
Proof.
  intros Hdata. unfold Registered.current_block, and_next.
  rewrite (get_after_get h data p "current_weather" x Hdata).
  destruct (truthy (get_opt h data "current_weather")) eqn:Hcurrent.
  - rewrite !(get_truthy h _ _ Hcurrent). eexists. reflexivity.
  - exists EmptyString. rewrite append_empty_r. reflexivity.
Qed.

Lemma header_block_returns (h : Host) (latitude longitude : float) (data x : value)
    (p : string) :
  get h data p = Normal x ->
  exists header, Registered.header_block h latitude longitude data = Normal header.
Proof.
  intros Hdata. unfold Registered.header_block, and_next.
  rewrite (get_after_get h data p "timezone" x Hdata),
    (get_after_get h data p "elevation" x Hdata).
  eexists. reflexivity.
Qed.

Lemma hourly_block_appends (h : Host) (data x : value) (p : string)
    (resultText : string) :
  get h data p = Normal x ->
  exists hourly, Registered.hourly_block h data resultText = Normal (resultText ++ hourly).
Proof.
  intros Hdata. unfold Registered.hourly_block, and_next.
  rewrite (get_after_get h data p "hourly" x Hdata).
  destruct (truthy (get_opt h data "hourly")) eqn:Hhourly;
    [| exists EmptyString; rewrite append_empty_r; reflexivity].
  rewrite (get_truthy h _ "time" Hhourly).
  destruct (truthy (get_opt h (get_opt h data "hourly") "time")) eqn:Htime;
    [| exists EmptyString; rewrite append_empty_r; reflexivity].
  destruct (length_of_truthy h _ Htime) as [len ->].
  rewrite (for_loop_appends _
             (fun i =>
                Registered.hourly_entry h
                  (index_opt h (get_opt h (get_opt h data "hourly") "time") i)
                  (index_opt h (get_opt h (get_opt h data "hourly") "temperature_2m") i)
                  (index_opt h (get_opt h (get_opt h data "hourly") "relative_humidity_2m") i)
                  (index_opt h (get_opt h (get_opt h data "hourly") "precipitation") i)
                  (index_opt h (get_opt h (get_opt h data "hourly") "wind_speed_10m") i)
                  (index_opt h (get_opt h (get_opt h data "hourly") "wind_direction_10m") i)
                  (index_opt h (get_opt h (get_opt h data "hourly") "weather_code") i))).
  - rewrite !append_assoc. eexists. reflexivity.
  - intros i text. unfold Registered.hourly_round, and_next.
    rewrite !(get_truthy h _ _ Hhourly), (index_truthy h _ i Htime). reflexivity.
Qed.

(** ** Further properties of the handlers *)

Lemma hourly_round_registered (h : Host) (fields : list (string * value))
    (hours : list value) (i : nat) (resultText : string) :
  own_property fields "time" = VArr hours ->
  Registered.hourly_round h (VObj fields) i resultText
  = Normal (resultText ++ hour_entry_registered h fields (i, nth i hours VUndefined)).
Proof.
  intros Htime. unfold Registered.hourly_round, and_next.
  rewrite !get_object, Htime. cbn [index index_opt].
  unfold Registered.hourly_entry, hour_entry_registered. f_equal. f_equal.
  same_text.
Qed.

(** An operator other than [+ - * /] is reported as unsupported: by an
    error-flagged result in [index.ts], by a throw in [part_000]. *)
Theorem calculator_unsupported_operator (h : Host) (num1 num2 : float)
    (operator : string) :
  ~ In operator ["+"; "-"; "*"; "/"] ->
  run (Index.calculator h num1 num2 operator)
  = (Normal (error_result "오류: 지원하지 않는 연산자입니다."), [])
  /\ run (Registered.calculator h num1 num2 operator)
     = (Abrupt (ErrorObject "지원하지 않는 연산자입니다."), []).
Proof.
  intros Hnot.
  assert (Hneq : forall s, In s ["+"; "-"; "*"; "/"] -> String.eqb operator s = false).
  { intros s Hs. apply String.eqb_neq. intros ->. exact (Hnot Hs). }
  unfold run, Index.calculator, Index.calculator_switch,
    Registered.calculator, Registered.calculator_switch, bind, lift, ret.
  rewrite !Hneq by (simpl; tauto). split; reflexivity.
Qed.

Lemma calculator_unsupported_operator_witness :
  run (Index.calculator ascii_host 7 2 "%")
  = (Normal (error_result "오류: 지원하지 않는 연산자입니다."), [])
  /\ run (Registered.calculator ascii_host 7 2 "%")
     = (Abrupt (ErrorObject "지원하지 않는 연산자입니다."), []).
Proof.
  apply (calculator_unsupported_operator ascii_host 7 2 "%").
  simpl. intros [H | [H | [H | [H | []]]]]; discriminate H.
Defined.

(** A non-success status of the upstream is reported with the status code,
    after exactly one request: by an error-flagged result in [index.ts], by
    a throw (with the status text, under the prefix of the tool) in
    [part_000]. *)
Theorem upstream_failure_reported (h : Host) (w : World) (response : Response) :
  (forall req, fetch w req = Normal response) ->
  ok response = false ->
  (forall address limit country,
      run (Index.geocode h w address limit country)
      = (Normal (error_result ("API 요청 실패: " ++ decimal (status response))),
         [Fetched (Index.geocode_request h address (or_default limit 1%Z) country)])
      /\ run (Registered.geocode h w address limit country)
         = (Abrupt (ErrorObject
                      ("Geocoding 오류: " ++ "API 요청 실패: " ++ decimal (status response)
                       ++ " " ++ statusText response)),
            [Fetched (Index.geocode_request h address (or_default limit 1%Z) country)]))
  /\ (forall latitude longitude forecast_days timezone,
         run (Index.get_weather h w latitude longitude forecast_days)
         = (Normal (error_result ("API 요청 실패: " ++ decimal (status response))),
            [Fetched (Index.weather_request h latitude longitude
                        (or_default forecast_days 7%Z))])
         /\ run (Registered.get_weather h w latitude longitude forecast_days timezone)
            = (Abrupt (ErrorObject
                         ("날씨 정보 조회 오류: " ++ "API 요청 실패: "
                          ++ decimal (status response) ++ " " ++ statusText response)),
               [Fetched (Registered.weather_request h latitude longitude
                           (or_default forecast_days 7%Z) timezone)])).
Proof.
  intros Hfetch Hok. split.
  - intros address limit country. split.
    + unfold run, Index.geocode, try_catch, bind, do_fetch, lift, ret.
      rewrite Hfetch, Hok. reflexivity.
    + unfold run, Registered.geocode, try_catch, bind, do_fetch, lift, ret, throw.
      rewrite Hfetch, Hok. reflexivity.
  - intros latitude longitude forecast_days timezone. split.
    + unfold run, Index.get_weather, try_catch, bind, do_fetch, lift, ret.
      rewrite Hfetch, Hok. reflexivity.
    + unfold run, Registered.get_weather, try_catch, bind, do_fetch, lift, ret, throw.
      rewrite Hfetch, Hok. reflexivity.
Qed.

Lemma upstream_failure_reported_witness :
  texts_of (run (Index.geocode ascii_host (failing_upstream 503 "Service Unavailable")
                   "Seoul" None None))
  = ["API 요청 실패: 503"]
  /\ fst (run (Registered.get_weather ascii_host
                 (failing_upstream 503 "Service Unavailable") 37 127 None None))
     = Abrupt (ErrorObject "날씨 정보 조회 오류: API 요청 실패: 503 Service Unavailable").
Proof.
  pose proof (upstream_failure_reported ascii_host
                (failing_upstream 503 "Service Unavailable")
                {| ok := false; status := 503; statusText := "Service Unavailable";
                   json := Abrupt (ErrorObject "Unexpected end of JSON input") |}
                (fun _ => eq_refl) eq_refl) as [Hgeocode Hweather].
  destruct (Hgeocode "Seoul" None None) as [HI _].
  destruct (Hweather 37%float 127%float None None) as [_ HR].
  rewrite HI, HR. split; reflexivity.
Defined.

(** For a zone that the formatting facility knows, [getTime] returns the
    text ["Timezone: {tz}\n현재 시간: {formatted}"] in both editions. *)
Theorem getTime_text (w : World) (timezone formatted : string) :
  DateTimeFormat_now w timezone = Normal formatted ->
  run (Index.getTime w timezone)
  = (Normal (text_result ("Timezone: " ++ timezone ++ nl ++ "현재 시간: " ++ formatted)), [])
  /\ run (Registered.getTime w timezone)
     = (Normal (mirrored_result
                  ("Timezone: " ++ timezone ++ nl ++ "현재 시간: " ++ formatted)), []).
Proof.
  intros H.
  unfold run, Index.getTime, Registered.getTime, try_catch, bind, lift, ret.
  rewrite H. split; reflexivity.
Qed.

Lemma getTime_text_witness :
  run (Index.getTime (upstream (Normal VNull) (Normal [])) "Asia/Seoul")
  = (Normal (text_result
               ("Timezone: " ++ "Asia/Seoul" ++ nl ++ "현재 시간: "
                ++ "2025. 12. 15. 18:00:00")), [])
  /\ run (Registered.getTime (upstream (Normal VNull) (Normal [])) "Asia/Seoul")
     = (Normal (mirrored_result
                  ("Timezone: " ++ "Asia/Seoul" ++ nl ++ "현재 시간: "
                   ++ "2025. 12. 15. 18:00:00")), []).
Proof.
  apply (getTime_text (upstream (Normal VNull) (Normal [])) "Asia/Seoul"
           "2025. 12. 15. 18:00:00").
  reflexivity.
Defined.

(** ** The code-review prompt *)

Lemma prefix_empty (t : string) : String.prefix EmptyString t = true.
Proof.
  destruct t; reflexivity.
Qed.

Lemma prefix_split (p t : string) :
  String.prefix p t = true -> t = p ++ drop (String.length p) t.
Proof.
  revert t. induction p as [| a p IH]; intros t H.
  - reflexivity.
  - destruct t as [| b t]; [discriminate |].
    cbn [String.prefix] in H. destruct (ascii_dec a b) as [-> | _]; [| discriminate].
    cbn [String.length drop append]. rewrite <- (IH t H). reflexivity.
Qed.

Lemma prefix_length (p t : string) :
  String.prefix p t = true -> String.length p <= String.length t.
Proof.
  revert t. induction p as [| a p IH]; intros t H.
  - cbn. lia.
  - destruct t as [| b t]; [discriminate |].
    cbn [String.prefix] in H. destruct (ascii_dec a b); [| discriminate].
    cbn [String.length]. apply IH in H. lia.
Qed.

(** A pattern no longer than [a] is a prefix of [a ++ b] exactly when it
    is one of [a]. *)
Lemma prefix_long (p a b : string) :
  String.length p <= String.length a ->
  String.prefix p (a ++ b) = String.prefix p a.
Proof.
  revert a. induction p as [| x p IH]; intros a H.
  - rewrite !prefix_empty. reflexivity.
  - destruct a as [| y a]; [cbn in H; lia |].
    cbn [append String.prefix]. destruct (ascii_dec x y); [| reflexivity].
    apply IH. cbn in H. lia.
Qed.

Lemma drop_app (n : nat) (a b : string) :
  n <= String.length a -> drop n (a ++ b) = drop n a ++ b.
Proof.
  revert a. induction n as [| n IH]; intros a H.
  - reflexivity.
  - destruct a as [| y a]; [cbn in H; lia |].
    cbn [append drop]. apply IH. cbn in H. lia.
Qed.

Lemma split_at_first_length (p t a b : string) :
  split_at_first p t = Some (a, b) -> String.length p <= String.length t.
Proof.
  revert a b. induction t as [| c t IH]; intros a b H; cbn [split_at_first] in H.
  - destruct (String.prefix p EmptyString) eqn:E; [| discriminate].
    apply prefix_length. exact E.
  - destruct (String.prefix p (String c t)) eqn:E.
    + apply prefix_length. exact E.
    + destruct (split_at_first p t) as [[x y] |] eqn:S; [| discriminate].
      specialize (IH x y eq_refl). cbn [String.length]. lia.
Qed.

(** What is found is an occurrence. *)
Lemma split_at_first_sound (p t a b : string) :
  split_at_first p t = Some (a, b) -> t = a ++ p ++ b.
Proof.
  revert a b. induction t as [| c t IH]; intros a b H; cbn [split_at_first] in H.
  - destruct (String.prefix p EmptyString) eqn:E; [| discriminate].
    inversion H; subst. apply prefix_split. exact E.
  - destruct (String.prefix p (String c t)) eqn:E.
    + inversion H; subst. apply prefix_split. exact E.
    + destruct (split_at_first p t) as [[x y] |] eqn:S; [| discriminate].
      inversion H; subst. cbn [append]. rewrite <- (IH x b eq_refl). reflexivity.
Qed.

(** The first occurrence in [a] is the first occurrence in [a ++ b]. *)
Lemma split_at_first_app (p a b x y : string) :
  split_at_first p a = Some (x, y) ->
  split_at_first p (a ++ b) = Some (x, y ++ b).
Proof.
  revert x y. induction a as [| c a IH]; intros x y H.
  - cbn [split_at_first] in H.
    destruct (String.prefix p EmptyString) eqn:E; [| discriminate].
    destruct p; [| discriminate]. inversion H; subst.
    cbn. destruct b; reflexivity.
  - pose proof (split_at_first_length _ _ _ _ H) as Hlen.
    cbn [split_at_first] in H. cbn [append split_at_first].
    change (String c (a ++ b)) with (String c a ++ b).
    rewrite (prefix_long p (String c a) b Hlen).
    destruct (String.prefix p (String c a)) eqn:E.
    + inversion H; subst. rewrite (drop_app _ (String c a) b Hlen). reflexivity.
    + destruct (split_at_first p a) as [[x' y'] |] eqn:S; [| discriminate].
      inversion H; subst. rewrite (IH x' y eq_refl). reflexivity.
Qed.

Lemma prefix_app_cases (p x z : string) :
  String.prefix p (x ++ z) = true ->
  String.prefix p x = true \/ String.prefix x p = true.
Proof.
  revert p. induction x as [| b x IH]; intros p H.
  - right. apply prefix_empty.
  - destruct p as [| a p]; [left; reflexivity |].
    cbn [append String.prefix] in *.
    destruct (ascii_dec a b) as [-> | N]; [| discriminate].
    destruct (ascii_dec b b) as [_ | N]; [| contradiction].
    apply IH. exact H.
Qed.

(** The search for [p] passes over a text that is clear of it. *)
Lemma split_at_first_skip (p x z a b : string) :
  clear_of p x = true ->
  split_at_first p z = Some (a, b) ->
  split_at_first p (x ++ z) = Some (x ++ a, b).
Proof.
  intros Hclear Hz. induction x as [| c x IH].
  - exact Hz.
  - cbn [clear_of] in Hclear.
    apply andb_true_iff in Hclear. destruct Hclear as [Hhere Hrest].
    apply andb_true_iff in Hhere. destruct Hhere as [H1 H2].
    cbn [append split_at_first]. change (String c (x ++ z)) with (String c x ++ z).
    destruct (String.prefix p (String c x ++ z)) eqn:E.
    + apply prefix_app_cases in E. destruct E as [E | E]; rewrite E in *; discriminate.
    + rewrite (IH Hrest). reflexivity.
Qed.

Lemma split_at_first_here (p rest : string) :
  split_at_first p (p ++ rest) = Some (EmptyString, rest).
Proof.
  assert (Hdrop : forall q r, drop (String.length q) (q ++ r) = r).
  { induction q as [| c q IH]; intros r; [reflexivity | exact (IH r)]. }
  destruct (p ++ rest) eqn:E; cbn [split_at_first]; rewrite <- E, prefix_append, Hdrop;
    reflexivity.
Qed.

(** A text without the first character of [p] is clear of [p]. *)
Lemma clear_of_char (c : ascii) (p x : string) :
  has_char c x = false -> clear_of (String c p) x = true.
Proof.
  induction x as [| d x IH]; intros H; [reflexivity |].
  cbn [has_char] in H. apply orb_false_iff in H. destruct H as [Hd Hx].
  cbn [clear_of String.prefix].
  destruct (ascii_dec c d) as [-> | _]; [rewrite Ascii.eqb_refl in Hd; discriminate |].
  destruct (ascii_dec d c) as [-> | _]; [rewrite Ascii.eqb_refl in Hd; discriminate |].
  exact (IH Hx).
Qed.

Lemma has_char_app (c : ascii) (a b : string) :
  has_char c (a ++ b) = has_char c a || has_char c b.
Proof.
  induction a as [| d a IH]; [reflexivity |].
  cbn [append has_char]. rewrite IH, orb_assoc. reflexivity.
Qed.

(** A template without a dollar sign stands for itself; so does a
    dollar-free start of a template. *)
Lemma GetSubstitution_app (matched before after x template : string) :
  has_char "$" x = false ->
  GetSubstitution matched before after (x ++ template)
  = x ++ GetSubstitution matched before after template.
Proof.
  induction x as [| c x IH]; intros H; [reflexivity |].
  cbn [has_char] in H. apply orb_false_iff in H. destruct H as [Hc Hx].
  cbn [append GetSubstitution]. rewrite Hc, (IH Hx). reflexivity.
Qed.

Lemma GetSubstitution_plain (matched before after template : string) :
  has_char "$" template = false ->
  GetSubstitution matched before after template = template.
Proof.
  intros H.
  rewrite <- (append_empty_r template) at 1.
  rewrite (GetSubstitution_app _ _ _ _ _ H). apply append_empty_r.
Qed.

Lemma template_split :
  split_at_first "{code}" CodeReview.CODE_REVIEW_PROMPT_TEMPLATE
  = Some (CodeReview.before_code, CodeReview.after_code)
  /\ split_at_first CodeReview.code_header CodeReview.before_code
     = Some (CodeReview.before_header, CodeReview.header_to_code)
  /\ clear_of CodeReview.code_header CodeReview.before_header = true.
Proof.
  repeat split; vm_compute; reflexivity.
Qed.

(** The search for the code header passes over pieces that are each clear
    of it. *)
Lemma search_header (pieces : list string) (rest : string) :
  Forall (fun x => clear_of CodeReview.code_header x = true) pieces ->
  split_at_first CodeReview.code_header
    (join_all pieces ++ CodeReview.code_header ++ rest)
  = Some (join_all pieces, rest).
Proof.
  induction 1 as [| x pieces Hx _ IH].
  - exact (split_at_first_here _ rest).
  - cbn [join_all fold_right]. rewrite append_assoc.
    exact (split_at_first_skip _ x _ _ rest Hx IH).
Qed.

Lemma replace_header (pieces : list string) (rest replacement : string) :
  Forall (fun x => clear_of CodeReview.code_header x = true) pieces ->
  has_char "$" replacement = false ->
  String_replace (join_all pieces ++ CodeReview.code_header ++ rest)
    CodeReview.code_header replacement
  = join_all pieces ++ replacement ++ rest.
Proof.
  intros Hclear Hplain. unfold String_replace.
  rewrite (search_header pieces rest Hclear),
    (GetSubstitution_plain _ _ _ _ Hplain).
  reflexivity.
Qed.

Lemma insert_language (t rest : string) (language : option string) :
  t = CodeReview.before_header ++ CodeReview.code_header ++ rest ->
  lacks "$" language = true ->
  match language with
  | Some l =>
      if given language
      then String_replace t CodeReview.code_header
             ("**프로그래밍 언어:** " ++ l ++ nl ++ nl ++ "**리뷰할 코드:**")
      else t
  | None => t
  end
  = (CodeReview.before_header ++ language_part language)
    ++ CodeReview.code_header ++ rest.
Proof.
  intros -> Hplain. destruct template_split as [_ [_ Hbefore]].
  unfold language_part.
  destruct language as [l |]; [destruct (given (Some l)) |];
    rewrite ?append_empty_r; try reflexivity.
  cbn [lacks] in Hplain. apply negb_true_iff in Hplain.
  rewrite <- (append_empty_r CodeReview.before_header) at 1.
  change (CodeReview.before_header ++ EmptyString)
    with (join_all [CodeReview.before_header]).
  rewrite replace_header.
  - cbn [join_all fold_right]. rewrite append_empty_r, ?append_assoc. reflexivity.
  - constructor; [exact Hbefore | constructor].
  - rewrite !has_char_app, Hplain. reflexivity.
Qed.

Lemma insert_context (t rest : string) (pieces : list string) (context : option string) :
  t = join_all pieces ++ CodeReview.code_header ++ rest ->
  Forall (fun x => clear_of CodeReview.code_header x = true) pieces ->
  lacks "$" context = true ->
  match context with
  | Some c =>
      if given context
      then String_replace t CodeReview.code_header
             ("**코드 맥락/목적:**" ++ nl ++ c ++ nl ++ nl ++ "**리뷰할 코드:**")
      else t
  | None => t
  end
  = join_all pieces ++ context_part context ++ CodeReview.code_header ++ rest.
Proof.
  intros -> Hclear Hplain. unfold context_part.
  destruct context as [c |]; [destruct (given (Some c)) |]; try reflexivity.
  cbn [lacks] in Hplain. apply negb_true_iff in Hplain.
  rewrite replace_header.
  - rewrite ?append_assoc. reflexivity.
  - exact Hclear.
  - rewrite !has_char_app, Hplain. reflexivity.
Qed.

Lemma language_pieces (language : option string) :
  lacks "*" language = true ->
  exists pieces,
    Forall (fun x => clear_of CodeReview.code_header x = true) pieces
    /\ join_all pieces = CodeReview.before_header ++ language_part language.
Proof.
  intros Hstar. destruct template_split as [_ [_ Hbefore]].
  unfold language_part. destruct language as [l |];
    [destruct (given (Some l)) |].
  - exists [CodeReview.before_header; "**프로그래밍 언어:** "; l; nl ++ nl].
    split.
    + cbn [lacks] in Hstar. apply negb_true_iff in Hstar.
      constructor; [exact Hbefore |].
      constructor; [vm_compute; reflexivity |].
      constructor; [exact (clear_of_char "*" _ l Hstar) |].
      constructor; [vm_compute; reflexivity | constructor].
    + cbn [join_all fold_right]. rewrite append_empty_r, ?append_assoc. reflexivity.
  - exists [CodeReview.before_header]. split; [constructor; [exact Hbefore | constructor] |].
    reflexivity.
  - exists [CodeReview.before_header]. split; [constructor; [exact Hbefore | constructor] |].
    reflexivity.
Qed.

Lemma insert_code (code : string) :
  has_char "$" code = false ->
  String_replace CodeReview.CODE_REVIEW_PROMPT_TEMPLATE "{code}" code
  = CodeReview.before_header ++ CodeReview.code_header
    ++ CodeReview.header_to_code ++ code ++ CodeReview.after_code.
Proof.
  intros Hcode. destruct template_split as [Htemplate [Hheader _]].
  unfold String_replace. rewrite Htemplate, (GetSubstitution_plain _ _ _ _ Hcode).
  rewrite (split_at_first_sound _ _ _ _ Hheader) at 1.
  rewrite ?append_assoc. reflexivity.
Qed.

(** The layout of the code-review prompt.  For a code, a language and a
    context without a dollar sign, and a language without an asterisk, the
    prompt is the template with the code in place of [{code}], preceded, just
    before the code header of the template, by the language line and then the
    context block, each when given.  The code itself may hold the header
    text: the insertions still go to the header of the template. *)
Theorem code_review_layout (code : string) (language context : option string) :
  has_char "$" code = false ->
  lacks "$" language = true ->
  lacks "*" language = true ->
  lacks "$" context = true ->
  CodeReview.prompt_text (CodeReview.code_review code language context)
  = [ CodeReview.before_header ++ language_part language ++ context_part context
      ++ CodeReview.code_header ++ CodeReview.header_to_code ++ code
      ++ CodeReview.after_code ]
  /\ CodeReview.CODE_REVIEW_PROMPT_TEMPLATE
     = CodeReview.before_header ++ CodeReview.code_header
       ++ CodeReview.header_to_code ++ "{code}" ++ CodeReview.after_code.
Proof.
  intros Hcode Hlanguage Hstar Hcontext.
  split.
  - unfold CodeReview.code_review, CodeReview.prompt_text.
    cbn [flat_map CodeReview.prompt_content app]. f_equal.
    destruct (language_pieces language Hstar) as [pieces [Hclear Hpieces]].
    rewrite (insert_context _ (CodeReview.header_to_code ++ code ++ CodeReview.after_code)
               pieces context).
    + rewrite Hpieces, ?append_assoc. reflexivity.
    + rewrite Hpieces. apply insert_language; [| exact Hlanguage].
      apply insert_code. exact Hcode.
    + exact Hclear.
    + exact Hcontext.
  - destruct template_split as [Htemplate [Hheader _]].
    rewrite (split_at_first_sound _ _ _ _ Htemplate) at 1.
    rewrite (split_at_first_sound _ _ _ _ Hheader) at 1.
    rewrite ?append_assoc. reflexivity.
Qed.

(** The code is the replacement text of [replace], so a dollar pattern in
    it is expanded and the code is not inserted as it is: [$$] becomes one
    dollar sign, [$&] the placeholder, and [$`] and [$'] the template
    before and after the placeholder.  For codes [a] and [b] without a
    dollar sign: *)
Theorem code_review_dollar_patterns (a b : string) :
  has_char "$" a = false ->
  has_char "$" b = false ->
  CodeReview.prompt_text (CodeReview.code_review (a ++ "$$" ++ b) None None)
  = [CodeReview.before_code ++ (a ++ "$" ++ b) ++ CodeReview.after_code]
  /\ CodeReview.prompt_text (CodeReview.code_review (a ++ "$&" ++ b) None None)
     = [CodeReview.before_code ++ (a ++ "{code}" ++ b) ++ CodeReview.after_code]
  /\ CodeReview.prompt_text (CodeReview.code_review (a ++ "$`" ++ b) None None)
     = [CodeReview.before_code ++ (a ++ CodeReview.before_code ++ b)
        ++ CodeReview.after_code]
  /\ CodeReview.prompt_text (CodeReview.code_review (a ++ "$'" ++ b) None None)
     = [CodeReview.before_code ++ (a ++ CodeReview.after_code ++ b)
        ++ CodeReview.after_code].
Proof.
  intros Ha Hb. destruct template_split as [Htemplate _].
  repeat split;
    unfold CodeReview.code_review, CodeReview.prompt_text, String_replace;
    cbn [flat_map CodeReview.prompt_content app]; rewrite Htemplate;
    rewrite (GetSubstitution_app _ _ _ a _ Ha);
    cbn [append GetSubstitution Ascii.eqb Bool.eqb];
    rewrite (GetSubstitution_plain _ _ _ b Hb); reflexivity.
Qed.

Lemma code_review_dollar_patterns_witness :
  CodeReview.prompt_text (CodeReview.code_review ("cost=" ++ "$$" ++ "5") None None)
  = [CodeReview.before_code ++ ("cost=" ++ "$" ++ "5") ++ CodeReview.after_code]
  /\ CodeReview.prompt_text (CodeReview.code_review ("s/x/" ++ "$&" ++ "/") None None)
     = [CodeReview.before_code ++ ("s/x/" ++ "{code}" ++ "/") ++ CodeReview.after_code].
Proof.
  split.
  - apply (proj1 (code_review_dollar_patterns "cost=" "5" eq_refl eq_refl)).
  - apply (proj1 (proj2 (code_review_dollar_patterns "s/x/" "/" eq_refl eq_refl))).
Defined.

Lemma code_review_layout_witness :
  CodeReview.prompt_text
    (CodeReview.code_review "let x = 1" (Some "TypeScript") (Some "demo"))
  = [ CodeReview.before_header
      ++ ("**프로그래밍 언어:** " ++ "TypeScript" ++ nl ++ nl)
      ++ ("**코드 맥락/목적:**" ++ nl ++ "demo" ++ nl ++ nl)
      ++ CodeReview.code_header ++ CodeReview.header_to_code ++ "let x = 1"
      ++ CodeReview.after_code ].
Proof.
  apply (proj1 (code_review_layout "let x = 1" (Some "TypeScript") (Some "demo")
                  eq_refl eq_refl eq_refl eq_refl)).
Defined.

(** ** How the two editions report failure *)

Lemma Results_ret (P : InvocationResult -> Prop) (r : InvocationResult) :
  P r -> Results P (ret r).
Proof.
  intros H log. exact H.
Qed.

Lemma Results_throw (P : InvocationResult -> Prop) (e : thrown) : Results P (throw e).
Proof.
  intros log. exact I.
Qed.

Lemma Results_bind {A : Type} (P : InvocationResult -> Prop) (m : Eff A)
    (k : A -> Eff InvocationResult) :
  (forall a, Results P (k a)) -> Results P (bind m k).
Proof.
  intros Hk log. unfold bind.
  destruct (m log) as [[a | e] log']; [apply Hk | exact I].
Qed.

Lemma Results_try_catch (P : InvocationResult -> Prop) (body : Eff InvocationResult)
    (recover : thrown -> Eff InvocationResult) :
  Results P body -> (forall e, Results P (recover e)) -> Results P (try_catch body recover).
Proof.
  intros Hbody Hrecover log. unfold try_catch.
  pose proof (Hbody log) as H.
  destruct (body log) as [[r | e] log']; [exact H | apply Hrecover].
Qed.

Lemma Total_ret (r : InvocationResult) : Total (ret r).
Proof.
  intros log. exists r. reflexivity.
Qed.

(** A [try] whose [catch] returns never throws. *)
Lemma Total_try_catch (body : Eff InvocationResult)
    (recover : thrown -> Eff InvocationResult) :
  (forall e, Total (recover e)) -> Total (try_catch body recover).
Proof.
  intros Hrecover log. unfold try_catch.
  destruct (body log) as [[r | e] log']; [exists r; reflexivity | apply Hrecover].
Qed.

(** Follows the shape of a handler down to its [return]s and [throw]s. *)
Ltac results :=
  repeat first
    [ apply Results_try_catch; [| intros ?]
    | apply Results_bind; intros ?
    | apply Results_throw
    | apply Results_ret; first [reflexivity | split; reflexivity]
    | match goal with
      | |- Results _ (if ?b then _ else _) => destruct b
      | |- Results _ (match (if ?b then _ else _) with _ => _ end) => destruct b
      | |- Results _ (match ?x with _ => _ end) => destruct x
      end ].

Ltac total :=
  repeat first
    [ apply Total_try_catch; intros ?
    | apply Total_ret
    | match goal with
      | |- Total (if ?b then _ else _) => destruct b
      | |- Total (match (if ?b then _ else _) with _ => _ end) => destruct b
      | |- Total (match ?x with _ => _ end) => destruct x
      end ].

Ltac open_args :=
  repeat match goal with
         | a : Args _ |- _ => cbn in a
         | a : (_ * _)%type |- _ => destruct a
         end;
  cbn [handler Index.greet_tool Index.calculator_tool Index.getTime_tool
         Index.geocode_tool Index.get_weather_tool Index.generate_image_tool
         Registered.greet_tool Registered.calculator_tool
         Registered.getTime_tool Registered.geocode_tool
         Registered.get_weather_tool Registered.generate_image_tool].

(** The handlers of [index.ts] never throw: whatever the arguments, the
    host, the world and the log, each returns a result (a failure is a
    result with the error flag), and none of their results carries a
    structured mirror. *)
Theorem index_handlers_never_throw :
  Forall (fun t => forall h w (args : Args t),
              Total (handler t h w args)
              /\ Results (fun r => structuredContent r = None) (handler t h w args))
    Index.createServer.
Proof.
  unfold Index.createServer.
  repeat apply Forall_cons; try apply Forall_nil; intros h w args; open_args.
  - unfold Index.greet. split; [total | results].
  - unfold Index.calculator, Index.calculator_switch. split; [total | results].
  - unfold Index.getTime. split; [total | results].
  - unfold Index.geocode. split; [total | results].
  - unfold Index.get_weather. split; [total | results].
  - unfold Index.generate_image. split; [total | results].
Qed.

(** The handlers of [part_000] never return a result with the error flag:
    a failure is always a throw.  What the five text tools return is
    mirrored block for block in [structuredContent]; [generate-image]
    returns no mirror. *)
Theorem registered_handlers_never_flag (config : option Registered.Config)
    (env_HF_TOKEN : option string) :
  Forall (fun t => forall h w (args : Args t),
              Results (fun r => isError r = false
                                /\ structuredContent r = Some (content r))
                (handler t h w args))
    (removelast (Registered.createServer config env_HF_TOKEN))
  /\ (forall h w client prompt,
         Results (fun r => isError r = false /\ structuredContent r = None)
           (Registered.generate_image h w client prompt)).
Proof.
  split.
  - cbn [Registered.createServer removelast].
    repeat apply Forall_cons; try apply Forall_nil; intros h w args; open_args.
    + unfold Registered.greet. results.
    + unfold Registered.calculator. results.
    + unfold Registered.getTime. results.
    + unfold Registered.geocode. results.
    + unfold Registered.get_weather. results.
  - intros h w client prompt. unfold Registered.generate_image. results.
Qed.

(** ** The outbound calls of the handlers *)

Lemma Calls_ret {A : Type} (a : A) : Calls [] (ret a).
Proof.
  intros log. cbn. symmetry. apply app_nil_r.
Qed.

Lemma Calls_throw {A : Type} (e : thrown) : Calls [] (@throw A e).
Proof.
  intros log. cbn. symmetry. apply app_nil_r.
Qed.

Lemma Calls_lift {A : Type} (c : Completion A) : Calls [] (lift c).
Proof.
  intros log. cbn. symmetry. apply app_nil_r.
Qed.

Lemma Calls_fetch (w : World) (req : Request) : Calls [Fetched req] (do_fetch w req).
Proof.
  intros log. reflexivity.
Qed.

Lemma Calls_textToImage (w : World) (req : ImageRequest) :
  Calls [Inferred req] (do_textToImage w req).
Proof.
  intros log. reflexivity.
Qed.

(** A step, then a rest that calls nothing. *)
Lemma Calls_bind {A B : Type} (events : list Event) (m : Eff A) (k : A -> Eff B) :
  Calls events m -> (forall a, Calls [] (k a)) -> Calls events (bind m k).
Proof.
  intros Hm Hk log. unfold bind. pose proof (Hm log) as H.
  destruct (m log) as [[a | e] log']; cbn in H; subst log'.
  - rewrite (Hk a). apply app_nil_r.
  - reflexivity.
Qed.

(** A [try] whose [catch] calls nothing. *)
Lemma Calls_try_catch {A : Type} (events : list Event) (body : Eff A)
    (recover : thrown -> Eff A) :
  Calls events body -> (forall e, Calls [] (recover e)) ->
  Calls events (try_catch body recover).
Proof.
  intros Hbody Hrecover log. unfold try_catch. pose proof (Hbody log) as H.
  destruct (body log) as [[a | e] log']; cbn in H; subst log'.
  - reflexivity.
  - rewrite (Hrecover e). apply app_nil_r.
Qed.

Ltac calls :=
  repeat first
    [ apply Calls_try_catch; [| intros ?]
    | apply Calls_bind; [| intros ?]
    | apply Calls_fetch
    | apply Calls_textToImage
    | apply Calls_ret
    | apply Calls_throw
    | apply Calls_lift
    | match goal with
      | |- Calls _ (if ?b then _ else _) => destruct b
      | |- Calls _ (match (if ?b then _ else _) with _ => _ end) => destruct b
      | |- Calls _ (match ?x with _ => _ end) => destruct x
      | |- Calls _ (let _ := _ in _) => cbv zeta
      end ].

(** Whatever the arguments, the answers of the outside and the outcome:
    [greet], [calculator] and [getTime] make no outbound call; [geocode]
    and [get-weather] make exactly one request, the one built from the
    arguments; [generate-image] of [index.ts] makes one inference call
    with the token of the environment when there is one and none
    otherwise; [generate-image] of [part_000] makes exactly one.  No
    handler retries, and none calls out after a failure. *)
Theorem outbound_calls (h : Host) (w : World) :
  (forall name language,
      Calls [] (Index.greet name language)
      /\ Calls [] (Registered.greet name language))
  /\ (forall num1 num2 operator,
         Calls [] (Index.calculator h num1 num2 operator)
         /\ Calls [] (Registered.calculator h num1 num2 operator))
  /\ (forall timezone,
         Calls [] (Index.getTime w timezone)
         /\ Calls [] (Registered.getTime w timezone))
  /\ (forall address limit country,
         Calls [Fetched (Index.geocode_request h address (or_default limit 1%Z) country)]
           (Index.geocode h w address limit country)
         /\ Calls [Fetched (Registered.geocode_request h address
                              (or_default limit 1%Z) country)]
              (Registered.geocode h w address limit country))
  /\ (forall latitude longitude forecast_days timezone,
         Calls [Fetched (Index.weather_request h latitude longitude
                           (or_default forecast_days 7%Z))]
           (Index.get_weather h w latitude longitude forecast_days)
         /\ Calls [Fetched (Registered.weather_request h latitude longitude
                              (or_default forecast_days 7%Z) timezone)]
              (Registered.get_weather h w latitude longitude forecast_days timezone))
  /\ (forall client prompt,
         Calls (if given (HF_TOKEN w)
                then [Inferred (index_inference_call (HF_TOKEN w) prompt)]
                else [])
           (Index.generate_image h w prompt)
         /\ Calls [Inferred (inference_call client prompt)]
              (Registered.generate_image h w client prompt)).
Proof.
  repeat match goal with
         | |- _ /\ _ => split
         | |- forall _, _ => intro
         end.
  - unfold Index.greet. calls.
  - unfold Registered.greet. calls.
  - unfold Index.calculator. calls.
  - unfold Registered.calculator. calls.
  - unfold Index.getTime. calls.
  - unfold Registered.getTime. calls.
  - unfold Index.geocode. calls.
  - unfold Registered.geocode. calls.
  - unfold Index.get_weather. calls.
  - unfold Registered.get_weather. calls.
  - unfold Index.generate_image, index_inference_call.
    destruct (given (HF_TOKEN w)); cbn [negb]; calls.
  - unfold Registered.generate_image, inference_call. calls.
Qed.

(** ** Failures of the transport *)

(** When the request is rejected, or the body of a success answer cannot
    be parsed, [geocode] and [get-weather] report it under the prefix of
    the tool, with the message of the error, or with the fallback text when
    what was thrown is not an [Error]: as an error-flagged result in
    [index.ts], as a throw in [part_000]. *)
Theorem transport_failure_reported (h : Host) (w : World) (e : thrown) :
  transport_fails w e ->
  (forall address limit country,
      fst (run (Index.geocode h w address limit country))
      = Normal (error_result ("Geocoding 오류: " ++ message_or e "알 수 없는 오류"))
      /\ fst (run (Registered.geocode h w address limit country))
         = Abrupt (ErrorObject ("Geocoding 오류: "
                                ++ message_or e "알 수 없는 오류가 발생했습니다.")))
  /\ (forall latitude longitude forecast_days timezone,
         fst (run (Index.get_weather h w latitude longitude forecast_days))
         = Normal (error_result ("날씨 조회 오류: " ++ message_or e "알 수 없는 오류"))
         /\ fst (run (Registered.get_weather h w latitude longitude forecast_days
                        timezone))
            = Abrupt (ErrorObject ("날씨 정보 조회 오류: "
                                   ++ message_or e "알 수 없는 오류가 발생했습니다."))).
Proof.
  intros Hfails. split.
  - intros address limit country. split.
    + unfold run, Index.geocode, try_catch, bind, do_fetch, lift, ret.
      destruct (Hfails (Index.geocode_request h address (or_default limit 1%Z) country))
        as [H | [response [H [Hok Hjson]]]]; rewrite H; [reflexivity |].
      rewrite Hok, Hjson. reflexivity.
    + unfold run, Registered.geocode, try_catch, bind, do_fetch, lift, ret, throw.
      destruct (Hfails (Registered.geocode_request h address (or_default limit 1%Z)
                          country))
        as [H | [response [H [Hok Hjson]]]]; rewrite H; [reflexivity |].
      rewrite Hok, Hjson. reflexivity.
  - intros latitude longitude forecast_days timezone. split.
    + unfold run, Index.get_weather, try_catch, bind, do_fetch, lift, ret.
      destruct (Hfails (Index.weather_request h latitude longitude
                          (or_default forecast_days 7%Z)))
        as [H | [response [H [Hok Hjson]]]]; rewrite H; [reflexivity |].
      rewrite Hok, Hjson. reflexivity.
    + unfold run, Registered.get_weather, try_catch, bind, do_fetch, lift, ret, throw.
      destruct (Hfails (Registered.weather_request h latitude longitude
                          (or_default forecast_days 7%Z) timezone))
        as [H | [response [H [Hok Hjson]]]]; rewrite H; [reflexivity |].
      rewrite Hok, Hjson. reflexivity.
Qed.

Lemma transport_failure_reported_witness :
  fst (run (Index.geocode ascii_host (rejecting (VStr "timeout")) "Seoul" None None))
  = Normal (error_result "Geocoding 오류: 알 수 없는 오류")
  /\ fst (run (Registered.get_weather ascii_host (rejecting (VStr "timeout"))
                 37 127 None None))
     = Abrupt (ErrorObject "날씨 정보 조회 오류: 알 수 없는 오류가 발생했습니다.").
Proof.
  assert (Hfails : transport_fails (rejecting (VStr "timeout")) (NonError (VStr "timeout")))
    by (intros req; left; reflexivity).
  pose proof (transport_failure_reported ascii_host _ _ Hfails) as [Hgeocode Hweather].
  split.
  - exact (proj1 (Hgeocode "Seoul" None None)).
  - exact (proj2 (Hweather 37%float 127%float None None)).
Defined.

(** With a token in the environment, [generate-image] of [index.ts] makes
    exactly one inference call, with that token: it returns the image in
    base64 when the call succeeds, and an error-flagged result with the
    message of the failure (or the fallback text) when it fails. *)
Theorem generate_image_index_with_credential (h : Host) (w : World) (prompt : string) :
  given (HF_TOKEN w) = true ->
  run (Index.generate_image h w prompt)
  = (match textToImage w (index_inference_call (HF_TOKEN w) prompt) with
     | Normal bytes => Normal (image_result (base64 bytes))
     | Abrupt e =>
         Normal (error_result ("이미지 생성 오류: " ++ message_or e "알 수 없는 오류"))
     end,
     [Inferred (index_inference_call (HF_TOKEN w) prompt)]).
Proof.
  intros Hgiven.
  unfold run, Index.generate_image, try_catch, bind, do_textToImage, ret.
  rewrite Hgiven. cbn [negb]. fold (index_inference_call (HF_TOKEN w) prompt).
  destruct (textToImage w (index_inference_call (HF_TOKEN w) prompt)); reflexivity.
Qed.

Lemma generate_image_index_with_credential_witness :
  run (Index.generate_image ascii_host (rejecting VNull) "a cat")
  = (Normal (error_result "이미지 생성 오류: 알 수 없는 오류"),
     [Inferred (index_inference_call (Some "hf_token") "a cat")]).
Proof.
  apply (generate_image_index_with_credential ascii_host (rejecting VNull) "a cat").
  reflexivity.
Defined.

(** ** The weather report for any body *)

Lemma get_not_nullish (h : Host) (v : value) (p : string) :
  nullish v = false -> get h v p = Normal (get_opt h v p).
Proof.
  intros Hv. unfold get_opt. destruct v; try discriminate; reflexivity.
Qed.

Lemma get_nullish (h : Host) (v : value) (p : string) :
  nullish v = true -> get h v p = Abrupt (ErrorObject (cannot_read h v p)).
Proof.
  intros Hv. destruct v; try discriminate; reflexivity.
Qed.

Lemma truthy_not_nullish (v : value) : truthy v = true -> nullish v = false.
Proof.
  destruct v; try discriminate; reflexivity.
Qed.

(** The daily block of [index.ts] never throws on a body that is not
    [null]: whatever [daily] holds, it appends a section (possibly empty). *)
Lemma daily_block_index_returns (h : Host) (forecast_days : Z) (data : value)
    (resultText : string) :
  nullish data = false ->
  exists daily,
    Index.daily_block h forecast_days data resultText = Normal (resultText ++ daily).
Proof.
  intros Hdata. unfold Index.daily_block, and_next.
  rewrite (get_not_nullish h data "daily" Hdata).
  destruct (truthy (get_opt h data "daily")) eqn:Hdaily;
    [| exists EmptyString; rewrite append_empty_r; reflexivity].
  rewrite (get_truthy h _ "time" Hdaily).
  destruct (truthy (get_opt h (get_opt h data "daily") "time")) eqn:Htime;
    [| exists EmptyString; rewrite append_empty_r; reflexivity].
  destruct (length_of_truthy h _ Htime) as [len Hlen]. rewrite Hlen.
  erewrite for_loop_appends.
  - rewrite !append_assoc. eexists. reflexivity.
  - intros i text. unfold Index.daily_round, and_next.
    rewrite !(get_truthy h _ _ Hdaily), (index_truthy h _ i Htime). reflexivity.
Qed.

Lemma daily_block_registered_returns (h : Host) (forecast_days : Z) (data : value)
    (resultText : string) :
  nullish data = false ->
  exists daily,
    Registered.daily_block h forecast_days data resultText = Normal (resultText ++ daily).
Proof.
  intros Hdata. unfold Registered.daily_block, and_next.
  rewrite (get_not_nullish h data "daily" Hdata).
  destruct (truthy (get_opt h data "daily")) eqn:Hdaily;
    [| exists EmptyString; rewrite append_empty_r; reflexivity].
  rewrite (get_truthy h _ "time" Hdaily).
  destruct (truthy (get_opt h (get_opt h data "daily") "time")) eqn:Htime;
    [| exists EmptyString; rewrite append_empty_r; reflexivity].
  destruct (length_of_truthy h _ Htime) as [len Hlen]. rewrite Hlen.
  erewrite for_loop_appends.
  - rewrite !append_assoc. eexists. reflexivity.
  - intros i text. unfold Registered.daily_round, and_next.
    rewrite !(get_truthy h _ _ Hdaily), (index_truthy h _ i Htime). reflexivity.
Qed.

(** The header of [part_000] starts with the location line. *)
Lemma header_block_starts (h : Host) (latitude longitude : float) (data : value) :
  nullish data = false ->
  exists header,
    Registered.header_block h latitude longitude data
    = Normal (location_line h latitude longitude ++ header).
Proof.
  intros Hdata. unfold Registered.header_block, and_next.
  rewrite !(get_not_nullish h data _ Hdata).
  fold (location_line h latitude longitude).
  generalize (location_line h latitude longitude). intros line.
  destruct (truthy (get_opt h data "timezone")), (defined (get_opt h data "elevation"));
    rewrite ?append_assoc; eexists; reflexivity.
Qed.

(** [get-weather] of [index.ts] on a success answer whose body is not
    [null]. *)
Lemma get_weather_index_any_body (h : Host) (w : World) (data : value)
    (latitude longitude : float) (forecast_days : option Z) :
  answers w data ->
  nullish data = false ->
  exists report,
    run (Index.get_weather h w latitude longitude forecast_days)
    = (Normal (text_result (location_line h latitude longitude ++ nl ++ report)),
       [Fetched (Index.weather_request h latitude longitude
                   (or_default forecast_days 7%Z))]).
Proof.
  intros Hanswers Hdata.
  destruct (Hanswers (Index.weather_request h latitude longitude
                        (or_default forecast_days 7%Z)))
    as [response [Hfetch [Hok Hjson]]].
  pose proof (get_not_nullish h data "daily" Hdata) as Hget.
  destruct (current_block_index_appends h data _ "daily"
              ("📍 위치: 위도 " ++ Number_toString h latitude ++ ", 경도 "
               ++ Number_toString h longitude ++ nl ++ nl) Hget) as [current Hcurrent].
  destruct (daily_block_index_returns h (or_default forecast_days 7%Z) data
              (("📍 위치: 위도 " ++ Number_toString h latitude ++ ", 경도 "
                ++ Number_toString h longitude ++ nl ++ nl) ++ current) Hdata)
    as [daily Hdaily].
  exists (current ++ daily).
  unfold run, Index.get_weather, try_catch, bind, do_fetch, lift, ret.
  rewrite Hfetch, Hok, Hjson. simpl negb. cbv iota.
  rewrite Hcurrent, Hdaily.
  unfold location_line. rewrite !append_assoc. reflexivity.
Qed.

(** Whatever shape the body of a success answer has, as long as it is not
    [null] and its values can be converted to strings, [get-weather] does
    not fail: it returns a report without the error flag that starts with
    the location line ([part_000]: unless the body has a truthy [error]).
    On the body [null] the handler fails on the first property it reads. *)
Theorem get_weather_any_body (h : Host) (w : World) (data : value)
    (latitude longitude : float) (forecast_days : option Z) (timezone : option string) :
  answers w data ->
  printable data = true ->
  (nullish data = false ->
   (exists report,
       run (Index.get_weather h w latitude longitude forecast_days)
       = (Normal (text_result (location_line h latitude longitude ++ nl ++ report)),
          [Fetched (Index.weather_request h latitude longitude
                      (or_default forecast_days 7%Z))]))
   /\ (truthy (get_opt h data "error") = false ->
       exists report,
         run (Registered.get_weather h w latitude longitude forecast_days timezone)
         = (Normal (mirrored_result (location_line h latitude longitude ++ report)),
            [Fetched (Registered.weather_request h latitude longitude
                        (or_default forecast_days 7%Z) timezone)])))
  /\ (nullish data = true ->
      fst (run (Index.get_weather h w latitude longitude forecast_days))
      = Normal (error_result ("날씨 조회 오류: " ++ cannot_read h data "current_weather"))
      /\ fst (run (Registered.get_weather h w latitude longitude forecast_days timezone))
         = Abrupt (ErrorObject ("날씨 정보 조회 오류: " ++ cannot_read h data "error"))).
Proof.
  intros Hanswers _. split.
  - intros Hdata. split; [apply (get_weather_index_any_body h w data); assumption |].
    intros Herror.
    destruct (Hanswers (Registered.weather_request h latitude longitude
                          (or_default forecast_days 7%Z) timezone))
      as [response [Hfetch [Hok Hjson]]].
    pose proof (get_not_nullish h data "error" Hdata) as Hget.
    destruct (header_block_starts h latitude longitude data Hdata) as [header Hheader].
    destruct (current_block_registered_appends h data _ "error"
                (location_line h latitude longitude ++ header) Hget)
      as [current Hcurrent].
    destruct (daily_block_registered_returns h (or_default forecast_days 7%Z) data
                ((location_line h latitude longitude ++ header) ++ current) Hdata)
      as [daily Hdaily].
    destruct (hourly_block_appends h data _ "error"
                (((location_line h latitude longitude ++ header) ++ current) ++ daily)
                Hget) as [hourly Hhourly].
    exists (header ++ current ++ daily ++ hourly).
    unfold run, Registered.get_weather, try_catch, bind, do_fetch, lift, ret.
    rewrite Hfetch, Hok, Hjson. simpl negb. cbv iota.
    rewrite Hget, Herror, Hheader, Hcurrent, Hdaily, Hhourly.
    rewrite !append_assoc. reflexivity.
  - intros Hdata. split.
    + destruct (Hanswers (Index.weather_request h latitude longitude
                            (or_default forecast_days 7%Z)))
        as [response [Hfetch [Hok Hjson]]].
      unfold run, Index.get_weather, try_catch, bind, do_fetch, lift, ret.
      rewrite Hfetch, Hok, Hjson. simpl negb. cbv iota.
      unfold Index.current_block, and_next.
      rewrite (get_nullish h data _ Hdata). reflexivity.
    + destruct (Hanswers (Registered.weather_request h latitude longitude
                            (or_default forecast_days 7%Z) timezone))
        as [response [Hfetch [Hok Hjson]]].
      unfold run, Registered.get_weather, try_catch, bind, do_fetch, lift, ret, throw.
      rewrite Hfetch, Hok, Hjson. simpl negb. cbv iota.
      rewrite (get_nullish h data _ Hdata). reflexivity.
Qed.

(** When the body of a success answer has a truthy [error] (and its values
    can be converted to strings), [get-weather] of [part_000] throws the
    reason that the body gives (or the fallback text), under the prefix of
    the tool, while [index.ts] does not look at [error] and returns a
    report without the error flag. *)
Theorem weather_api_error (h : Host) (w : World) (data : value)
    (latitude longitude : float) (forecast_days : option Z) (timezone : option string) :
  answers w data ->
  printable data = true ->
  truthy (get_opt h data "error") = true ->
  run (Registered.get_weather h w latitude longitude forecast_days timezone)
  = (Abrupt (ErrorObject
               ("날씨 정보 조회 오류: " ++ "API 오류: "
                ++ ToString h (or_else (get_opt h data "reason")
                                 (VStr "알 수 없는 오류")))),
     [Fetched (Registered.weather_request h latitude longitude
                 (or_default forecast_days 7%Z) timezone)])
  /\ exists report,
       fst (run (Index.get_weather h w latitude longitude forecast_days))
       = Normal (text_result (location_line h latitude longitude ++ nl ++ report)).
Proof.
  intros Hanswers _ Herror.
  assert (Hdata : nullish data = false).
  { destruct data; try reflexivity; discriminate. }
  split.
  - destruct (Hanswers (Registered.weather_request h latitude longitude
                          (or_default forecast_days 7%Z) timezone))
      as [response [Hfetch [Hok Hjson]]].
    unfold run, Registered.get_weather, try_catch, bind, do_fetch, lift, ret, throw.
    rewrite Hfetch, Hok, Hjson. simpl negb. cbv iota.
    rewrite !(get_not_nullish h data _ Hdata), Herror. reflexivity.
  - destruct (get_weather_index_any_body h w data latitude longitude forecast_days
                Hanswers Hdata) as [report Hreport].
    exists report. rewrite Hreport. reflexivity.
Qed.

Lemma get_weather_any_body_witness :
  exists report,
    run (Index.get_weather ascii_host (upstream (Normal (VStr "maintenance")) (Normal []))
           37 127 None)
    = (Normal (text_result (location_line ascii_host 37 127 ++ nl ++ report)),
       [Fetched (Index.weather_request ascii_host 37 127 7%Z)]).
Proof.
  assert (Hanswers : answers (upstream (Normal (VStr "maintenance")) (Normal []))
                       (VStr "maintenance"))
    by (intros req; eexists; repeat split).
  apply (proj1 (proj1 (get_weather_any_body ascii_host
                         (upstream (Normal (VStr "maintenance")) (Normal []))
                         (VStr "maintenance") 37 127 None None Hanswers eq_refl)
                  eq_refl)).
Defined.

Lemma weather_api_error_witness :
  run (Registered.get_weather ascii_host (upstream (Normal api_error_body) (Normal []))
         37 127 None None)
  = (Abrupt (ErrorObject "날씨 정보 조회 오류: API 오류: Invalid coordinates"),
     [Fetched (Registered.weather_request ascii_host 37 127 7%Z None)]).
Proof.
  assert (Hanswers : answers (upstream (Normal api_error_body) (Normal []))
                       api_error_body)
    by (intros req; eexists; repeat split).
  apply (proj1 (weather_api_error ascii_host
                  (upstream (Normal api_error_body) (Normal [])) api_error_body
                  37 127 None None Hanswers eq_refl eq_refl)).
Defined.

(** ** A match that is [null] *)

(** The first throw of the callback ends [map]. *)
Lemma map_indexed_fails {A : Type} (f : value -> nat -> Completion A)
    (pre : list value) (bad : value) (post : list value) (e : thrown) :
  forall (index : nat) (blocks : list A),
    map_indexed f pre index = Normal blocks ->
    f bad (index + length pre)%nat = Abrupt e ->
    map_indexed f (pre ++ bad :: post)%list index = Abrupt e.
Proof.
  induction pre as [| first pre IH]; intros index blocks Hpre Hbad.
  - cbn in *. rewrite Nat.add_0_r in Hbad. rewrite Hbad. reflexivity.
  - cbn in *. destruct (f first index) as [block | e']; [| discriminate].
    destruct (map_indexed f pre (S index)) as [rest | e'] eqn:Hrest; [| discriminate].
    rewrite (IH (S index) rest Hrest); [reflexivity |].
    rewrite <- Hbad. f_equal. lia.
Qed.

(** The callback of [index.ts] formats whatever is not [null]. *)
Lemma map_indexed_index_returns (h : Host) (items : list value) :
  Forall (fun v => nullish v = false) items ->
  forall index, exists blocks,
    map_indexed (Index.geocode_block h) items index = Normal blocks.
Proof.
  induction 1 as [| v items Hv _ IH]; intros index.
  - exists []. reflexivity.
  - destruct (IH (S index)) as [rest Hrest].
    cbn [map_indexed]. unfold Index.geocode_block at 1. unfold and_next.
    rewrite !(get_not_nullish h v _ Hv). rewrite Hrest. eexists. reflexivity.
Qed.

(** When one of the matches is [null] (or [undefined]), the whole call
    fails with the [TypeError] of the first property read on it, under the
    prefix of the tool: no block of the matches before it is returned.
    This is for matches before it that the callback formats: in [index.ts]
    whatever is not [null], in [part_000] the well-formed ones (and in both
    with values that can be converted to strings). *)
Theorem geocode_null_match (h : Host) (w : World) (address : string)
    (limit : option Z) (country : option string)
    (pre : list value) (bad : value) (post : list value) :
  answers w (VArr (pre ++ bad :: post)%list) ->
  nullish bad = true ->
  forallb printable pre = true ->
  (Forall (fun v => nullish v = false) pre ->
   fst (run (Index.geocode h w address limit country))
   = Normal (error_result ("Geocoding 오류: " ++ cannot_read h bad "display_name")))
  /\ ((exists blocks,
          map_indexed (Registered.geocode_block h address) pre 0 = Normal blocks) ->
      fst (run (Registered.geocode h w address limit country))
      = Abrupt (ErrorObject ("Geocoding 오류: " ++ cannot_read h bad "lat"))).
Proof.
  intros Hanswers Hbad _.
  assert (Hitems : exists first rest, (pre ++ bad :: post)%list = first :: rest)
    by (destruct pre; cbn; eauto).
  destruct Hitems as [first [rest Hitems]].
  split.
  - intros Hpre.
    destruct (Hanswers (Index.geocode_request h address (or_default limit 1%Z) country))
      as [response [Hfetch [Hok Hjson]]].
    destruct (map_indexed_index_returns h pre Hpre 0) as [blocks Hblocks].
    unfold run, Index.geocode, try_catch, bind, do_fetch, lift, ret.
    rewrite Hfetch, Hok, Hjson. simpl negb. cbv iota. rewrite Hitems. cbv iota.
    rewrite <- Hitems.
    rewrite (map_indexed_fails _ pre bad post
               (ErrorObject (cannot_read h bad "display_name")) 0 blocks Hblocks).
    + reflexivity.
    + unfold Index.geocode_block, and_next. rewrite (get_nullish h bad _ Hbad).
      reflexivity.
  - intros [blocks Hblocks].
    destruct (Hanswers (Registered.geocode_request h address (or_default limit 1%Z)
                          country))
      as [response [Hfetch [Hok Hjson]]].
    unfold run, Registered.geocode, try_catch, bind, do_fetch, lift, ret, throw.
    rewrite Hfetch, Hok, Hjson. simpl negb. cbv iota. rewrite Hitems. cbv iota.
    rewrite <- Hitems.
    rewrite (map_indexed_fails _ pre bad post
               (ErrorObject (cannot_read h bad "lat")) 0 blocks Hblocks).
    + reflexivity.
    + unfold Registered.geocode_block, and_next. rewrite (get_nullish h bad _ Hbad).
      reflexivity.
Qed.

Lemma geocode_null_match_witness :
  fst (run (Index.geocode ascii_host (upstream (Normal (VArr broken_matches)) (Normal []))
              "Seoul" (Some 3%Z) None))
  = Normal (error_result ("Geocoding 오류: " ++ cannot_read ascii_host VNull "display_name")).
Proof.
  assert (Hanswers : answers (upstream (Normal (VArr broken_matches)) (Normal []))
                       (VArr ([seoul] ++ VNull :: [seoul])%list))
    by (intros req; eexists; repeat split).
  apply (proj1 (geocode_null_match ascii_host _ "Seoul" (Some 3%Z) None
                  [seoul] VNull [seoul] Hanswers eq_refl eq_refl)).
  repeat constructor.
Defined.

(** ** The tools behind their input schemas *)

(** What the schema of [calculator] lets through. *)
Lemma calculator_schema_accepts (raw : value) (num1 num2 : float) (operator : string) :
  Schemas.calculator raw = Zod.Valid (num1, num2, operator) ->
  holds_number raw "num1" num1 /\ holds_number raw "num2" num2
  /\ holds_text raw "operator" operator
  /\ is_NaN num1 = false /\ is_NaN num2 = false /\ In operator ["+"; "-"; "*"; "/"].
Proof.
  unfold Schemas.calculator, Zod.and_then, Zod.field, holds_number, holds_text.
  destruct raw as [| | | | | | fields]; try discriminate.
  unfold Zod.number, Zod.enum.
  destruct (own_property fields "num1") as [| | | n1 | | |] eqn:H1; try discriminate.
  destruct (is_NaN n1) eqn:Hn1; try discriminate.
  destruct (own_property fields "num2") as [| | | n2 | | |] eqn:H2; try discriminate.
  destruct (is_NaN n2) eqn:Hn2; try discriminate.
  destruct (own_property fields "operator") as [| | | | op | |] eqn:H3; try discriminate.
  destruct (existsb (String.eqb op) ["+"; "-"; "*"; "/"]) eqn:Hop; try discriminate.
  intros H. injection H as <- <- <-.
  repeat split; try assumption; try (exists fields; split; [reflexivity | assumption]).
  apply existsb_exists in Hop. destruct Hop as [s [Hin Heq]].
  apply String.eqb_eq in Heq. subst s. exact Hin.
Qed.

(** Invoked through its registration, [calculator] has one failure only:
    the input schema lets through no operator other than [+ - * /] and no
    [NaN], so the outcome is the text of the operation on the operands of
    the bag, or the report of a division by zero; the branch for an
    unsupported operator is never reached. *)
Theorem calculator_through_registry (h : Host) (w : World) (raw : value)
    (outcome : Completion InvocationResult * list Event) :
  (call Index.calculator_tool h w raw = Zod.Valid outcome ->
   exists num1 num2 operator result,
     calculated raw num1 num2 operator result
     /\ outcome
        = (if String.eqb operator "/" && PrimFloat.eqb num2 0
           then Normal (error_result "오류: 0으로 나눌 수 없습니다.")
           else Normal (text_result (calculation_text h num1 operator num2 result)),
           []))
  /\ (call Registered.calculator_tool h w raw = Zod.Valid outcome ->
      exists num1 num2 operator result,
        calculated raw num1 num2 operator result
        /\ outcome
           = (if String.eqb operator "/" && PrimFloat.eqb num2 0
              then Abrupt (ErrorObject "0으로 나눌 수 없습니다.")
              else Normal (mirrored_result
                             (calculation_text h num1 operator num2 result)),
              [])).
Proof.
  split; unfold call; cbn [inputSchema handler Index.calculator_tool
                             Registered.calculator_tool];
    destruct (Schemas.calculator raw) as [[[num1 num2] operator] | f] eqn:Hschema;
    try discriminate;
    intros H; injection H as <-;
    destruct (calculator_schema_accepts raw num1 num2 operator Hschema)
      as [H1 [H2 [H3 [Hn1 [Hn2 Hop]]]]];
    exists num1, num2, operator; unfold calculated;
    destruct (operator_cases operator Hop) as [E | [E | [E | E]]]; subst operator.
  1-3, 5-7: eexists; split; [repeat (split; [eassumption |]); reflexivity | reflexivity].
  - exists (num1 / num2)%float. split; [repeat (split; [assumption |]); reflexivity |].
    unfold run, Index.calculator, Index.calculator_switch, ret.
    cbn [String.eqb Ascii.eqb Bool.eqb andb].
    destruct (PrimFloat.eqb num2 0); reflexivity.
  - exists (num1 / num2)%float. split; [repeat (split; [assumption |]); reflexivity |].
    unfold run, Registered.calculator, Registered.calculator_switch, bind, lift, ret.
    cbn [String.eqb Ascii.eqb Bool.eqb andb].
    destruct (PrimFloat.eqb num2 0); reflexivity.
Qed.

Lemma calculator_through_registry_witness :
  exists num1 num2 operator result,
    calculated (VObj [("num1", VNum 6); ("num2", VNum 3); ("operator", VStr "*")])
      num1 num2 operator result
    /\ run (Index.calculator ascii_host 6 3 "*")
       = (if String.eqb operator "/" && PrimFloat.eqb num2 0
          then Normal (error_result "오류: 0으로 나눌 수 없습니다.")
          else Normal (text_result
                         (calculation_text ascii_host num1 operator num2 result)),
          []).
Proof.
  apply (proj1 (calculator_through_registry ascii_host (upstream (Normal VNull) (Normal []))
                  (VObj [("num1", VNum 6); ("num2", VNum 3); ("operator", VStr "*")])
                  (run (Index.calculator ascii_host 6 3 "*")))).
  reflexivity.
Defined.

Lemma int_between_bounds (lo hi : Z) (v : value) (z : Z) :
  Zod.int_between lo hi v = Some z ->
  (lo <= z <= hi)%Z /\ exists n, v = VNum n /\ Number_to_Z n = Some z.
Proof.
  unfold Zod.int_between, Zod.number.
  destruct v as [| | | n | | |]; try discriminate.
  destruct (is_NaN n); [discriminate |].
  destruct (Number_to_Z n) as [z' |] eqn:Hz; [| discriminate].
  destruct ((lo <=? z') && (z' <=? hi))%Z eqn:Hbounds; [| discriminate].
  intros H. injection H as <-.
  apply andb_true_iff in Hbounds. destruct Hbounds as [Hlo Hhi].
  apply Z.leb_le in Hlo. apply Z.leb_le in Hhi.
  split; [lia |]. exists n. split; [reflexivity | exact Hz].
Qed.

Lemma number_between_bounds (lo hi : Z) (v : value) (n : float) :
  Zod.number_between lo hi v = Some n -> within lo hi n /\ v = VNum n.
Proof.
  unfold Zod.number_between, Zod.number, within.
  destruct v as [| | | n' | | |]; try discriminate.
  destruct (is_NaN n'); [discriminate |].
  destruct (PrimFloat.leb (Number_of_Z lo) n' && PrimFloat.leb n' (Number_of_Z hi))
    eqn:Hbounds; [| discriminate].
  intros H. injection H as <-.
  apply andb_true_iff in Hbounds. split; [exact Hbounds | reflexivity].
Qed.

(** [optional().default(d)] parses the input, or [d] when there is none. *)
Lemma optional_default_some {A : Type} (schema : Zod.Schema A) (d v : value) (a : A) :
  Zod.optional_default schema d v = Some a ->
  (v <> VUndefined /\ schema v = Some a) \/ (v = VUndefined /\ schema d = Some a).
Proof.
  unfold Zod.optional_default, Zod.optional. intros H.
  destruct v;
    [ right; split; [reflexivity |]
    | left; split; [discriminate |] .. ].
  - destruct d; try discriminate;
      destruct (schema _); try discriminate; cbn in H; congruence.
  - destruct (schema _); try discriminate; cbn in H; congruence.
  - destruct (schema _); try discriminate; cbn in H; congruence.
  - destruct (schema _); try discriminate; cbn in H; congruence.
  - destruct (schema _); try discriminate; cbn in H; congruence.
  - destruct (schema _); try discriminate; cbn in H; congruence.
  - destruct (schema _); try discriminate; cbn in H; congruence.
Qed.

(** [z.string().optional()] parses a text, or nothing when there is none. *)
Lemma optional_string_some (v : value) (text : option string) :
  Zod.optional Zod.string_ v = Some text ->
  match text with
  | Some t => v = VStr t
  | None => v = VUndefined
  end.
Proof.
  unfold Zod.optional, Zod.string_.
  destruct v; cbn; intros H; try discriminate; injection H as <-; reflexivity.
Qed.

Lemma string_some (v : value) (text : string) :
  Zod.string_ v = Some text -> v = VStr text.
Proof.
  destruct v; cbn; intros H; try discriminate; injection H as <-; reflexivity.
Qed.

(** A whole number with a default, as the schemas of [limit] and
    [forecast_days] parse it. *)
Lemma whole_with_default (lo hi default : Z) (fields : list (string * value))
    (name : string) (z : Z) :
  Zod.int_between lo hi (VNum (Number_of_Z default)) = Some default ->
  Zod.optional_default (Zod.int_between lo hi) (VNum (Number_of_Z default))
    (own_property fields name) = Some z ->
  (lo <= z <= hi)%Z /\ holds_whole (VObj fields) name default z.
Proof.
  intros Hdefault Hparsed. unfold holds_whole.
  destruct (optional_default_some _ _ _ _ Hparsed) as [[Hv Hz] | [Hv Hz]].
  - destruct (int_between_bounds _ _ _ _ Hz) as [Hbounds [n [Hn Hwhole]]].
    split; [exact Hbounds |].
    exists fields. split; [reflexivity |]. right. exists n. split; assumption.
  - rewrite Hdefault in Hz. injection Hz as <-.
    destruct (int_between_bounds _ _ _ _ Hdefault) as [Hbounds _].
    split; [exact Hbounds |].
    exists fields. split; [reflexivity |]. left. split; [exact Hv | reflexivity].
Qed.

(** What the schema of [geocode] lets through. *)
Lemma geocode_schema_accepts (raw : value) (address : string) (limit : Z)
    (country : option string) :
  Schemas.geocode raw = Zod.Valid (address, limit, country) ->
  holds_text raw "address" address
  /\ holds_whole raw "limit" 1 limit
  /\ holds_optional_text raw "country" country
  /\ (1 <= limit <= 10)%Z.
Proof.
  unfold Schemas.geocode, Zod.and_then, Zod.field.
  destruct raw as [| | | | | | fields]; try discriminate.
  destruct (Zod.string_ (own_property fields "address")) as [a |] eqn:Haddress;
    [| discriminate].
  destruct (Zod.optional_default (Zod.int_between 1 10) (VNum 1)
              (own_property fields "limit")) as [z |] eqn:Hlimit; [| discriminate].
  destruct (Zod.optional Zod.string_ (own_property fields "country")) as [c |]
    eqn:Hcountry; [| discriminate].
  intros H. injection H as <- <- <-.
  destruct (whole_with_default 1 10 1 fields "limit" z eq_refl Hlimit)
    as [Hbounds Hholds].
  split; [exists fields; split; [reflexivity | exact (string_some _ _ Haddress)] |].
  split; [exact Hholds |].
  split; [| exact Hbounds].
  exists fields. split; [reflexivity | exact (optional_string_some _ _ Hcountry)].
Qed.

(** What the schema of [get-weather] lets through. *)
Lemma get_weather_schema_accepts (raw : value) (latitude longitude : float)
    (forecast_days : Z) :
  Schemas.get_weather raw = Zod.Valid (latitude, longitude, forecast_days) ->
  holds_number raw "latitude" latitude
  /\ holds_number raw "longitude" longitude
  /\ holds_whole raw "forecast_days" 7 forecast_days
  /\ within (-90) 90 latitude /\ within (-180) 180 longitude
  /\ (1 <= forecast_days <= 16)%Z.
Proof.
  unfold Schemas.get_weather, Zod.and_then, Zod.field.
  destruct raw as [| | | | | | fields]; try discriminate.
  destruct (Zod.number_between (-90) 90 (own_property fields "latitude"))
    as [lat |] eqn:Hlat; [| discriminate].
  destruct (Zod.number_between (-180) 180 (own_property fields "longitude"))
    as [lon |] eqn:Hlon; [| discriminate].
  destruct (Zod.optional_default (Zod.int_between 1 16) (VNum 7)
              (own_property fields "forecast_days")) as [z |] eqn:Hdays; [| discriminate].
  intros H. injection H as <- <- <-.
  destruct (number_between_bounds _ _ _ _ Hlat) as [Hlat_in Hlat_is].
  destruct (number_between_bounds _ _ _ _ Hlon) as [Hlon_in Hlon_is].
  destruct (whole_with_default 1 16 7 fields "forecast_days" z eq_refl Hdays)
    as [Hbounds Hholds].
  split; [exists fields; split; [reflexivity | exact Hlat_is] |].
  split; [exists fields; split; [reflexivity | exact Hlon_is] |].
  repeat (split; [assumption |]). exact Hbounds.
Qed.

Lemma Calls_run {A : Type} (events : list Event) (m : Eff A) :
  Calls events m -> snd (run m) = events.
Proof.
  intros H. exact (H []).
Qed.

(** The requests that the handlers build are the queries, parameter by
    parameter. *)
Lemma geocode_request_query (h : Host) (address : string) (limit : Z)
    (country : option string) :
  Index.geocode_request h address limit country = geocode_query h address limit country
  /\ Registered.geocode_request h address limit country
     = geocode_query h address limit country.
Proof.
  unfold Index.geocode_request, Registered.geocode_request, geocode_query, given.
  destruct country as [c |]; [destruct (String.eqb c EmptyString) |];
    split; reflexivity.
Qed.

Lemma weather_request_query (h : Host) (latitude longitude : float)
    (forecast_days : Z) (timezone : option string) :
  Index.weather_request h latitude longitude forecast_days
  = forecast_query_index h latitude longitude forecast_days
  /\ Registered.weather_request h latitude longitude forecast_days timezone
     = forecast_query_registered h latitude longitude forecast_days timezone.
Proof.
  unfold Registered.weather_request, forecast_query_registered, given.
  destruct timezone as [tz |]; [destruct (String.eqb tz EmptyString) |];
    split; reflexivity.
Qed.

(** Invoked through their registrations, [geocode] and [get-weather] make
    one request, whose parameters are those of the argument bag within the
    limits of the input schema: [geocode] asks for the address of the bag
    and between 1 and 10 matches (1 when the bag has no [limit]), in the
    lower-cased country when one is given; [get-weather] asks for the
    latitude (within -90..90) and the longitude (within -180..180) of the
    bag and between 1 and 16 days (7 when the bag has no
    [forecast_days]). *)
Theorem requests_within_limits (h : Host) (w : World) (raw : value)
    (outcome : Completion InvocationResult * list Event) :
  (call Index.geocode_tool h w raw = Zod.Valid outcome
   \/ call Registered.geocode_tool h w raw = Zod.Valid outcome ->
   exists address limit country,
     holds_text raw "address" address
     /\ holds_whole raw "limit" 1 limit
     /\ holds_optional_text raw "country" country
     /\ (1 <= limit <= 10)%Z
     /\ snd outcome = [Fetched (geocode_query h address limit country)])
  /\ (call Index.get_weather_tool h w raw = Zod.Valid outcome ->
      exists latitude longitude forecast_days,
        holds_number raw "latitude" latitude
        /\ holds_number raw "longitude" longitude
        /\ holds_whole raw "forecast_days" 7 forecast_days
        /\ within (-90) 90 latitude /\ within (-180) 180 longitude
        /\ (1 <= forecast_days <= 16)%Z
        /\ snd outcome
           = [Fetched (forecast_query_index h latitude longitude forecast_days)])
  /\ (call Registered.get_weather_tool h w raw = Zod.Valid outcome ->
      exists latitude longitude forecast_days timezone,
        holds_number raw "latitude" latitude
        /\ holds_number raw "longitude" longitude
        /\ holds_whole raw "forecast_days" 7 forecast_days
        /\ holds_optional_text raw "timezone" timezone
        /\ within (-90) 90 latitude /\ within (-180) 180 longitude
        /\ (1 <= forecast_days <= 16)%Z
        /\ snd outcome
           = [Fetched (forecast_query_registered h latitude longitude forecast_days
                         timezone)]).
Proof.
  split; [| split].
  - unfold call.
    cbn [inputSchema handler Index.geocode_tool Registered.geocode_tool].
    destruct (Schemas.geocode raw) as [[[address limit] country] | f] eqn:Hschema;
      [| intros [H | H]; discriminate].
    destruct (geocode_schema_accepts raw address limit country Hschema)
      as [Haddress [Hlimit [Hcountry Hbounds]]].
    intros H. exists address, limit, country.
    repeat (split; [assumption |]).
    destruct H as [H | H]; injection H as <-; apply Calls_run.
    + rewrite <- (proj1 (geocode_request_query h address limit country)).
      unfold Index.geocode. calls.
    + rewrite <- (proj2 (geocode_request_query h address limit country)).
      unfold Registered.geocode. calls.
  - unfold call. cbn [inputSchema handler Index.get_weather_tool].
    destruct (Schemas.get_weather raw) as [[[latitude longitude] days] | f] eqn:Hschema;
      [| discriminate].
    destruct (get_weather_schema_accepts raw latitude longitude days Hschema)
      as [Hlat [Hlon [Hdays [Hlat_in [Hlon_in Hbounds]]]]].
    intros H. injection H as <-. exists latitude, longitude, days.
    repeat (split; [assumption |]). apply Calls_run.
    rewrite <- (proj1 (weather_request_query h latitude longitude days None)).
    unfold Index.get_weather. calls.
  - unfold call. cbn [inputSchema handler Registered.get_weather_tool].
    unfold Schemas.get_weather_timezone, Zod.and_then.
    destruct (Schemas.get_weather raw) as [[[latitude longitude] days] | f] eqn:Hschema;
      [| discriminate].
    destruct (get_weather_schema_accepts raw latitude longitude days Hschema)
      as [Hlat [Hlon [Hdays [Hlat_in [Hlon_in Hbounds]]]]].
    destruct (Zod.field raw "timezone" (Zod.optional Zod.string_)) as [timezone | f]
      eqn:Hzone; [| discriminate].
    assert (Htimezone : holds_optional_text raw "timezone" timezone).
    { unfold Zod.field in Hzone. destruct raw as [| | | | | | fields]; try discriminate.
      destruct (Zod.optional Zod.string_ (own_property fields "timezone")) as [t |]
        eqn:Hparsed; [| discriminate].
      injection Hzone as <-. exists fields. split; [reflexivity |].
      exact (optional_string_some _ _ Hparsed). }
    intros H. injection H as <-. exists latitude, longitude, days, timezone.
    repeat (split; [assumption |]). apply Calls_run.
    rewrite <- (proj2 (weather_request_query h latitude longitude days timezone)).
    unfold Registered.get_weather. calls.
Qed.

(** A search for Seoul in [KR], with no [limit] in the bag: the request
    asks for one match in [kr]. *)
Lemma requests_within_limits_witness :
  exists address limit country,
    holds_text (VObj [("address", VStr "Seoul"); ("country", VStr "KR")])
      "address" address
    /\ holds_whole (VObj [("address", VStr "Seoul"); ("country", VStr "KR")])
         "limit" 1 limit
    /\ holds_optional_text (VObj [("address", VStr "Seoul"); ("country", VStr "KR")])
         "country" country
    /\ (1 <= limit <= 10)%Z
    /\ [Fetched
          {| endpoint := "https://nominatim.openstreetmap.org/search";
             params := [("q", "Seoul"); ("format", "json"); ("limit", "1");
                        ("addressdetails", "1"); ("countrycodes", "kr")];
             headers := [("User-Agent", "MCP-Geocode-Tool/1.0");
                         ("Accept", "application/json")] |}]
       = [Fetched (geocode_query ascii_host address limit country)].
Proof.
  apply (proj1 (requests_within_limits ascii_host
                  (upstream (Normal (VArr [])) (Normal []))
                  (VObj [("address", VStr "Seoul"); ("country", VStr "KR")])
                  (run (Index.geocode ascii_host
                          (upstream (Normal (VArr [])) (Normal []))
                          "Seoul" (Some 1%Z) (Some "KR"))))).
  left. reflexivity.
Defined.

(** ** The credential of the inference client *)

(** In [part_000] the token of the inference client is decided when the
    server is created: a configured token that is not empty, and the
    [HF_TOKEN] of the environment at that time otherwise.  What the
    environment holds when [generate-image] is invoked plays no part: the
    handler makes the same call, with the token of the client, and comes to
    the same outcome. *)
Theorem credential_fixed_at_creation (config : option Registered.Config)
    (env_HF_TOKEN : option string) (h : Host) (w : World) (token : option string)
    (prompt : string) :
  (forall c, config = Some c -> given (Registered.hfToken c) = true ->
             Registered.hfClient config env_HF_TOKEN = Registered.hfToken c)
  /\ ((forall c, config = Some c -> given (Registered.hfToken c) = false) ->
      Registered.hfClient config env_HF_TOKEN = env_HF_TOKEN)
  /\ run (handler (Registered.generate_image_tool
                     (Registered.hfClient config env_HF_TOKEN))
            h (with_HF_TOKEN token w) prompt)
     = run (handler (Registered.generate_image_tool
                       (Registered.hfClient config env_HF_TOKEN)) h w prompt)
  /\ snd (run (handler (Registered.generate_image_tool
                          (Registered.hfClient config env_HF_TOKEN))
                 h (with_HF_TOKEN token w) prompt))
     = [Inferred (inference_call (Registered.hfClient config env_HF_TOKEN) prompt)].
Proof.
  split; [| split; [| split]].
  - intros c -> Hgiven. unfold Registered.hfClient. rewrite Hgiven. reflexivity.
  - intros Hconfig. unfold Registered.hfClient.
    destruct config as [c |]; [| reflexivity].
    rewrite (Hconfig c eq_refl). reflexivity.
  - reflexivity.
  - apply Calls_run. cbn [handler Registered.generate_image_tool].
    unfold Registered.generate_image, inference_call. calls.
Qed.

Lemma credential_fixed_at_creation_witness :
  Registered.hfClient (Some {| Registered.hfToken := Some "hf_config" |}) (Some "hf_env")
  = Some "hf_config"
  /\ Registered.hfClient (Some {| Registered.hfToken := Some EmptyString |}) (Some "hf_env")
     = Some "hf_env".
Proof.
  split.
  - apply (proj1 (credential_fixed_at_creation
                    (Some {| Registered.hfToken := Some "hf_config" |}) (Some "hf_env")
                    ascii_host (upstream (Normal VNull) (Normal [])) None "a cat")
             {| Registered.hfToken := Some "hf_config" |} eq_refl eq_refl).
  - apply (proj1 (proj2 (credential_fixed_at_creation
                           (Some {| Registered.hfToken := Some EmptyString |})
                           (Some "hf_env")
                           ascii_host (upstream (Normal VNull) (Normal [])) None "a cat"))).
    intros c Hc. injection Hc as <-. reflexivity.
Defined.

(** ** The sections of the weather report (C5) *)

Lemma current_block_index_text (h : Host) (data x : value) (p : string)
    (resultText : string) :
  get h data p = Normal x ->
  Index.current_block h data resultText
  = Normal (resultText ++ current_section_index h data).
Proof.
  intros Hdata. unfold Index.current_block, current_section_index, and_next.
  rewrite (get_after_get h data p "current_weather" x Hdata).
  destruct (truthy (get_opt h data "current_weather")) eqn:Hcurrent.
  - rewrite !(get_truthy h _ _ Hcurrent). f_equal. same_text.
  - rewrite append_empty_r. reflexivity.
Qed.

Lemma current_block_registered_text (h : Host) (data x : value) (p : string)
    (resultText : string) :
  get h data p = Normal x ->
  Registered.current_block h data resultText
  = Normal (resultText ++ current_section_registered h data).
Proof.
  intros Hdata. unfold Registered.current_block, current_section_registered, and_next.
  rewrite (get_after_get h data p "current_weather" x Hdata).
  destruct (truthy (get_opt h data "current_weather")) eqn:Hcurrent.
  - rewrite !(get_truthy h _ _ Hcurrent). f_equal. same_text.
  - rewrite append_empty_r. reflexivity.
Qed.

Lemma header_block_text (h : Host) (latitude longitude : float) (data x : value)
    (p : string) :
  get h data p = Normal x ->
  Registered.header_block h latitude longitude data
  = Normal (report_head_registered h latitude longitude data).
Proof.
  intros Hdata. unfold Registered.header_block, report_head_registered, and_next.
  rewrite (get_after_get h data p "timezone" x Hdata),
    (get_after_get h data p "elevation" x Hdata).
  fold (location_line h latitude longitude).
  generalize (location_line h latitude longitude). intros line.
  destruct (truthy (get_opt h data "timezone")), (defined (get_opt h data "elevation"));
    f_equal; same_text.
Qed.

Lemma hourly_block_text (h : Host) (data : value) (fields : list (string * value))
    (hours : list value) (resultText : string) :
  hourly_payload h data fields hours ->
  Registered.hourly_block h data resultText
  = Normal (resultText ++ hourly_section h fields hours).
Proof.
  intros [Hhourly Htime]. unfold Registered.hourly_block, hourly_section, and_next.
  rewrite Hhourly, get_object, Htime. cbn [truthy length_of].
  rewrite loop_rounds_counted.
  rewrite (for_loop_appends _
             (fun i => hour_entry_registered h fields (i, nth i hours VUndefined)))
    by (intros; apply hourly_round_registered; exact Htime).
  rewrite (firstn_indexed VUndefined), map_map, !append_assoc. reflexivity.
Qed.

(** A block for a payload that the body does not have leaves the text as
    it is. *)
Lemma daily_block_index_skips (h : Host) (forecast_days : Z) (data x : value)
    (p : string) (resultText : string) :
  get h data p = Normal x ->
  no_payload h data "daily" ->
  Index.daily_block h forecast_days data resultText = Normal resultText.
Proof.
  intros Hdata Hnone. unfold Index.daily_block, and_next.
  rewrite (get_after_get h data p "daily" x Hdata).
  destruct (truthy (get_opt h data "daily")) eqn:Hdaily; [| reflexivity].
  rewrite (get_truthy h _ _ Hdaily).
  destruct Hnone as [Hnone | Hnone]; [congruence |].
  rewrite Hnone. reflexivity.
Qed.

Lemma hourly_block_skips (h : Host) (data x : value) (p : string)
    (resultText : string) :
  get h data p = Normal x ->
  no_payload h data "hourly" ->
  Registered.hourly_block h data resultText = Normal resultText.
Proof.
  intros Hdata Hnone. unfold Registered.hourly_block, and_next.
  rewrite (get_after_get h data p "hourly" x Hdata).
  destruct (truthy (get_opt h data "hourly")) eqn:Hhourly; [| reflexivity].
  rewrite (get_truthy h _ _ Hhourly).
  destruct Hnone as [Hnone | Hnone]; [congruence |].
  rewrite Hnone. reflexivity.
Qed.

(** The report of [index.ts], block after block. *)
Lemma index_report_blocks (h : Host) (w : World) (data : value)
    (latitude longitude : float) (forecast_days : Z) (daily : string) :
  answers w data ->
  (forall resultText,
      Index.daily_block h forecast_days data resultText = Normal (resultText ++ daily)) ->
  nullish data = false ->
  run (Index.get_weather h w latitude longitude (Some forecast_days))
  = (Normal (text_result
               (location_line h latitude longitude ++ nl
                ++ current_section_index h data ++ daily)),
     [Fetched (Index.weather_request h latitude longitude forecast_days)]).
Proof.
  intros Hanswers Hdaily Hdata.
  destruct (Hanswers (Index.weather_request h latitude longitude forecast_days))
    as [response [Hfetch [Hok Hjson]]].
  pose proof (get_not_nullish h data "daily" Hdata) as Hget.
  unfold run, Index.get_weather, try_catch, bind, do_fetch, lift, ret.
  cbn [or_default]. rewrite Hfetch, Hok, Hjson. simpl negb. cbv iota.
  rewrite (current_block_index_text h data _ "daily" _ Hget), Hdaily.
  unfold location_line. rewrite !append_assoc. reflexivity.
Qed.

(** The report of [part_000], block after block. *)
Lemma registered_report_blocks (h : Host) (w : World) (data : value)
    (latitude longitude : float) (forecast_days : Z) (timezone : option string)
    (daily hourly : string) :
  answers w data ->
  truthy (get_opt h data "error") = false ->
  (forall resultText,
      Registered.daily_block h forecast_days data resultText
      = Normal (resultText ++ daily)) ->
  (forall resultText,
      Registered.hourly_block h data resultText = Normal (resultText ++ hourly)) ->
  nullish data = false ->
  run (Registered.get_weather h w latitude longitude (Some forecast_days) timezone)
  = (Normal (mirrored_result
               (report_head_registered h latitude longitude data
                ++ current_section_registered h data ++ daily ++ hourly)),
     [Fetched (Registered.weather_request h latitude longitude forecast_days timezone)]).
Proof.
  intros Hanswers Herror Hdaily Hhourly Hdata.
  destruct (Hanswers (Registered.weather_request h latitude longitude forecast_days
                        timezone))
    as [response [Hfetch [Hok Hjson]]].
  pose proof (get_not_nullish h data "error" Hdata) as Hget.
  unfold run, Registered.get_weather, try_catch, bind, do_fetch, lift, ret.
  cbn [or_default]. rewrite Hfetch, Hok, Hjson. simpl negb. cbv iota.
  rewrite Hget, Herror.
  rewrite (header_block_text h latitude longitude data _ "error" Hget).
  rewrite (current_block_registered_text h data _ "error" _ Hget), Hdaily, Hhourly.
  rewrite !append_assoc. reflexivity.
Qed.

Lemma payload_not_nullish (h : Host) (data x : value) (p : string)
    (fields : list (string * value)) :
  get h data p = Normal (VObj fields) -> nullish data = false.
Proof.
  destruct data; try reflexivity; discriminate.
Qed.

Lemma first_days_count (forecast_days : Z) (days : list value) :
  (1 <= forecast_days)%Z ->
  Z.of_nat (length (firstn (Z.to_nat forecast_days) (indexed 0 days)))
  = Z.min forecast_days (Z.of_nat (length days)).
Proof.
  intros Hrange. rewrite length_firstn. unfold indexed.
  rewrite length_combine, length_seq. lia.
Qed.

(** C5.  For [forecast_days] between 1 and 16 and a success answer whose
    body (of values that can be converted to strings) has a daily payload
    listing [d] days, the report of either edition holds the daily section
    right after the head and the current-weather section: the title and
    then one entry for each of the first [min(forecast_days, d)] days, in
    upstream order, and nothing else ([part_000]: but for the hourly
    section that follows when the body has an hourly payload). *)
Theorem daily_forecast_entries (h : Host) (w : World) (data : value)
    (latitude longitude : float) (forecast_days : Z) (timezone : option string)
    (fields : list (string * value)) (days : list value)
    (hourly_fields : list (string * value)) (hours : list value) :
  (1 <= forecast_days <= 16)%Z ->
  answers w data ->
  printable data = true ->
  daily_payload h data fields days ->
  run (Index.get_weather h w latitude longitude (Some forecast_days))
  = (Normal (text_result
               (location_line h latitude longitude ++ nl
                ++ current_section_index h data
                ++ "📅 " ++ decimal forecast_days ++ "일 예보" ++ nl
                ++ join_all (map (day_entry_index h fields)
                               (firstn (Z.to_nat forecast_days) (indexed 0 days))))),
     [Fetched (Index.weather_request h latitude longitude forecast_days)])
  /\ (truthy (get_opt h data "error") = false ->
      (hourly_payload h data hourly_fields hours ->
       run (Registered.get_weather h w latitude longitude (Some forecast_days) timezone)
       = (Normal (mirrored_result
                    (report_head_registered h latitude longitude data
                     ++ current_section_registered h data
                     ++ ("📅 " ++ decimal forecast_days ++ "일 일별 예보" ++ nl
                         ++ section_rule ++ nl
                         ++ join_all (map (day_entry_registered h fields)
                                        (firstn (Z.to_nat forecast_days)
                                           (indexed 0 days))))
                     ++ hourly_section h hourly_fields hours)),
          [Fetched (Registered.weather_request h latitude longitude forecast_days
                      timezone)]))
      /\ (no_payload h data "hourly" ->
          run (Registered.get_weather h w latitude longitude (Some forecast_days)
                 timezone)
          = (Normal (mirrored_result
                       (report_head_registered h latitude longitude data
                        ++ current_section_registered h data
                        ++ "📅 " ++ decimal forecast_days ++ "일 일별 예보" ++ nl
                        ++ section_rule ++ nl
                        ++ join_all (map (day_entry_registered h fields)
                                       (firstn (Z.to_nat forecast_days)
                                          (indexed 0 days))))),
             [Fetched (Registered.weather_request h latitude longitude forecast_days
                         timezone)])))
  /\ Z.of_nat (length (firstn (Z.to_nat forecast_days) (indexed 0 days)))
     = Z.min forecast_days (Z.of_nat (length days)).
Proof.
  intros Hrange Hanswers _ [Hdaily Htime].
  pose proof (payload_not_nullish h data (VObj fields) "daily" fields Hdaily) as Hdata.
  split; [| split].
  - apply (index_report_blocks h w data latitude longitude forecast_days
             (daily_section_index h forecast_days fields days) Hanswers);
      [| exact Hdata].
    intros resultText.
    apply (daily_block_index_appends h forecast_days data fields days); assumption.
  - intros Herror. split.
    + intros Hhourly.
      apply (registered_report_blocks h w data latitude longitude forecast_days timezone
               (daily_section_registered h forecast_days fields days)
               (hourly_section h hourly_fields hours) Hanswers Herror);
        [| | exact Hdata].
      * intros resultText.
        apply (daily_block_registered_appends h forecast_days data fields days);
          assumption.
      * intros resultText. apply hourly_block_text. exact Hhourly.
    + intros Hnone.
      rewrite (registered_report_blocks h w data latitude longitude forecast_days
                 timezone (daily_section_registered h forecast_days fields days)
                 EmptyString Hanswers Herror); [| | | exact Hdata].
      * rewrite !append_empty_r. reflexivity.
      * intros resultText.
        apply (daily_block_registered_appends h forecast_days data fields days);
          assumption.
      * intros resultText. rewrite append_empty_r.
        apply (hourly_block_skips h data _ "daily" resultText Hdaily Hnone).
  - apply first_days_count. lia.
Qed.

(** Two of three upstream days requested from the sample upstream: each
    edition writes the first two days, in order. *)
Lemma daily_forecast_entries_witness :
  texts_of (run (Index.get_weather ascii_host
                   (upstream (Normal sample_forecast) (Normal [])) 37 127 (Some 2%Z)))
  = [ String.concat nl
        [ "📍 위치: 위도 37, 경도 127"; EmptyString;
          "🌤️ 현재 날씨"; "온도: 3°C"; "풍속: 5 km/h"; EmptyString;
          "📅 2일 예보"; "2025-12-15: 1°C ~ 5°C"; "2025-12-16: 2°C ~ 6°C";
          EmptyString ] ]
  /\ texts_of (run (Registered.get_weather ascii_host
                      (upstream (Normal sample_forecast) (Normal [])) 37 127
                      (Some 2%Z) None))
     = [ String.concat nl
           [ "📍 위치: 위도 37, 경도 127"; "🌍 시간대: GMT"; "⛰️  고도: 38m"; EmptyString;
             "🌤️  현재 날씨"; section_rule; "온도: 3°C"; "날씨: ☁️ 흐림 (코드: 3)";
             "풍속: 5 km/h"; "풍향: 270°"; "시간: 2025-12-15T09:00"; EmptyString;
             "📅 2일 일별 예보"; section_rule;
             "12월 15일 (월)"; "  🌡️  기온: 1°C ~ 5°C"; "  ☁️  날씨: ☀️ 맑음";
             "  🌧️  강수량: 0mm"; "  💨 최대 풍속: 10 km/h"; EmptyString;
             "12월 16일 (화)"; "  🌡️  기온: 2°C ~ 6°C"; "  ☁️  날씨: 🌫️ 안개";
             "  🌧️  강수량: 4mm"; "  💨 최대 풍속: 12 km/h"; EmptyString;
             "⏰ 다음 24시간 시간별 예보"; section_rule;
             "12월 15일 오전 09:00"; "  🌡️  3°C";
             "12월 15일 오후 03:00"; "  🌡️  4°C | 🌧️  강수: 2mm"; EmptyString ] ].
Proof.
  assert (Hanswers : answers (upstream (Normal sample_forecast) (Normal []))
                       sample_forecast)
    by (intros req; eexists; repeat split).
  pose proof (daily_forecast_entries ascii_host
                (upstream (Normal sample_forecast) (Normal [])) sample_forecast
                37 127 2 None three_days
                [VStr "2025-12-15"; VStr "2025-12-16"; VStr "2025-12-17"]
                two_hours [VStr "2025-12-15T09:00"; VStr "2025-12-15T15:00"]
                ltac:(lia) Hanswers eq_refl (conj eq_refl eq_refl)) as [HI [HR _]].
  rewrite HI, (proj1 (HR eq_refl) (conj eq_refl eq_refl)). split; reflexivity.
Defined.


(** Whatever the daily payload is, the daily block of [part_000] appends
    one and the same section to any text. *)
Lemma daily_block_registered_section (h : Host) (forecast_days : Z) (data : value) :
  nullish data = false ->
  exists daily, forall resultText,
    Registered.daily_block h forecast_days data resultText = Normal (resultText ++ daily).
Proof.
  intros Hdata. unfold Registered.daily_block, and_next.
  rewrite (get_not_nullish h data "daily" Hdata).
  destruct (truthy (get_opt h data "daily")) eqn:Hdaily;
    [| exists EmptyString; intros; rewrite append_empty_r; reflexivity].
  rewrite (get_truthy h _ "time" Hdaily).
  destruct (truthy (get_opt h (get_opt h data "daily") "time")) eqn:Htime;
    [| exists EmptyString; intros; rewrite append_empty_r; reflexivity].
  destruct (length_of_truthy h _ Htime) as [len Hlen]. rewrite Hlen.
  assert (Hround : exists entry, forall i text,
             Registered.daily_round h (get_opt h data "daily") i text
             = Normal (text ++ entry i)).
  { eexists. intros i text. unfold Registered.daily_round, and_next.
    rewrite !(get_truthy h _ _ Hdaily), (index_truthy h _ i Htime). reflexivity. }
  destruct Hround as [entry Hround].
  eexists. intros resultText.
  rewrite (for_loop_appends _ entry Hround). rewrite !append_assoc. reflexivity.
Qed.

(** The report of [get-weather] of [index.ts] for a success answer (of
    values that can be converted to strings): the location, the
    current-weather section, and the daily section of the payload, when
    the body has one. *)
Theorem get_weather_index_report (h : Host) (w : World) (data : value)
    (latitude longitude : float) (forecast_days : Z) :
  answers w data ->
  printable data = true ->
  nullish data = false ->
  (forall fields days,
      daily_payload h data fields days ->
      run (Index.get_weather h w latitude longitude (Some forecast_days))
      = (Normal (text_result
                   (location_line h latitude longitude ++ nl
                    ++ current_section_index h data
                    ++ daily_section_index h forecast_days fields days)),
         [Fetched (Index.weather_request h latitude longitude forecast_days)]))
  /\ (no_payload h data "daily" ->
      run (Index.get_weather h w latitude longitude (Some forecast_days))
      = (Normal (text_result
                   (location_line h latitude longitude ++ nl
                    ++ current_section_index h data)),
         [Fetched (Index.weather_request h latitude longitude forecast_days)])).
Proof.
  intros Hanswers _ Hdata. split.
  - intros fields days [Hdaily Htime].
    apply (index_report_blocks h w data latitude longitude forecast_days
             (daily_section_index h forecast_days fields days) Hanswers);
      [| exact Hdata].
    intros resultText.
    apply (daily_block_index_appends h forecast_days data fields days); assumption.
  - intros Hnone.
    rewrite (index_report_blocks h w data latitude longitude forecast_days
               EmptyString Hanswers); [| | exact Hdata].
    + rewrite !append_empty_r. reflexivity.
    + intros resultText. rewrite append_empty_r.
      apply (daily_block_index_skips h forecast_days data _ "daily" resultText
               (get_not_nullish h data "daily" Hdata) Hnone).
Qed.

(** A body with the current weather only. *)
Lemma get_weather_index_report_witness :
  texts_of (run (Index.get_weather ascii_host
                   (upstream (Normal (VObj [("current_weather",
                                             VObj [("temperature", VNum 3);
                                                   ("wind_speed", VNum 5)])]))
                      (Normal []))
                   37 127 (Some 2%Z)))
  = [ String.concat nl
        [ "📍 위치: 위도 37, 경도 127"; EmptyString;
          "🌤️ 현재 날씨"; "온도: 3°C"; "풍속: 5 km/h"; EmptyString; EmptyString ] ].
Proof.
  assert (Hanswers : answers
                       (upstream (Normal (VObj [("current_weather",
                                                 VObj [("temperature", VNum 3);
                                                       ("wind_speed", VNum 5)])]))
                          (Normal []))
                       (VObj [("current_weather",
                               VObj [("temperature", VNum 3); ("wind_speed", VNum 5)])]))
    by (intros req; eexists; repeat split).
  rewrite (proj2 (get_weather_index_report ascii_host _ _ 37 127 2
                    Hanswers eq_refl eq_refl)).
  - reflexivity.
  - left. reflexivity.
Defined.



(** The hourly section of [part_000] covers the next 24 hours at most: for
    a success answer without an error flag whose body (of values that can
    be converted to strings) has an hourly payload listing [n] hours, the
    report ends, after the head, the current-weather section and whatever
    the daily block wrote, with the title, the rule and one entry for each
    of the first [min(24, n)] hours, in order. *)
Theorem hourly_forecast_entries (h : Host) (w : World) (data : value)
    (latitude longitude : float) (forecast_days : Z) (timezone : option string)
    (fields : list (string * value)) (hours : list value) :
  answers w data ->
  printable data = true ->
  truthy (get_opt h data "error") = false ->
  hourly_payload h data fields hours ->
  (exists daily,
      run (Registered.get_weather h w latitude longitude (Some forecast_days) timezone)
      = (Normal (mirrored_result
                   (report_head_registered h latitude longitude data
                    ++ current_section_registered h data
                    ++ daily
                    ++ "⏰ 다음 24시간 시간별 예보" ++ nl
                    ++ section_rule ++ nl
                    ++ join_all (map (hour_entry_registered h fields)
                                   (firstn 24 (indexed 0 hours))))),
         [Fetched (Registered.weather_request h latitude longitude forecast_days
                     timezone)]))
  /\ length (firstn 24 (indexed 0 hours)) = Nat.min 24 (length hours).
Proof.
  intros Hanswers _ Herror Hhourly.
  assert (Hdata : nullish data = false).
  { destruct Hhourly as [Hget _]. destruct data; try reflexivity; discriminate. }
  split.
  - destruct (daily_block_registered_section h forecast_days data Hdata)
      as [daily Hdaily].
    exists daily.
    apply (registered_report_blocks h w data latitude longitude forecast_days timezone
             daily (hourly_section h fields hours) Hanswers Herror Hdaily);
      [| exact Hdata].
    intros resultText. apply hourly_block_text. exact Hhourly.
  - rewrite length_firstn. unfold indexed.
    rewrite length_combine, length_seq. lia.
Qed.

(** Two hours of the sample upstream; the dry hour shows no precipitation. *)
Lemma hourly_forecast_entries_witness :
  exists daily,
    texts_of (run (Registered.get_weather ascii_host
                     (upstream (Normal (VObj [("hourly", VObj two_hours)])) (Normal []))
                     37 127 (Some 7%Z) None))
    = [ "📍 위치: 위도 37, 경도 127" ++ nl ++ nl
        ++ daily
        ++ String.concat nl
             [ "⏰ 다음 24시간 시간별 예보"; section_rule;
               "12월 15일 오전 09:00"; "  🌡️  3°C";
               "12월 15일 오후 03:00"; "  🌡️  4°C | 🌧️  강수: 2mm"; EmptyString ] ].
Proof.
  assert (Hanswers : answers
                       (upstream (Normal (VObj [("hourly", VObj two_hours)])) (Normal []))
                       (VObj [("hourly", VObj two_hours)]))
    by (intros req; eexists; repeat split).
  destruct (proj1 (hourly_forecast_entries ascii_host _ _ 37 127 7 None two_hours
                     [VStr "2025-12-15T09:00"; VStr "2025-12-15T15:00"]
                     Hanswers eq_refl eq_refl (conj eq_refl eq_refl)))
    as [daily Hrun].
  exists daily. rewrite Hrun. reflexivity.
Defined.
